(** * Impact-Simulator: the enhanced physics engine

    A shallow embedding of [backend/services/physics_engine.py]
    (class [EnhancedPhysicsEngine]) together with the pydantic models of
    [backend/models/asteroid.py] and [backend/models/simulation.py] that the
    engine reads and builds.

    Modelling conventions.
    - A Python [float] is a real number ([R]); the arithmetic is exact.
      Rounding, overflow to infinity and NaN of IEEE doubles are outside
      the model.
    - [Optional[float]] is [option R]; Python truthiness ([if x:], [x or y])
      is [Py.nonzero] and [Py.or_else]: absent and [0.0] are false, every
      other number, a negative one too, is true.
    - Exceptions are values of [PyError]; code that can raise returns a
      [result].
    - The engine object, the two argument objects and the log live in a
      [Heap]; methods that touch them are heap transformers.
    - The text of an f-string field is produced by a formatter taken as a
      parameter ([format_float]); every theorem holds for every formatter. *)

From Stdlib Require Import Reals Lra Lia String List ZArith Bool.
Import ListNotations.
Open Scope R_scope.

(** ** Python values and exceptions *)

Inductive PyError : Type :=
| KeyError (key : string)
| ValueError
| ZeroDivisionError
| TypeError.

Inductive result (A : Type) : Type :=
| Ok (a : A)
| Raise (e : PyError).

Arguments Ok {A} a.
Arguments Raise {A} e.

Definition bind {A B : Type} (m : result A) (k : A -> result B) : result B :=
  match m with
  | Ok a => k a
  | Raise e => Raise e
  end.

Notation "x <- m ;; k" := (bind m (fun x => k))
  (at level 61, m at next level, right associativity).

Module Py.

(** The value guarded by [if x:], when the guard passes. *)
Definition nonzero (x : option R) : option R :=
  match x with
  | None => None
  | Some v => if Req_dec_T v 0 then None else Some v
  end.

(** [x or d] for an [Optional[float]] [x] and a float [d]. *)
Definition or_else (x : option R) (d : R) : R :=
  match x with
  | None => d
  | Some v => if Req_dec_T v 0 then d else v
  end.

(** [min(a, b)]: the first argument unless the second is smaller. *)
Definition min (a b : R) : R := if Rlt_dec b a then b else a.

(** [max(a, b)]: the first argument unless the second is larger. *)
Definition max (a b : R) : R := if Rlt_dec a b then b else a.

(** [a > b] as a boolean. *)
Definition gt (a b : R) : bool := if Rlt_dec b a then true else false.

(** [a / b] raises on a zero divisor. *)
Definition div (a b : R) : result R :=
  if Req_dec_T b 0 then Raise ZeroDivisionError else Ok (a / b).

(** [math.sqrt] raises on a negative argument. *)
Definition math_sqrt (x : R) : result R :=
  if Rlt_dec x 0 then Raise ValueError else Ok (sqrt x).

(** [math.log10] raises unless the argument is positive. *)
Definition math_log10 (x : R) : result R :=
  if Rlt_dec 0 x then Ok (ln x / ln 10) else Raise ValueError.

(** [math.radians] and [math.sin]. *)
Definition math_radians (deg : R) : R := deg * (PI / 180).
Definition math_sin (x : R) : R := sin x.

(** [x ** y] for a float [x] and one of the fractional exponents of the
    engine ([0 < y < 1]).  A negative base gives a complex number in
    Python; every such value of the engine reaches a severity
    comparison [>], which raises [TypeError] on a complex operand, and
    nothing in between can raise, so the model raises here. *)
Definition pow (x y : R) : result R :=
  if Rlt_dec 0 x then Ok (Rpower x y)
  else if Req_dec_T x 0 then Ok 0
  else Raise TypeError.

(** A dict with string keys, in insertion order. *)
Definition dict (V : Type) : Type := list (string * V).

Fixpoint get {V : Type} (d : dict V) (k : string) : option V :=
  match d with
  | [] => None
  | (k', v) :: d' => if String.eqb k k' then Some v else get d' k
  end.

(** [d[k]] raises [KeyError]; [d.get(k, default)] does not. *)
Definition getitem {V : Type} (d : dict V) (k : string) : result V :=
  match get d k with
  | Some v => Ok v
  | None => Raise (KeyError k)
  end.

Definition get_default {V : Type} (d : dict V) (k : string) (default : V) : V :=
  match get d k with
  | Some v => v
  | None => default
  end.

End Py.

(** ** models/asteroid.py *)

Record OrbitalElements : Type := {
  semi_major_axis_au : option R;
  eccentricity : option R;
  inclination_deg : option R;
  orbital_period_days : option R;
  perihelion_distance_au : option R;
  aphelion_distance_au : option R
}.

(** The fields of [Asteroid] that the engine reads. *)
Record Asteroid : Type := {
  nasa_id : string;
  name : string;
  estimated_diameter_km : option R;
  orbital_elements : option OrbitalElements;
  composition_type : string;
  density_kg_m3 : option R
}.

(** ** models/simulation.py *)

Record ImpactLocation : Type := {
  lat : R;
  lng : R;
  location_name : string;
  population : option Z;
  country : option string
}.

Record ImpactParameters : Type := {
  asteroid_nasa_id : string;
  impact_location : ImpactLocation;
  impact_velocity_kms : option R;
  impact_angle_deg : R;
  target_density_kg_m3 : R;
  atmospheric_entry : bool;
  fragmentation_altitude_km : option R
}.

Inductive Severity : Type := Minor | Moderate | Severe | Catastrophic.

Definition severity_str (s : Severity) : string :=
  match s with
  | Minor => "minor"
  | Moderate => "moderate"
  | Severe => "severe"
  | Catastrophic => "catastrophic"
  end.

(** Position of a band in the order minor < moderate < severe < catastrophic. *)
Definition severity_rank (s : Severity) : nat :=
  match s with
  | Minor => 0
  | Moderate => 1
  | Severe => 2
  | Catastrophic => 3
  end.

Definition severity_le (s t : Severity) : Prop :=
  (severity_rank s <= severity_rank t)%nat.

Record ImpactMetric : Type := {
  value : string;
  unit : string;
  severity : Severity;
  description : string;
  progress : R;
  scientific_basis : option string;
  uncertainty_range : option (Py.dict R)
}.

Record ImpactResults : Type := {
  immediate : Py.dict ImpactMetric;
  environmental : Py.dict ImpactMetric;
  human_impact : Py.dict ImpactMetric;
  timeline : Py.dict (Py.dict string);
  asteroid_source : string;
  calculation_method : string;
  confidence_level : R
}.

(** Default of [ImpactResults.confidence_level] in the model class. *)
Definition ImpactResults_default_confidence_level : R := 0.95.

(** ** services/physics_engine.py: state *)

Open Scope string_scope.
Open Scope R_scope.

(** A value stored in [calculation_metadata]. *)
Inductive MetaValue : Type :=
| MetaStr (s : string)
| MetaFloat (x : R).

(** The engine object: its only instance attribute. *)
Record EnhancedPhysicsEngine : Type := {
  calculation_metadata : Py.dict MetaValue
}.

(** [__init__]: [self.calculation_metadata = {}]. *)
Definition EnhancedPhysicsEngine_init : EnhancedPhysicsEngine :=
  {| calculation_metadata := [] |}.

(** The module-level singleton [physics_engine]. *)
Definition physics_engine : EnhancedPhysicsEngine := EnhancedPhysicsEngine_init.

(** The objects a call of [calculate_impact_scenario] can reach: the engine
    ([self]), the two argument objects, and the records emitted through
    [logger]. *)
Record Heap : Type := {
  engine : EnhancedPhysicsEngine;
  arg_asteroid : Asteroid;
  arg_parameters : ImpactParameters;
  log : list string
}.

(** Heap transformers that may raise. *)
Definition M (A : Type) : Type := Heap -> result A * Heap.

Definition ret {A : Type} (a : A) : M A := fun h => (Ok a, h).

Definition bindM {A B : Type} (m : M A) (k : A -> M B) : M B :=
  fun h =>
    match m h with
    | (Ok a, h') => k a h'
    | (Raise e, h') => (Raise e, h')
    end.

Notation "x <~ m ;; k" := (bindM m (fun x => k))
  (at level 61, m at next level, right associativity).

Definition lift {A : Type} (r : result A) : M A := fun h => (r, h).

Definition read_asteroid : M Asteroid := fun h => (Ok (arg_asteroid h), h).

Definition read_parameters : M ImpactParameters :=
  fun h => (Ok (arg_parameters h), h).

(** [logger.info(msg)]. *)
Definition logger_info (msg : string) : M Datatypes.unit :=
  fun h =>
    (Ok tt, {| engine := engine h; arg_asteroid := arg_asteroid h;
               arg_parameters := arg_parameters h; log := log h ++ [msg] |}).

(** [self.calculation_metadata = d]. *)
Definition set_calculation_metadata (d : Py.dict MetaValue) : M Datatypes.unit :=
  fun h =>
    (Ok tt, {| engine := {| calculation_metadata := d |};
               arg_asteroid := arg_asteroid h;
               arg_parameters := arg_parameters h; log := log h |}).

(** ** services/physics_engine.py: constants *)

Definition EARTH_ESCAPE_VELOCITY : R := 11.2.
Definition EARTH_RADIUS : R := 6371.
Definition EARTH_MASS : R := 5.972e24.
Definition G : R := 6.67430e-11.
Definition AU : R := 1.496e11.

Definition MATERIAL_DENSITIES : Py.dict R :=
  [("rocky", 2600); ("iron", 7800); ("icy", 1000); ("stony", 3500)].

(** ** Severity classification methods *)

(** The shape shared by the twelve classifiers:
    [if x > c: catastrophic elif x > s: severe elif x > m: moderate; minor]. *)
Definition bands (x c s m : R) : Severity :=
  if Py.gt x c then Catastrophic
  else if Py.gt x s then Severe
  else if Py.gt x m then Moderate
  else Minor.

Definition _get_crater_severity (diameter_km : R) : Severity :=
  bands diameter_km 20 10 2.
Definition _get_energy_severity (energy_mt : R) : Severity :=
  bands energy_mt 100000 10000 1000.
Definition _get_temperature_severity (temp : R) : Severity :=
  bands temp 50000 20000 5000.
Definition _get_fireball_severity (radius_km : R) : Severity :=
  bands radius_km 100 50 10.
Definition _get_shockwave_severity (radius_km : R) : Severity :=
  bands radius_km 2000 1000 200.
Definition _get_debris_severity (radius_km : R) : Severity :=
  bands radius_km 5000 2500 1000.
Definition _get_seismic_severity (magnitude : R) : Severity :=
  bands magnitude 8 7 5.
Definition _get_dust_severity (billion_tons : R) : Severity :=
  bands billion_tons 50 10 1.
Definition _get_casualty_severity (casualties : R) : Severity :=
  bands casualties 5000000 1000000 100000.
Definition _get_infrastructure_severity (radius_km : R) : Severity :=
  bands radius_km 1000 500 100.
Definition _get_economic_severity (loss_billion : R) : Severity :=
  bands loss_billion 5000 1000 100.
Definition _get_refugee_severity (refugees : R) : Severity :=
  bands refugees 20000000 5000000 1000000.

(** The twelve metrics, and the classifier of each. *)
Inductive MetricName : Type :=
| craterDiameter | energy | temperature | fireballRadius
| shockwaveRadius | debrisFieldRadius | seismicMagnitude | atmosphericDust
| casualtiesImmediate | infrastructureDamage | economicLoss | refugeePopulation.

Definition classifier (m : MetricName) : R -> Severity :=
  match m with
  | craterDiameter => _get_crater_severity
  | energy => _get_energy_severity
  | temperature => _get_temperature_severity
  | fireballRadius => _get_fireball_severity
  | shockwaveRadius => _get_shockwave_severity
  | debrisFieldRadius => _get_debris_severity
  | seismicMagnitude => _get_seismic_severity
  | atmosphericDust => _get_dust_severity
  | casualtiesImmediate => _get_casualty_severity
  | infrastructureDamage => _get_infrastructure_severity
  | economicLoss => _get_economic_severity
  | refugeePopulation => _get_refugee_severity
  end.

(** ** Enhanced calculation methods *)

Definition _calculate_crater_diameter
    (energy_mt diameter_m velocity_kms density target_density angle_deg : R)
    : result R :=
  let energy_joules := energy_mt * 4.184e15 in
  let angle_factor := Py.math_sin (Py.math_radians angle_deg) in
  let K := 1.25 in
  q <- Py.div (energy_joules * angle_factor) target_density ;;
  p <- Py.pow q 0.25 ;;
  Ok (K * p).

Definition _calculate_thermal_effects (energy_mt velocity_kms : R)
    : result (R * R) :=
  p <- Py.pow energy_mt 0.4 ;;
  let fireball_radius_km := 0.5 * p in
  let peak_temperature := Py.min 100000 (velocity_kms * 2000 + 10000) in
  Ok (fireball_radius_km, peak_temperature).

Definition _calculate_shockwave_radius (energy_mt angle_deg : R) : result R :=
  let angle_factor := Py.math_sin (Py.math_radians angle_deg) in
  p <- Py.pow energy_mt 0.33 ;;
  Ok (15 * p * angle_factor).

Definition _calculate_seismic_magnitude (energy_mt : R) : result R :=
  if Py.gt energy_mt 0 then
    l <- Py.math_log10 (energy_mt * 4.184e15) ;;
    let magnitude := (l - 4.8) / 1.5 in
    Ok (Py.max 0 (Py.min 10 magnitude))
  else Ok 0.

Definition _calculate_debris_field (energy_mt angle_deg : R) : result R :=
  let angle_factor := Py.math_sin (Py.math_radians angle_deg) in
  p <- Py.pow energy_mt 0.3 ;;
  Ok (50 * p * angle_factor).

Definition _calculate_atmospheric_dust (energy_mt diameter_m : R) : R :=
  let crater_volume := (PI / 6) * (diameter_m ^ 3) in
  crater_volume * 2600 * 0.1.

Definition _estimate_casualties (shockwave_km fireball_km : R) : R :=
  let lethal_area_km2 := PI * (fireball_km ^ 2) + 0.5 * PI * (shockwave_km ^ 2) in
  let avg_population_density := 1000 in
  lethal_area_km2 * avg_population_density * 0.8.

Definition _estimate_refugees (debris_km : R) : R :=
  let affected_area := PI * (debris_km ^ 2) in
  let avg_population_density := 500 in
  affected_area * avg_population_density.

(** ** Velocity and mass *)

Definition _calculate_orbital_velocity (orbital_elements : OrbitalElements)
    : result R :=
  match Py.nonzero (semi_major_axis_au orbital_elements) with
  | None => Ok 15.0
  | Some a =>
      let a_meters := a * AU in
      let GM_sun := 1.327e20 in
      q <- Py.div GM_sun a_meters ;;
      velocity_ms <- Py.math_sqrt q ;;
      let velocity_kms := velocity_ms / 1000 in
      Ok velocity_kms
  end.

Definition _calculate_asteroid_mass (asteroid : Asteroid) : R :=
  let diameter_km := Py.or_else (estimated_diameter_km asteroid) 1.0 in
  let diameter_m := diameter_km * 1000 in
  let radius_m := diameter_m / 2 in
  let volume_m3 := (4 / 3) * PI * radius_m ^ 3 in
  let density :=
    Py.or_else (density_kg_m3 asteroid)
      (Py.get_default MATERIAL_DENSITIES (composition_type asteroid) 2600) in
  let mass_kg := volume_m3 * density in
  mass_kg.

(** Line 40 of the source:
    [asteroid.density_kg_m3 or self.MATERIAL_DENSITIES[asteroid.composition_type]];
    the subscript is evaluated only when the override is absent or zero. *)
Definition scenario_density (asteroid : Asteroid) : result R :=
  match Py.nonzero (density_kg_m3 asteroid) with
  | Some d => Ok d
  | None => Py.getitem MATERIAL_DENSITIES (composition_type asteroid)
  end.

(** The dict returned by [_calculate_comprehensive_effects]. *)
Record Effects : Type := {
  eff_immediate : Py.dict ImpactMetric;
  eff_environmental : Py.dict ImpactMetric;
  eff_human_impact : Py.dict ImpactMetric;
  eff_timeline : Py.dict (Py.dict string)
}.

(** The local variables of [_calculate_comprehensive_effects] once its
    calculation part is done. *)
Record Quantities : Type := {
  crater_diameter_m : R;
  fireball_radius_km : R;
  peak_temperature : R;
  shockwave_radius_km : R;
  seismic_magnitude : R;
  debris_radius_km : R;
  atmospheric_dust_tons : R;
  casualties : R;
  infrastructure_damage_km : R;
  economic_loss_billion : R;
  refugees : R
}.

(** The calculation part of [_calculate_comprehensive_effects]
    (source lines 135 to 164). *)
Definition comprehensive_quantities
    (energy_mt velocity_kms diameter_m density angle_deg target_density : R)
    : result Quantities :=
  crater <- _calculate_crater_diameter
              energy_mt diameter_m velocity_kms density target_density angle_deg ;;
  thermal <- _calculate_thermal_effects energy_mt velocity_kms ;;
  shockwave <- _calculate_shockwave_radius energy_mt angle_deg ;;
  seismic <- _calculate_seismic_magnitude energy_mt ;;
  debris <- _calculate_debris_field energy_mt angle_deg ;;
  let dust := _calculate_atmospheric_dust energy_mt diameter_m in
  Ok {| crater_diameter_m := crater;
        fireball_radius_km := fst thermal;
        peak_temperature := snd thermal;
        shockwave_radius_km := shockwave;
        seismic_magnitude := seismic;
        debris_radius_km := debris;
        atmospheric_dust_tons := dust;
        casualties := _estimate_casualties shockwave (fst thermal);
        infrastructure_damage_km := shockwave * 1.5;
        economic_loss_billion := energy_mt * 0.1;
        refugees := _estimate_refugees debris |}.

(** The value each metric is classified and scored on, in the metric's unit. *)
Definition metric_value (energy_mt : R) (q : Quantities) (m : MetricName) : R :=
  match m with
  | craterDiameter => crater_diameter_m q / 1000
  | energy => energy_mt
  | temperature => peak_temperature q
  | fireballRadius => fireball_radius_km q
  | shockwaveRadius => shockwave_radius_km q
  | debrisFieldRadius => debris_radius_km q
  | seismicMagnitude => seismic_magnitude q
  | atmosphericDust => atmospheric_dust_tons q / 1e9
  | casualtiesImmediate => casualties q
  | infrastructureDamage => infrastructure_damage_km q
  | economicLoss => economic_loss_billion q
  | refugeePopulation => refugees q
  end.

(** The reference maximum of each metric's progress score, as the
    specification lists them; the source has each constant inline in the
    dict literal of [effects_dict]. *)
Definition ceiling (m : MetricName) : R :=
  match m with
  | craterDiameter => 50
  | energy => 1000000
  | temperature => 100000
  | fireballRadius => 200
  | shockwaveRadius => 3000
  | debrisFieldRadius => 8000
  | seismicMagnitude => 10
  | atmosphericDust => 100
  | casualtiesImmediate => 10000000
  | infrastructureDamage => 2000
  | economicLoss => 10000
  | refugeePopulation => 50000000
  end.

(** The dict key of each metric, and the group it is reported in. *)
Definition metric_key (m : MetricName) : string :=
  match m with
  | craterDiameter => "craterDiameter"
  | energy => "energy"
  | temperature => "temperature"
  | fireballRadius => "fireballRadius"
  | shockwaveRadius => "shockwaveRadius"
  | debrisFieldRadius => "debrisFieldRadius"
  | seismicMagnitude => "seismicMagnitude"
  | atmosphericDust => "atmosphericDust"
  | casualtiesImmediate => "casualtiesImmediate"
  | infrastructureDamage => "infrastructureDamage"
  | economicLoss => "economicLoss"
  | refugeePopulation => "refugeePopulation"
  end.

(** ** The engine proper

    [format_float spec x] stands for Python's [format(x, spec)], the text an
    f-string field [{x:spec}] produces; the empty spec is [str(x)]. *)

Section Engine.

Variable format_float : string -> R -> string.

Local Notation "s +++ t" := (String.append s t)
  (at level 60, right associativity).

Definition mk_metric (value unit : string) (severity : Severity)
    (description : string) (progress : R) (scientific_basis : string)
    : ImpactMetric :=
  {| value := value; unit := unit; severity := severity;
     description := description; progress := progress;
     scientific_basis := Some scientific_basis;
     uncertainty_range := None |}.

(** The dict literal returned by [_calculate_comprehensive_effects]
    (source lines 166 to 280). *)
Definition effects_dict (energy_mt velocity_kms diameter_m : R)
    (q : Quantities) : Effects :=
  let crater_diameter_m := crater_diameter_m q in
  let fireball_radius_km := fireball_radius_km q in
  let peak_temperature := peak_temperature q in
  let shockwave_radius_km := shockwave_radius_km q in
  let seismic_magnitude := seismic_magnitude q in
  let debris_radius_km := debris_radius_km q in
  let atmospheric_dust_tons := atmospheric_dust_tons q in
  let casualties := casualties q in
  let infrastructure_damage_km := infrastructure_damage_km q in
  let economic_loss_billion := economic_loss_billion q in
  let refugees := refugees q in
  {| eff_immediate :=
       [ ("craterDiameter",
          mk_metric
            (format_float ".1f" (crater_diameter_m / 1000))
            "km"
            (_get_crater_severity (crater_diameter_m / 1000))
            ("Impact crater formed by " +++ format_float "" diameter_m
               +++ "m asteroid, with rim heights reaching "
               +++ format_float ".0f" (crater_diameter_m * 0.05)
               +++ "m above ground level.")
            (Py.min 100 ((crater_diameter_m / 1000 / 50) * 100))
            "Melosh-Ivanov scaling laws for complex craters");
         ("energy",
          mk_metric
            (format_float ",.0f" energy_mt)
            "megatons TNT"
            (_get_energy_severity energy_mt)
            ("Total kinetic energy from " +++ format_float ".1f" velocity_kms
               +++ " km/s impact, calculated using enhanced orbital mechanics.")
            (Py.min 100 ((energy_mt / 1000000) * 100))
            "Real orbital velocity + Earth escape velocity");
         ("temperature",
          mk_metric
            (format_float ",.0f" peak_temperature)
            "°C"
            (_get_temperature_severity peak_temperature)
            ("Peak temperature at impact site from "
               +++ format_float ".1f" velocity_kms
               +++ " km/s collision, creating superheated plasma.")
            (Py.min 100 ((peak_temperature / 100000) * 100))
            "Shock physics and equation of state calculations");
         ("fireballRadius",
          mk_metric
            (format_float ".1f" fireball_radius_km)
            "km"
            (_get_fireball_severity fireball_radius_km)
            "Radius of superheated fireball causing thermal radiation burns and igniting fires."
            (Py.min 100 ((fireball_radius_km / 200) * 100))
            "Sedov-Taylor blast wave solution") ];
     eff_environmental :=
       [ ("shockwaveRadius",
          mk_metric
            (format_float ".1f" shockwave_radius_km)
            "km"
            (_get_shockwave_severity shockwave_radius_km)
            ("Radius of destructive shockwave from "
               +++ format_float ",.0f" energy_mt
               +++ " MT explosion, causing building collapse.")
            (Py.min 100 ((shockwave_radius_km / 3000) * 100))
            "Atmospheric blast wave propagation models");
         ("debrisFieldRadius",
          mk_metric
            (format_float ".1f" debris_radius_km)
            "km"
            (_get_debris_severity debris_radius_km)
            ("Area covered by ejected debris and impact fragments from "
               +++ format_float ".1f" (crater_diameter_m / 1000)
               +++ "km crater.")
            (Py.min 100 ((debris_radius_km / 8000) * 100))
            "Ballistic trajectory modeling of ejecta");
         ("seismicMagnitude",
          mk_metric
            (format_float ".1f" seismic_magnitude)
            "magnitude"
            (_get_seismic_severity seismic_magnitude)
            ("Earthquake magnitude from " +++ format_float ",.0f" energy_mt
               +++ " MT impact, generating global seismic waves.")
            (Py.min 100 ((seismic_magnitude / 10) * 100))
            "Energy-magnitude scaling relationships");
         ("atmosphericDust",
          mk_metric
            (format_float ".1f" (atmospheric_dust_tons / 1e9))
            "billion tons"
            (_get_dust_severity (atmospheric_dust_tons / 1e9))
            ("Dust and debris ejected into atmosphere from "
               +++ format_float "" diameter_m +++ "m asteroid impact.")
            (Py.min 100 ((atmospheric_dust_tons / 1e9 / 100) * 100))
            "Impact ejecta scaling and atmospheric modeling") ];
     eff_human_impact :=
       [ ("casualtiesImmediate",
          mk_metric
            (format_float ",.0f" casualties)
            "estimated casualties"
            (_get_casualty_severity casualties)
            ("Immediate casualties from thermal radiation, shockwave, and debris within "
               +++ format_float ".0f" shockwave_radius_km +++ "km radius.")
            (Py.min 100 ((casualties / 10000000) * 100))
            "Population density models and lethality curves");
         ("infrastructureDamage",
          mk_metric
            (format_float ".0f" infrastructure_damage_km)
            "km radius affected"
            (_get_infrastructure_severity infrastructure_damage_km)
            "Radius of severe infrastructure damage including buildings, roads, and utilities."
            (Py.min 100 ((infrastructure_damage_km / 2000) * 100))
            "Engineering failure analysis and overpressure thresholds");
         ("economicLoss",
          mk_metric
            (format_float ",.0f" economic_loss_billion)
            "billion USD"
            (_get_economic_severity economic_loss_billion)
            "Estimated economic losses from infrastructure damage and business disruption."
            (Py.min 100 ((economic_loss_billion / 10000) * 100))
            "Disaster economics and regional GDP impact models");
         ("refugeePopulation",
          mk_metric
            (format_float ",.0f" refugees)
            "displaced persons"
            (_get_refugee_severity refugees)
            ("Population requiring evacuation due to impact effects across "
               +++ format_float ".0f" debris_radius_km +++ "km radius.")
            (Py.min 100 ((refugees / 50000000) * 100))
            "Evacuation zone modeling and population displacement studies") ];
     eff_timeline :=
       [ ("t0", [("time", "0 seconds");
                 ("event", "Initial impact and crater excavation begins")]);
         ("t1", [("time", "1 second");
                 ("event", "Fireball reaches "
                             +++ format_float ".1f" fireball_radius_km
                             +++ "km radius")]);
         ("t2", [("time", "10 seconds");
                 ("event", "Thermal radiation pulse at maximum intensity")]);
         ("t3", [("time", format_float ".0f" (shockwave_radius_km / 0.34)
                            +++ " seconds");
                 ("event", "Shockwave reaches maximum extent")]);
         ("t4", [("time", "5 minutes");
                 ("event", "Ballistic ejecta begins falling back to Earth")]);
         ("t5", [("time", "30 minutes");
                 ("event", "Seismic magnitude "
                             +++ format_float ".1f" seismic_magnitude
                             +++ " waves circle the globe")]);
         ("t6", [("time", "2 hours");
                 ("event", "Atmospheric dust begins affecting regional weather")]);
         ("t7", [("time", "24 hours");
                 ("event", "Global atmospheric effects become apparent")]);
         ("t8", [("time", "1 week");
                 ("event", "Long-term environmental and climate impacts emerge")]) ]
  |}.

Definition _calculate_comprehensive_effects
    (energy_megatons mass_kg velocity_kms diameter_m density
       impact_angle target_density : R)
    (location : ImpactLocation) : result Effects :=
  let energy_mt := energy_megatons in
  let angle_deg := impact_angle in
  q <- comprehensive_quantities
         energy_mt velocity_kms diameter_m density angle_deg target_density ;;
  Ok (effects_dict energy_mt velocity_kms diameter_m q).

Definition _calculate_impact_velocity
    (asteroid : Asteroid) (parameters : ImpactParameters) : M R :=
  match Py.nonzero (impact_velocity_kms parameters) with
  | Some v => ret v
  | None =>
      match orbital_elements asteroid with
      | Some oe =>
          match Py.nonzero (semi_major_axis_au oe) with
          | Some _ =>
              orbital_velocity <~ lift (_calculate_orbital_velocity oe) ;;
              impact_velocity <~
                lift (Py.math_sqrt
                        (orbital_velocity ^ 2 + EARTH_ESCAPE_VELOCITY ^ 2)) ;;
              _ <~ logger_info
                     ("Calculated orbital velocity: "
                        +++ format_float ".2f" orbital_velocity
                        +++ " km/s, impact velocity: "
                        +++ format_float ".2f" impact_velocity +++ " km/s") ;;
              ret impact_velocity
          | None => ret 20.0
          end
      | None => ret 20.0
      end
  end.

Definition calculate_impact_scenario : M ImpactResults :=
  asteroid <~ read_asteroid ;;
  parameters <~ read_parameters ;;
  _ <~ logger_info
         ("Calculating impact for NASA NEO " +++ nasa_id asteroid
            +++ ": " +++ name asteroid) ;;
  impact_velocity <~ _calculate_impact_velocity asteroid parameters ;;
  let mass_kg := _calculate_asteroid_mass asteroid in
  density <~ lift (scenario_density asteroid) ;;
  let diameter_m := Py.or_else (estimated_diameter_km asteroid) 1.0 * 1000 in
  let kinetic_energy_joules := 0.5 * mass_kg * (impact_velocity * 1000) ^ 2 in
  let energy_megatons := kinetic_energy_joules / 4.184e15 in
  results <~ lift (_calculate_comprehensive_effects
                     energy_megatons mass_kg impact_velocity diameter_m
                     density (impact_angle_deg parameters)
                     (target_density_kg_m3 parameters)
                     (impact_location parameters)) ;;
  _ <~ set_calculation_metadata
         [ ("asteroid_source", MetaStr "nasa_neo");
           ("calculation_method", MetaStr "enhanced_physics");
           ("impact_velocity_used", MetaFloat impact_velocity);
           ("asteroid_mass_kg", MetaFloat mass_kg);
           ("kinetic_energy_mt", MetaFloat energy_megatons);
           ("nasa_asteroid_id", MetaStr (nasa_id asteroid)) ] ;;
  ret {| immediate := eff_immediate results;
         environmental := eff_environmental results;
         human_impact := eff_human_impact results;
         timeline := eff_timeline results;
         asteroid_source := "nasa_neo";
         calculation_method := "enhanced_physics";
         confidence_level := 0.85 |}.

End Engine.

(** ** Definitions used to state the properties *)

(** The density table as the specification words it: the four classes,
    and rocky's value for any other class. *)
Definition spec_density_table (composition : string) : R :=
  if String.eqb composition "rocky" then 2600
  else if String.eqb composition "iron" then 7800
  else if String.eqb composition "icy" then 1000
  else if String.eqb composition "stony" then 3500
  else 2600.

(** The effective density as the specification words it: the override
    when present and positive, the table otherwise. *)
Definition spec_effective_density (a : Asteroid) : R :=
  match density_kg_m3 a with
  | Some d => if Rlt_dec 0 d then d else spec_density_table (composition_type a)
  | None => spec_density_table (composition_type a)
  end.

(** Volume of the sphere in [_calculate_asteroid_mass]. *)
Definition sphere_volume_m3 (a : Asteroid) : R :=
  (4 / 3) * PI * (Py.or_else (estimated_diameter_km a) 1.0 * 1000 / 2) ^ 3.

(** An asteroid of 1 km with no orbital data, parametrised by its class
    and density override. *)
Definition plain_asteroid (composition : string) (density : option R) : Asteroid :=
  {| nasa_id := "0"; name := "test body";
     estimated_diameter_km := Some 1.0;
     orbital_elements := None;
     composition_type := composition;
     density_kg_m3 := density |}.

(** The resolver's inputs carry no negative number. *)
Definition velocity_inputs_nonnegative (a : Asteroid) (p : ImpactParameters)
    : Prop :=
  match impact_velocity_kms p with Some v => 0 <= v | None => True end /\
  match orbital_elements a with
  | Some oe =>
      match semi_major_axis_au oe with Some ax => 0 <= ax | None => True end
  | None => True
  end.

Definition default_location : ImpactLocation :=
  {| lat := 0; lng := 0; location_name := "Null Island";
     population := Some 0%Z; country := None |}.

(** Parameters with the model defaults, parametrised by the velocity
    override, the angle and the target density. *)
Definition plain_parameters (velocity : option R) (angle target_density : R)
    : ImpactParameters :=
  {| asteroid_nasa_id := "0"; impact_location := default_location;
     impact_velocity_kms := velocity; impact_angle_deg := angle;
     target_density_kg_m3 := target_density; atmospheric_entry := true;
     fragmentation_altitude_km := None |}.

Definition heap_of (e : EnhancedPhysicsEngine) (a : Asteroid)
    (p : ImpactParameters) : Heap :=
  {| engine := e; arg_asteroid := a; arg_parameters := p; log := [] |}.

(** A formatter to run the engine on concrete inputs; no theorem depends
    on the choice. *)
Definition echo_format (spec : string) (x : R) : string := spec.

Definition angle_factor (angle_deg : R) : R :=
  Py.math_sin (Py.math_radians angle_deg).

Definition scenario_diameter_m (a : Asteroid) : R :=
  Py.or_else (estimated_diameter_km a) 1.0 * 1000.

Definition scenario_energy_mt (a : Asteroid) (impact_velocity : R) : R :=
  0.5 * _calculate_asteroid_mass a * (impact_velocity * 1000) ^ 2 / 4.184e15.

(** The dict stored in [self.calculation_metadata] by a completed call. *)
Definition metadata_of (a : Asteroid) (impact_velocity : R)
    : Py.dict MetaValue :=
  [ ("asteroid_source", MetaStr "nasa_neo");
    ("calculation_method", MetaStr "enhanced_physics");
    ("impact_velocity_used", MetaFloat impact_velocity);
    ("asteroid_mass_kg", MetaFloat (_calculate_asteroid_mass a));
    ("kinetic_energy_mt", MetaFloat (scenario_energy_mt a impact_velocity));
    ("nasa_asteroid_id", MetaStr (nasa_id a)) ].

Definition results_of (e : Effects) : ImpactResults :=
  {| immediate := eff_immediate e;
     environmental := eff_environmental e;
     human_impact := eff_human_impact e;
     timeline := eff_timeline e;
     asteroid_source := "nasa_neo";
     calculation_method := "enhanced_physics";
     confidence_level := 0.85 |}.

Section Outcome.

Variable format_float : string -> R -> string.

(** The velocity, the quantities and the results of a call, as a pure
    function of the two argument objects. *)
Definition velocity_of (a : Asteroid) (p : ImpactParameters) : result R :=
  fst (_calculate_impact_velocity format_float a p
         (heap_of physics_engine a p)).

Definition outcome_of (a : Asteroid) (p : ImpactParameters)
    : result (R * ImpactResults) :=
  v <- velocity_of a p ;;
  rho <- scenario_density a ;;
  q <- comprehensive_quantities (scenario_energy_mt a v) v
         (scenario_diameter_m a) rho (impact_angle_deg p)
         (target_density_kg_m3 p) ;;
  Ok (v, results_of (effects_dict format_float (scenario_energy_mt a v) v
                       (scenario_diameter_m a) q)).

End Outcome.

(** The heap after the first log record of a call. *)
Definition entered (h : Heap) : Heap :=
  {| engine := engine h; arg_asteroid := arg_asteroid h;
     arg_parameters := arg_parameters h;
     log := log h ++ [String.append "Calculating impact for NASA NEO "
                        (String.append (nasa_id (arg_asteroid h))
                           (String.append ": " (name (arg_asteroid h))))] |}.

Definition positive_if_present (x : option R) : Prop :=
  match x with Some v => 0 < v | None => True end.

(** Valid input: every physical quantity that is present is positive, the
    composition class is one of the table when no density is given, and
    the angle is within the bounds of [ImpactParameters]. *)
Definition valid_input (a : Asteroid) (p : ImpactParameters) : Prop :=
  positive_if_present (estimated_diameter_km a) /\
  positive_if_present (density_kg_m3 a) /\
  (density_kg_m3 a = None ->
   In (composition_type a) ["rocky"; "iron"; "icy"; "stony"]) /\
  positive_if_present (impact_velocity_kms p) /\
  match orbital_elements a with
  | Some oe => positive_if_present (semi_major_axis_au oe)
  | None => True
  end /\
  15 <= impact_angle_deg p <= 90 /\
  0 < target_density_kg_m3 p.

(** The metric of a result, looked up in the group that reports it. *)
Definition result_metric (r : ImpactResults) (m : MetricName)
    : option ImpactMetric :=
  match m with
  | craterDiameter | energy | temperature | fireballRadius =>
      Py.get (immediate r) (metric_key m)
  | shockwaveRadius | debrisFieldRadius | seismicMagnitude | atmosphericDust =>
      Py.get (environmental r) (metric_key m)
  | casualtiesImmediate | infrastructureDamage | economicLoss
  | refugeePopulation =>
      Py.get (human_impact r) (metric_key m)
  end.

(** A float entry of the engine's [calculation_metadata]. *)
Definition meta_float (e : EnhancedPhysicsEngine) (k : string) : option R :=
  match Py.get (calculation_metadata e) k with
  | Some (MetaFloat x) => Some x
  | _ => None
  end.

(** The scenario of the specification: 1 km, rocky, no density override,
    no orbital elements, no velocity override, 45 degrees, target density
    2700. *)
Definition scenario_heap : Heap :=
  heap_of physics_engine (plain_asteroid "rocky" None)
    (plain_parameters None 45 2700).

(** Number of immediate metrics of a result classified minor. *)
Definition immediate_minor_count (r : ImpactResults) : nat :=
  List.length
    (List.filter
       (fun kv => match severity (snd kv) with Minor => true | _ => false end)
       (immediate r)).

(** The scenario as the specification expects it to come out: an energy
    of the order of magnitude of 0.0651 megatons, a crater of tens to low
    hundreds of metres, and most of the four immediate metrics minor. *)
Definition spec_scenario_expectation
    (calculate : Heap -> result ImpactResults * Heap) : Prop :=
  exists r E q,
    fst (calculate scenario_heap) = Ok r /\
    meta_float (engine (snd (calculate scenario_heap))) "kinetic_energy_mt"
      = Some E /\
    comprehensive_quantities E 20 1000 2600 45 2700 = Ok q /\
    0.00651 <= E <= 0.651 /\
    10 <= crater_diameter_m q <= 1000 /\
    (3 <= immediate_minor_count r)%nat.

(** ** services/nasa_neo_service.py and routers/enhanced_simulation.py

    The parts of the NEO service and of the simulation router that do not
    touch the network or the database.  NASA records are decoded JSON
    ([Dict[str, Any]]); the service raises [AttributeError] and
    [TypeError] on records of the wrong shape.  The service's log records
    are left out. *)

(** [a < b] as a boolean. *)
Definition py_lt (a b : R) : bool := Py.gt b a.

Module Svc.

Inductive error : Type :=
| AttributeError
| TypeError.

Inductive res (A : Type) : Type :=
| Done (a : A)
| Fail (e : error).

Arguments Done {A} a.
Arguments Fail {A} e.

Definition and_then {A B : Type} (m : res A) (k : A -> res B) : res B :=
  match m with
  | Done a => k a
  | Fail e => Fail e
  end.

Set Warnings "-register-all".

(** A decoded JSON value. *)
Inductive json : Type :=
| JNull
| JBool (b : bool)
| JNum (x : R)
| JStr (s : string)
| JArr (items : list json)
| JObj (fields : list (string * json)).

(** Python truth value of a JSON value. *)
Definition truthy (v : json) : bool :=
  match v with
  | JNull => false
  | JBool b => b
  | JNum x => if Req_dec_T x 0 then false else true
  | JStr s => match s with EmptyString => false | _ => true end
  | JArr items => match items with [] => false | _ => true end
  | JObj fields => match fields with [] => false | _ => true end
  end.

(** [v is None]. *)
Definition is_none (v : json) : bool :=
  match v with JNull => true | _ => false end.

(** [obj.get(key, default)]: only a dict has the method. *)
Definition get (obj : json) (key : string) (default : json) : res json :=
  match obj with
  | JObj fields => Done (Py.get_default fields key default)
  | _ => Fail AttributeError
  end.

(** The number a value stands for in arithmetic and ordering; [True] and
    [False] are 1 and 0. *)
Definition as_number (v : json) : option R :=
  match v with
  | JNum x => Some x
  | JBool b => Some (if b then 1 else 0)
  | _ => None
  end.

(** [(a + b) / 2]: strings and lists can be added but not divided, every
    other non-numeric operand fails at the sum. *)
Definition half_sum (a b : json) : res R :=
  match as_number a, as_number b with
  | Some x, Some y => Done ((x + y) / 2)
  | _, _ => Fail TypeError
  end.

(** [v < c] for a value [v] that is not [None] and a number [c]. *)
Definition lt_number (v : json) (c : R) : res bool :=
  match as_number v with
  | Some x => Done (py_lt x c)
  | None => Fail TypeError
  end.

(** [v != b] for a boolean [b]: [1 == True] and [0 == False] hold in
    Python, a value of any other type differs from both. *)
Definition ne_bool (v : json) (b : bool) : bool :=
  match v with
  | JBool b' => negb (Bool.eqb b' b)
  | JNum x => if Req_dec_T x (if b then 1 else 0) then false else true
  | _ => true
  end.

(** [v.lower()]: only a string has the method.  The service discards the
    lowered name, so only the failure is kept. *)
Definition lower_check (v : json) : res Datatypes.unit :=
  match v with
  | JStr _ => Done tt
  | _ => Fail AttributeError
  end.

(** The items a [for] loop draws from a value: the items of a list, the
    keys of a dict, the characters of a string; nothing else iterates. *)
Definition iterate (v : json) : res (list json) :=
  match v with
  | JArr items => Done items
  | JObj fields => Done (List.map (fun kv => JStr (fst kv)) fields)
  | JStr s =>
      Done (List.map (fun c => JStr (String c EmptyString))
              (list_ascii_of_string s))
  | _ => Fail TypeError
  end.

End Svc.

Notation "x <-- m ;; k" := (Svc.and_then m (fun x => k))
  (at level 61, m at next level, right associativity).

(** [AsteroidFilter] of models/asteroid.py. *)
Record AsteroidFilter : Type := {
  diameter_min_km : option R;
  diameter_max_km : option R;
  potentially_hazardous : option bool;
  neo_type : option string;
  has_close_approaches : option bool;
  limit : Z;
  offset : Z
}.

Definition _extract_average_diameter (neo : Svc.json) : Svc.res (option R) :=
  estimated <-- Svc.get neo "estimated_diameter" (Svc.JObj []) ;;
  diameter_data <-- Svc.get estimated "kilometers" (Svc.JObj []) ;;
  min_diameter <--
    Svc.get diameter_data "estimated_diameter_min" Svc.JNull ;;
  max_diameter <--
    Svc.get diameter_data "estimated_diameter_max" Svc.JNull ;;
  if negb (Svc.is_none min_diameter) && negb (Svc.is_none max_diameter) then
    avg <-- Svc.half_sum min_diameter max_diameter ;;
    Svc.Done (Some avg)
  else Svc.Done None.

Definition _matches_filter (neo : Svc.json) (filters : AsteroidFilter)
    : Svc.res bool :=
  diameter_km <-- _extract_average_diameter neo ;;
  let below_min :=
    match Py.nonzero diameter_km, Py.nonzero (diameter_min_km filters) with
    | Some d, Some lo => py_lt d lo
    | _, _ => false
    end in
  let above_max :=
    match Py.nonzero diameter_km, Py.nonzero (diameter_max_km filters) with
    | Some d, Some hi => Py.gt d hi
    | _, _ => false
    end in
  if below_min then Svc.Done false
  else if above_max then Svc.Done false
  else
    hazard_differs <--
      match potentially_hazardous filters with
      | Some b =>
          flag <-- Svc.get neo "is_potentially_hazardous_asteroid" Svc.JNull ;;
          Svc.Done (Svc.ne_bool flag b)
      | None => Svc.Done false
      end ;;
    if hazard_differs then Svc.Done false
    else
      match has_close_approaches filters with
      | Some true =>
          approaches <-- Svc.get neo "close_approach_data" (Svc.JArr []) ;;
          if negb (Svc.truthy approaches) then Svc.Done false
          else Svc.Done true
      | _ => Svc.Done true
      end.

Definition _estimate_composition (neo_data : Svc.json) : Svc.res string :=
  abs_mag <-- Svc.get neo_data "absolute_magnitude_h" Svc.JNull ;;
  name <-- Svc.get neo_data "name" (Svc.JStr "") ;;
  _ <-- Svc.lower_check name ;;
  if Svc.truthy abs_mag then
    bright <-- Svc.lt_number abs_mag 15 ;;
    if bright then Svc.Done "iron" else Svc.Done "rocky"
  else Svc.Done "rocky".

Definition _estimate_density (composition : string) : R :=
  let density_map : Py.dict R :=
    [("rocky", 2600); ("iron", 7800); ("icy", 1000); ("stony", 3500)] in
  Py.get_default density_map composition 2600.

Definition _classify_neo_type (orbital_elements : option OrbitalElements)
    : option string :=
  match orbital_elements with
  | None => None
  | Some oe =>
      match Py.nonzero (semi_major_axis_au oe) with
      | None => None
      | Some a =>
          let e := Py.or_else (eccentricity oe) 0 in
          let q := a * (1 - e) in
          if Py.gt a 1.0 && py_lt q 1.017 then Some "Apollo"
          else if py_lt a 1.0 then Some "Aten"
          else if Py.gt a 1.0 && Py.gt q 1.017 && py_lt q 1.3 then Some "Amor"
          else Some "Other"
      end
  end.

Section SearchAsteroids.

(** [browse page] is what [await self.get_neo_browse(limit=20, page=page)]
    produces: the decoded response, or nothing when the request raises. *)
Variable browse : Z -> option Svc.json.

Variable filters : AsteroidFilter.

(** The [for neo in neos] loop of [search_asteroids]: the list and the
    counter it leaves, and whether it ended without an exception. *)
Fixpoint scan_page (neos : list Svc.json) (all_asteroids : list Svc.json)
    (collected : Z) : list Svc.json * Z * bool :=
  match neos with
  | [] => (all_asteroids, collected, true)
  | neo :: rest =>
      if (collected >=? limit filters)%Z then (all_asteroids, collected, true)
      else
        match _matches_filter neo filters with
        | Svc.Fail _ => (all_asteroids, collected, false)
        | Svc.Done true =>
            scan_page rest (all_asteroids ++ [neo]) (collected + 1)%Z
        | Svc.Done false => scan_page rest all_asteroids collected
        end
  end.

(** The [while collected < filters.limit] loop.  [remaining] counts the
    pages still allowed by the guard [if page > 50: break]; it starts at
    51 with page 0 and never reaches 0 before that guard breaks. *)
Fixpoint search_pages (remaining : nat) (page : Z)
    (all_asteroids : list Svc.json) (collected : Z) : list Svc.json :=
  if (collected <? limit filters)%Z then
    match remaining with
    | O => all_asteroids
    | S remaining' =>
        match browse page with
        | None => all_asteroids
        | Some browse_data =>
            match Svc.get browse_data "near_earth_objects" (Svc.JArr []) with
            | Svc.Fail _ => all_asteroids
            | Svc.Done neos =>
                if negb (Svc.truthy neos) then all_asteroids
                else
                  match Svc.iterate neos with
                  | Svc.Fail _ => all_asteroids
                  | Svc.Done items =>
                      let '(all', collected', finished) :=
                        scan_page items all_asteroids collected in
                      if negb finished then all'
                      else if (page + 1 >? 50)%Z then all'
                      else search_pages remaining' (page + 1)%Z all' collected'
                  end
            end
        end
    end
  else all_asteroids.

Definition search_asteroids : list Svc.json := search_pages 51 0%Z [] 0%Z.

End SearchAsteroids.

(** [Simulation] of models/simulation.py: the fields the comparison
    helpers read. *)
Record Simulation : Type := {
  simulation_id : string;
  simulation_parameters : ImpactParameters;
  simulation_results : option ImpactResults;
  simulation_name : string;
  simulation_nasa_enhanced : bool
}.

(** A row of the comparison matrix: the dict with the keys
    simulation_id, name and value. *)
Record MatrixRow : Type := {
  row_simulation_id : string;
  row_name : string;
  row_value : string
}.

Record ComparisonMatrix : Type := {
  crater_diameters : list MatrixRow;
  energies : list MatrixRow;
  matrix_casualties : list MatrixRow;
  shockwave_radii : list MatrixRow
}.

(** [metrics.get(key, {}).value or "0"]: the default [{}] has no attribute
    [value]. *)
Definition value_or_zero (metrics : Py.dict ImpactMetric) (key : string)
    : Svc.res string :=
  match Py.get metrics key with
  | Some metric =>
      Svc.Done (match value metric with
                | EmptyString => "0"
                | v => v
                end)
  | None => Svc.Fail Svc.AttributeError
  end.

Definition matrix_row (sim : Simulation) (v : string) : MatrixRow :=
  {| row_simulation_id := simulation_id sim;
     row_name := simulation_name sim;
     row_value := v |}.

(** The loop of [_build_comparison_matrix], from the matrix built so far. *)
Fixpoint comparison_rows (simulations : list Simulation)
    (matrix : ComparisonMatrix) : Svc.res ComparisonMatrix :=
  match simulations with
  | [] => Svc.Done matrix
  | sim :: rest =>
      match simulation_results sim with
      | Some results =>
          crater <-- value_or_zero (immediate results) "craterDiameter" ;;
          energy_value <-- value_or_zero (immediate results) "energy" ;;
          casualty <--
            value_or_zero (human_impact results) "casualtiesImmediate" ;;
          shockwave <--
            value_or_zero (environmental results) "shockwaveRadius" ;;
          comparison_rows rest
            {| crater_diameters :=
                 crater_diameters matrix ++ [matrix_row sim crater];
               energies := energies matrix ++ [matrix_row sim energy_value];
               matrix_casualties :=
                 matrix_casualties matrix ++ [matrix_row sim casualty];
               shockwave_radii :=
                 shockwave_radii matrix ++ [matrix_row sim shockwave] |}
      | None => comparison_rows rest matrix
      end
  end.

Definition _build_comparison_matrix (simulations : list Simulation)
    : Svc.res ComparisonMatrix :=
  comparison_rows simulations
    {| crater_diameters := []; energies := [];
       matrix_casualties := []; shockwave_radii := [] |}.

(** The asteroid with another diameter estimate. *)
Definition with_diameter (a : Asteroid) (d : option R) : Asteroid :=
  {| nasa_id := nasa_id a; name := name a;
     estimated_diameter_km := d;
     orbital_elements := orbital_elements a;
     composition_type := composition_type a;
     density_kg_m3 := density_kg_m3 a |}.

(** The asteroid with composition class [c] and no density override. *)
Definition with_class (a : Asteroid) (c : string) : Asteroid :=
  {| nasa_id := nasa_id a; name := name a;
     estimated_diameter_km := estimated_diameter_km a;
     orbital_elements := orbital_elements a;
     composition_type := c;
     density_kg_m3 := None |}.

(** The orbital speed, in km/s, the engine derives from a positive
    semi-major axis in AU. *)
Definition orbital_speed_kms (ax : R) : R :=
  sqrt (1.327e20 / (ax * 1.496e11)) / 1000.

(** Orbital elements carrying only a semi-major axis and an eccentricity. *)
Definition orbit (axis ecc : option R) : OrbitalElements :=
  {| semi_major_axis_au := axis; eccentricity := ecc;
     inclination_deg := None; orbital_period_days := None;
     perihelion_distance_au := None; aphelion_distance_au := None |}.

(** The asteroid with other orbital elements. *)
Definition with_orbit (a : Asteroid) (oe : option OrbitalElements) : Asteroid :=
  {| nasa_id := nasa_id a; name := name a;
     estimated_diameter_km := estimated_diameter_km a;
     orbital_elements := oe;
     composition_type := composition_type a;
     density_kg_m3 := density_kg_m3 a |}.

(** A NASA record with the diameter bounds [lo] and [hi] in kilometres and
    the further fields [rest]. *)
Definition nasa_neo (lo hi : Svc.json) (rest : list (string * Svc.json))
    : Svc.json :=
  Svc.JObj
    (("estimated_diameter",
      Svc.JObj
        [("kilometers",
          Svc.JObj [("estimated_diameter_min", lo);
                    ("estimated_diameter_max", hi)])])
     :: rest).

(** A filter on the diameter, the hazard flag and the close approaches,
    with the default limit and offset of the model. *)
Definition filter_on (lo hi : option R) (hazardous approaches : option bool)
    : AsteroidFilter :=
  {| diameter_min_km := lo; diameter_max_km := hi;
     potentially_hazardous := hazardous; neo_type := None;
     has_close_approaches := approaches; limit := 20%Z; offset := 0%Z |}.

(** The filter without its diameter bounds. *)
Definition without_diameter_bounds (f : AsteroidFilter) : AsteroidFilter :=
  {| diameter_min_km := None; diameter_max_km := None;
     potentially_hazardous := potentially_hazardous f;
     neo_type := neo_type f;
     has_close_approaches := has_close_approaches f;
     limit := limit f; offset := offset f |}.

(** The filter with another limit. *)
Definition with_limit (f : AsteroidFilter) (n : Z) : AsteroidFilter :=
  {| diameter_min_km := diameter_min_km f;
     diameter_max_km := diameter_max_km f;
     potentially_hazardous := potentially_hazardous f;
     neo_type := neo_type f;
     has_close_approaches := has_close_approaches f;
     limit := n; offset := offset f |}.

(** Whether a NEO passes the filter without an exception. *)
Definition passes (f : AsteroidFilter) (neo : Svc.json) : bool :=
  match _matches_filter neo f with
  | Svc.Done true => true
  | _ => false
  end.

(** Whether a simulation carries results. *)
Definition has_results (sim : Simulation) : bool :=
  match simulation_results sim with Some _ => true | None => false end.

Section SearchSpecification.

Variable browse : Z -> option Svc.json.

Variable filters : AsteroidFilter.

(** The NEOs a page offers to the scan, when the page can be scanned at
    all: the request succeeded, the response is a dict, and its
    near_earth_objects entry is non-empty and iterable. *)
Definition page_items (page : Z) : option (list Svc.json) :=
  match browse page with
  | None => None
  | Some browse_data =>
      match Svc.get browse_data "near_earth_objects" (Svc.JArr []) with
      | Svc.Fail _ => None
      | Svc.Done neos =>
          if negb (Svc.truthy neos) then None
          else
            match Svc.iterate neos with
            | Svc.Fail _ => None
            | Svc.Done items => Some items
            end
      end
  end.

(** The items before the first one on which the filter raises. *)
Fixpoint clean_prefix (items : list Svc.json) : list Svc.json :=
  match items with
  | [] => []
  | neo :: rest =>
      match _matches_filter neo filters with
      | Svc.Fail _ => []
      | Svc.Done _ => neo :: clean_prefix rest
      end
  end.

(** Whether the filter raises on no item. *)
Fixpoint clean (items : list Svc.json) : bool :=
  match items with
  | [] => true
  | neo :: rest =>
      match _matches_filter neo filters with
      | Svc.Fail _ => false
      | Svc.Done _ => clean rest
      end
  end.

(** The NEOs the search can reach, in order, from [page] on and over at
    most [pages] pages: it stops at the first page that cannot be scanned
    and at the first item on which the filter raises. *)
Fixpoint available (pages : nat) (page : Z) : list Svc.json :=
  match pages with
  | O => []
  | S pages' =>
      match page_items page with
      | None => []
      | Some items =>
          if clean items then (items ++ available pages' (page + 1)%Z)%list
          else clean_prefix items
      end
  end.

End SearchSpecification.


(** Whether the results carry the four metrics the comparison reads. *)
Definition comparable (results : ImpactResults) : bool :=
  match Py.get (immediate results) "craterDiameter",
        Py.get (immediate results) "energy",
        Py.get (human_impact results) "casualtiesImmediate",
        Py.get (environmental results) "shockwaveRadius" with
  | Some _, Some _, Some _, Some _ => true
  | _, _, _, _ => false
  end.

(** Whether every simulation that has results carries these metrics. *)
Definition all_comparable (simulations : list Simulation) : bool :=
  forallb (fun sim => match simulation_results sim with
                      | Some results => comparable results
                      | None => true
                      end) simulations.

(** What identifies the simulation of a row, and a simulation. *)
Definition row_key (row : MatrixRow) : string * string :=
  (row_simulation_id row, row_name row).

Definition simulation_key (sim : Simulation) : string * string :=
  (simulation_id sim, simulation_name sim).

Definition matrix_lists (m : ComparisonMatrix) : list (list MatrixRow) :=
  [crater_diameters m; energies m; matrix_casualties m; shockwave_radii m].

(** [rows] is [rows0] followed by one row with a non-empty value for each
    simulation of [simulations] that has results, in their order. *)
Definition extended_by (simulations : list Simulation)
    (rows0 rows : list MatrixRow) : Prop :=
  exists new,
    rows = (rows0 ++ new)%list /\
    map row_key new = map simulation_key (filter has_results simulations) /\
    Forall (fun row => row_value row <> "") new.

(** A stored simulation with the given results. *)
Definition simulation_of (id name : string) (p : ImpactParameters)
    (results : option ImpactResults) : Simulation :=
  {| simulation_id := id; simulation_parameters := p;
     simulation_results := results; simulation_name := name;
     simulation_nasa_enhanced := true |}.

(** A service that holds one page of NEOs, page 0, and fails on every
    other page. *)
Definition single_page (items : list Svc.json) (page : Z)
    : option Svc.json :=
  if (page =? 0)%Z then
    Some (Svc.JObj [("near_earth_objects", Svc.JArr items)])
  else None.

(** Every entry of the three metric dicts of a result, in their order. *)
Definition result_entries (r : ImpactResults)
    : list (string * ImpactMetric) :=
  (immediate r ++ environmental r ++ human_impact r)%list.

(** The velocity step of a call returns: a non-zero velocity override is
    given, or the semi-major axis, where there is one, is not negative. *)
Definition velocity_resolves (a : Asteroid) (p : ImpactParameters) : Prop :=
  Py.nonzero (impact_velocity_kms p) <> None \/
  match orbital_elements a with
  | Some oe =>
      match semi_major_axis_au oe with
      | Some ax => 0 <= ax
      | None => True
      end
  | None => True
  end.

(** * Properties *)

(** ** The Python layer *)

Lemma py_min_Rmin (a b : R) : Py.min a b = Rmin a b.
Proof.
  unfold Py.min, Rmin.
  destruct (Rlt_dec b a), (Rle_dec a b); lra.
Qed.

Lemma py_max_Rmax (a b : R) : Py.max a b = Rmax a b.
Proof.
  unfold Py.max, Rmax.
  destruct (Rlt_dec a b), (Rle_dec a b); lra.
Qed.

Lemma py_pow_pos (x y : R) : 0 < x -> Py.pow x y = Ok (Rpower x y).
Proof. intros H; unfold Py.pow; destruct (Rlt_dec 0 x); [reflexivity | lra]. Qed.

Lemma py_div_nonzero (a b : R) : b <> 0 -> Py.div a b = Ok (a / b).
Proof. intros H; unfold Py.div; destruct (Req_dec_T b 0); [contradiction | reflexivity]. Qed.

Lemma py_sqrt_nonneg (x : R) : 0 <= x -> Py.math_sqrt x = Ok (sqrt x).
Proof. intros H; unfold Py.math_sqrt; destruct (Rlt_dec x 0); [lra | reflexivity]. Qed.

Lemma py_nonzero_some (v : R) : v <> 0 -> Py.nonzero (Some v) = Some v.
Proof. intros H; simpl; destruct (Req_dec_T v 0); [contradiction | reflexivity]. Qed.

Lemma py_nonzero_inv (x : option R) (v : R) :
  Py.nonzero x = Some v -> x = Some v /\ v <> 0.
Proof.
  destruct x as [w|]; simpl; [|discriminate].
  destruct (Req_dec_T w 0); [discriminate|].
  intros H; injection H as ->; auto.
Qed.

Lemma py_or_else_nonzero (x : option R) (d : R) :
  Py.or_else x d = match Py.nonzero x with Some v => v | None => d end.
Proof.
  destruct x as [v|]; simpl; [|reflexivity].
  destruct (Req_dec_T v 0); reflexivity.
Qed.

(** ** Severity bands *)

(** Case analysis on every comparison of the goal. *)
Ltac case_comparisons :=
  repeat match goal with
         | |- context [Rlt_dec ?a ?b] => destruct (Rlt_dec a b)
         end.

Lemma bands_monotone (c s m x y : R) :
  m <= s -> s <= c -> x <= y ->
  severity_le (bands x c s m) (bands y c s m).
Proof.
  intros Hms Hsc Hxy; unfold bands, Py.gt, severity_le.
  case_comparisons; simpl; try lia; lra.
Qed.

Lemma bands_value (x c s m : R) :
  (c < x -> bands x c s m = Catastrophic) /\
  (s < x -> x <= c -> bands x c s m = Severe) /\
  (m < x -> x <= s -> x <= c -> bands x c s m = Moderate) /\
  (x <= m -> x <= s -> x <= c -> bands x c s m = Minor).
Proof.
  unfold bands, Py.gt.
  repeat split; intros; case_comparisons; try reflexivity; lra.
Qed.

Lemma classifier_monotone (m : MetricName) (x y : R) :
  x <= y -> severity_le (classifier m x) (classifier m y).
Proof.
  intros Hxy.
  destruct m; simpl;
    unfold _get_crater_severity, _get_energy_severity,
      _get_temperature_severity, _get_fireball_severity,
      _get_shockwave_severity, _get_debris_severity, _get_seismic_severity,
      _get_dust_severity, _get_casualty_severity,
      _get_infrastructure_severity, _get_economic_severity,
      _get_refugee_severity;
    apply bands_monotone; lra.
Qed.

(** C6. Each of the twelve severity classifiers is monotone: a larger
    value is never put in a lower band of
    minor < moderate < severe < catastrophic.  The crater classifier
    steps at 20, 10 and 2 km, the energy classifier at 100000, 10000 and
    1000 megatons. *)
Theorem severity_classifier_monotone :
  (forall (m : MetricName) (x y : R),
     x <= y -> severity_le (classifier m x) (classifier m y)) /\
  (forall d,
     (20 < d -> _get_crater_severity d = Catastrophic) /\
     (10 < d <= 20 -> _get_crater_severity d = Severe) /\
     (2 < d <= 10 -> _get_crater_severity d = Moderate) /\
     (d <= 2 -> _get_crater_severity d = Minor)) /\
  (forall e,
     (100000 < e -> _get_energy_severity e = Catastrophic) /\
     (10000 < e <= 100000 -> _get_energy_severity e = Severe) /\
     (1000 < e <= 10000 -> _get_energy_severity e = Moderate) /\
     (e <= 1000 -> _get_energy_severity e = Minor)).
Proof.
  split; [exact classifier_monotone|].
  split.
  - intros d. unfold _get_crater_severity.
    repeat split; intros; apply bands_value; lra.
  - intros e. unfold _get_energy_severity.
    repeat split; intros; apply bands_value; lra.
Qed.

Lemma severity_classifier_monotone_witness :
  severity_le (classifier craterDiameter 15) (classifier craterDiameter 25) /\
  _get_crater_severity 15 = Severe /\
  _get_energy_severity 500 = Minor.
Proof.
  split; [|split].
  - apply (proj1 severity_classifier_monotone craterDiameter 15 25); lra.
  - apply (proj1 (proj2 severity_classifier_monotone) 15); lra.
  - apply (proj2 (proj2 severity_classifier_monotone) 500); lra.
Defined.

(** ** Clamping *)

Lemma seismic_magnitude_total (energy_mt : R) :
  exists m, _calculate_seismic_magnitude energy_mt = Ok m /\ 0 <= m <= 10.
Proof.
  unfold _calculate_seismic_magnitude, Py.gt.
  destruct (Rlt_dec 0 energy_mt) as [Hpos|Hnpos].
  - unfold Py.math_log10.
    destruct (Rlt_dec 0 (energy_mt * 4.184e15)) as [_|Hn]; [|exfalso; nra].
    simpl. eexists; split; [reflexivity|].
    rewrite py_max_Rmax, py_min_Rmin.
    split.
    + apply Rmax_l.
    + apply Rmax_lub; [lra | apply Rmin_l].
  - exists 0; split; [reflexivity | lra].
Qed.

(** C4. The seismic magnitude is returned for every energy and lies in
    [0, 10]; at energy 0 it is 0 (no logarithm is taken); and the peak
    temperature of every thermal result is at most 100000, a result
    existing for every non-negative energy. *)
Theorem seismic_and_temperature_clamped :
  (forall energy_mt,
     exists m, _calculate_seismic_magnitude energy_mt = Ok m /\ 0 <= m <= 10) /\
  _calculate_seismic_magnitude 0 = Ok 0 /\
  (forall energy_mt velocity_kms fireball temp,
     _calculate_thermal_effects energy_mt velocity_kms = Ok (fireball, temp) ->
     temp <= 100000) /\
  (forall energy_mt velocity_kms,
     0 <= energy_mt ->
     exists fireball temp,
       _calculate_thermal_effects energy_mt velocity_kms = Ok (fireball, temp) /\
       temp = Rmin 100000 (velocity_kms * 2000 + 10000)).
Proof.
  split; [exact seismic_magnitude_total|].
  split.
  { unfold _calculate_seismic_magnitude, Py.gt.
    destruct (Rlt_dec 0 0); [lra | reflexivity]. }
  split.
  - intros e v f t H.
    unfold _calculate_thermal_effects in H.
    destruct (Py.pow e 0.4) as [p|err]; simpl in H; [|discriminate].
    injection H as _ <-.
    rewrite py_min_Rmin. apply Rmin_l.
  - intros e v He.
    unfold _calculate_thermal_effects, Py.pow.
    destruct (Rlt_dec 0 e) as [Hp|Hn].
    + simpl. do 2 eexists; split; [reflexivity | apply py_min_Rmin].
    + destruct (Req_dec_T e 0) as [_|Hne]; [|exfalso; lra].
      simpl. do 2 eexists; split; [reflexivity | apply py_min_Rmin].
Qed.

Lemma seismic_and_temperature_clamped_witness :
  (exists m, _calculate_seismic_magnitude 1e30 = Ok m /\ 0 <= m <= 10) /\
  (exists fireball temp,
     _calculate_thermal_effects 0 70 = Ok (fireball, temp) /\
     temp = Rmin 100000 (70 * 2000 + 10000)).
Proof.
  split.
  - apply (proj1 seismic_and_temperature_clamped 1e30).
  - apply (proj2 (proj2 (proj2 seismic_and_temperature_clamped)) 0 70); lra.
Defined.

(** ** Effective density *)

Lemma get_default_spec_table (c : string) :
  Py.get_default MATERIAL_DENSITIES c 2600 = spec_density_table c.
Proof.
  unfold Py.get_default, MATERIAL_DENSITIES, spec_density_table; simpl.
  destruct (String.eqb c "rocky"); [reflexivity|].
  destruct (String.eqb c "iron"); [reflexivity|].
  destruct (String.eqb c "icy"); [reflexivity|].
  destruct (String.eqb c "stony"); reflexivity.
Qed.

Lemma getitem_known_class (c : string) :
  In c ["rocky"; "iron"; "icy"; "stony"] ->
  Py.getitem MATERIAL_DENSITIES c = Ok (spec_density_table c).
Proof.
  simpl; intros [<-|[<-|[<-|[<-|[]]]]]; reflexivity.
Qed.

(** A negative override is present but not positive: the specification
    selects the table value, the code uses the override. *)
Lemma negative_density_override_is_used :
  scenario_density (plain_asteroid "rocky" (Some (-5))) = Ok (-5) /\
  _calculate_asteroid_mass (plain_asteroid "rocky" (Some (-5)))
    = sphere_volume_m3 (plain_asteroid "rocky" (Some (-5))) * (-5) /\
  spec_effective_density (plain_asteroid "rocky" (Some (-5))) = 2600.
Proof.
  unfold scenario_density, _calculate_asteroid_mass, sphere_volume_m3,
    spec_effective_density; simpl.
  destruct (Req_dec_T (-5) 0) as [H|_]; [lra|].
  destruct (Rlt_dec 0 (-5)) as [H|_]; [lra|].
  repeat split; reflexivity.
Qed.

(** C2, as written, fails on a negative density override. *)
Lemma effective_density_as_written_fails :
  ~ (scenario_density (plain_asteroid "rocky" (Some (-5)))
       = Ok (spec_effective_density (plain_asteroid "rocky" (Some (-5)))) /\
     _calculate_asteroid_mass (plain_asteroid "rocky" (Some (-5)))
       = sphere_volume_m3 (plain_asteroid "rocky" (Some (-5)))
         * spec_effective_density (plain_asteroid "rocky" (Some (-5)))).
Proof.
  destruct negative_density_override_is_used as [Hs [_ Hspec]].
  rewrite Hs, Hspec. intros [H _]. injection H as H. lra.
Qed.

(** C2 (amended). The density override is used whenever it is present and
    non-zero; otherwise the mass calculation uses the table value of the
    class, 2600 for a class outside the table, and the scenario
    calculation uses the table value of each of the four classes. *)
Theorem effective_density_resolution (a : Asteroid) :
  (forall d, density_kg_m3 a = Some d -> d <> 0 ->
     _calculate_asteroid_mass a = sphere_volume_m3 a * d /\
     scenario_density a = Ok d) /\
  (Py.nonzero (density_kg_m3 a) = None ->
     _calculate_asteroid_mass a
       = sphere_volume_m3 a * spec_density_table (composition_type a)) /\
  (Py.nonzero (density_kg_m3 a) = None ->
     In (composition_type a) ["rocky"; "iron"; "icy"; "stony"] ->
     scenario_density a = Ok (spec_density_table (composition_type a))) /\
  spec_density_table "rocky" = 2600 /\ spec_density_table "iron" = 7800 /\
  spec_density_table "icy" = 1000 /\ spec_density_table "stony" = 3500 /\
  (~ In (composition_type a) ["rocky"; "iron"; "icy"; "stony"] ->
     spec_density_table (composition_type a) = 2600).
Proof.
  unfold _calculate_asteroid_mass, scenario_density, sphere_volume_m3.
  repeat split; try reflexivity.
  - rewrite py_or_else_nonzero with (x := density_kg_m3 a).
    rewrite H, py_nonzero_some by assumption. reflexivity.
  - rewrite H, py_nonzero_some by assumption. reflexivity.
  - intros Hn. rewrite py_or_else_nonzero with (x := density_kg_m3 a).
    rewrite Hn, get_default_spec_table. reflexivity.
  - intros Hn Hin. rewrite Hn. apply getitem_known_class; assumption.
  - intros Hnotin. unfold spec_density_table.
    destruct (String.eqb_spec (composition_type a) "rocky") as [E|_];
      [reflexivity|].
    destruct (String.eqb_spec (composition_type a) "iron") as [E|_];
      [exfalso; apply Hnotin; rewrite E; simpl; auto|].
    destruct (String.eqb_spec (composition_type a) "icy") as [E|_];
      [exfalso; apply Hnotin; rewrite E; simpl; auto|].
    destruct (String.eqb_spec (composition_type a) "stony") as [E|_];
      [exfalso; apply Hnotin; rewrite E; simpl; auto|].
    reflexivity.
Qed.

Lemma effective_density_resolution_witness :
  _calculate_asteroid_mass (plain_asteroid "iron" (Some 3000))
    = sphere_volume_m3 (plain_asteroid "iron" (Some 3000)) * 3000 /\
  scenario_density (plain_asteroid "iron" (Some 3000)) = Ok 3000 /\
  scenario_density (plain_asteroid "iron" None) = Ok 7800.
Proof.
  pose proof (effective_density_resolution (plain_asteroid "iron" (Some 3000)))
    as [H1 _].
  pose proof (effective_density_resolution (plain_asteroid "iron" None))
    as [_ [_ [H3 _]]].
  destruct (H1 3000 eq_refl) as [Hm Hs]; [lra|].
  split; [exact Hm|]. split; [exact Hs|].
  apply H3; [reflexivity | simpl; auto].
Defined.

(** The subscript of source line 40 on a class outside the table. *)
Lemma scenario_density_unknown_class :
  scenario_density (plain_asteroid "metallic" None) = Raise (KeyError "metallic") /\
  _calculate_asteroid_mass (plain_asteroid "metallic" None)
    = sphere_volume_m3 (plain_asteroid "metallic" None) * 2600.
Proof.
  unfold _calculate_asteroid_mass, sphere_volume_m3; split; reflexivity.
Qed.

(** ** Velocity resolution *)

Lemma orbital_velocity_positive_axis (oe : OrbitalElements) (ax : R) :
  semi_major_axis_au oe = Some ax -> 0 < ax ->
  _calculate_orbital_velocity oe
    = Ok (sqrt (1.327e20 / (ax * 1.496e11)) / 1000).
Proof.
  intros Hax Hpos. unfold _calculate_orbital_velocity, AU.
  rewrite Hax, py_nonzero_some by lra.
  rewrite py_div_nonzero by nra. simpl.
  rewrite py_sqrt_nonneg; [reflexivity|].
  apply Rlt_le, Rdiv_lt_0_compat; nra.
Qed.

(** The orbital velocity has no defined value on a negative axis. *)
Lemma orbital_velocity_negative_axis (oe : OrbitalElements) (ax : R) :
  semi_major_axis_au oe = Some ax -> ax < 0 ->
  _calculate_orbital_velocity oe = Raise ValueError.
Proof.
  intros Hax Hneg. unfold _calculate_orbital_velocity, AU.
  rewrite Hax, py_nonzero_some by lra.
  rewrite py_div_nonzero by nra. simpl.
  unfold Py.math_sqrt.
  destruct (Rlt_dec (1.327e20 / (ax * 1.496e11)) 0) as [_|Hn]; [reflexivity|].
  exfalso; apply Hn.
  replace (1.327e20 / (ax * 1.496e11))
    with (- (1.327e20 / ((- ax) * 1.496e11))) by (field; lra).
  apply Ropp_lt_gt_0_contravar, Rdiv_lt_0_compat; nra.
Qed.

Section Velocity.

Variable format_float : string -> R -> string.

Lemma impact_velocity_override (a : Asteroid) (p : ImpactParameters)
    (h : Heap) (v : R) :
  impact_velocity_kms p = Some v -> v <> 0 ->
  _calculate_impact_velocity format_float a p h = (Ok v, h).
Proof.
  intros Hv Hnz. unfold _calculate_impact_velocity.
  rewrite Hv, py_nonzero_some by assumption. reflexivity.
Qed.

Lemma impact_velocity_orbital (a : Asteroid) (p : ImpactParameters)
    (h : Heap) (oe : OrbitalElements) (ax : R) :
  Py.nonzero (impact_velocity_kms p) = None ->
  orbital_elements a = Some oe -> semi_major_axis_au oe = Some ax ->
  0 < ax ->
  fst (_calculate_impact_velocity format_float a p h)
    = Ok (sqrt ((sqrt (1.327e20 / (ax * 1.496e11)) / 1000) ^ 2 + 11.2 ^ 2)).
Proof.
  intros Hv Hoe Hax Hpos. unfold _calculate_impact_velocity.
  rewrite Hv, Hoe, Hax, py_nonzero_some by lra.
  unfold bindM, lift.
  rewrite (orbital_velocity_positive_axis oe ax Hax Hpos).
  unfold EARTH_ESCAPE_VELOCITY.
  rewrite py_sqrt_nonneg; [reflexivity|].
  apply Rplus_le_le_0_compat; apply pow2_ge_0.
Qed.

Lemma impact_velocity_fallback (a : Asteroid) (p : ImpactParameters)
    (h : Heap) :
  Py.nonzero (impact_velocity_kms p) = None ->
  (orbital_elements a = None \/
   exists oe, orbital_elements a = Some oe /\
              Py.nonzero (semi_major_axis_au oe) = None) ->
  _calculate_impact_velocity format_float a p h = (Ok 20, h).
Proof.
  intros Hv Horb. unfold _calculate_impact_velocity. rewrite Hv.
  destruct Horb as [Hnone | [oe [Hoe Hax]]].
  - rewrite Hnone. unfold ret. do 2 f_equal. lra.
  - rewrite Hoe, Hax. unfold ret. do 2 f_equal. lra.
Qed.

Lemma impact_velocity_positive (a : Asteroid) (p : ImpactParameters)
    (h : Heap) :
  velocity_inputs_nonnegative a p ->
  exists v, fst (_calculate_impact_velocity format_float a p h) = Ok v /\ 0 < v.
Proof.
  intros [Hv Horb].
  destruct (Py.nonzero (impact_velocity_kms p)) as [v|] eqn:Hnz.
  - apply py_nonzero_inv in Hnz as [Hsome Hne].
    rewrite Hsome in Hv.
    exists v. rewrite (impact_velocity_override a p h v Hsome Hne).
    split; [reflexivity | lra].
  - destruct (orbital_elements a) as [oe|] eqn:Hoe.
    + destruct (Py.nonzero (semi_major_axis_au oe)) as [ax|] eqn:Hax.
      * apply py_nonzero_inv in Hax as [Hsome Hne].
        rewrite Hsome in Horb.
        eexists. rewrite (impact_velocity_orbital a p h oe ax Hnz Hoe Hsome)
          by lra.
        split; [reflexivity|].
        apply sqrt_lt_R0.
        apply Rplus_le_lt_0_compat; [apply pow2_ge_0 | lra].
      * exists 20. rewrite impact_velocity_fallback; eauto.
        split; [reflexivity | lra].
    + exists 20. rewrite impact_velocity_fallback; auto.
      split; [reflexivity | lra].
Qed.

End Velocity.

(** C3, as written, fails: a negative override is present but not
    positive, so the written order falls through to the 20.0 km/s
    fallback with a positive result; the code returns the override. *)
Lemma velocity_order_as_written_fails :
  ~ (exists v,
       fst (_calculate_impact_velocity echo_format
              (plain_asteroid "rocky" None)
              (plain_parameters (Some (-5)) 45 2700)
              (heap_of physics_engine (plain_asteroid "rocky" None)
                 (plain_parameters (Some (-5)) 45 2700)))
         = Ok v /\ 0 < v).
Proof.
  intros [v [Hv Hpos]].
  rewrite impact_velocity_override with (v := -5) in Hv;
    [| reflexivity | lra].
  simpl in Hv. injection Hv as <-. lra.
Qed.

(** C3 (amended). An override that is present and non-zero is returned
    unchanged; otherwise a present, positive semi-major axis gives
    sqrt(v_orbital^2 + 11.2^2) with v_orbital = sqrt(GM_sun / a_meters)
    in km/s; otherwise, with no orbital elements or an absent or zero
    axis, the result is 20.0; and the resolved velocity is positive
    whenever neither the override nor the axis is negative. *)
Theorem velocity_resolution_order (format_float : string -> R -> string)
    (a : Asteroid) (p : ImpactParameters) (h : Heap) :
  (forall v, impact_velocity_kms p = Some v -> v <> 0 ->
     _calculate_impact_velocity format_float a p h = (Ok v, h)) /\
  (forall oe ax,
     Py.nonzero (impact_velocity_kms p) = None ->
     orbital_elements a = Some oe -> semi_major_axis_au oe = Some ax ->
     0 < ax ->
     fst (_calculate_impact_velocity format_float a p h)
       = Ok (sqrt ((sqrt (1.327e20 / (ax * 1.496e11)) / 1000) ^ 2 + 11.2 ^ 2))) /\
  (Py.nonzero (impact_velocity_kms p) = None ->
     (orbital_elements a = None \/
      exists oe, orbital_elements a = Some oe /\
                 Py.nonzero (semi_major_axis_au oe) = None) ->
     _calculate_impact_velocity format_float a p h = (Ok 20, h)) /\
  (velocity_inputs_nonnegative a p ->
     exists v,
       fst (_calculate_impact_velocity format_float a p h) = Ok v /\ 0 < v).
Proof.
  split; [intros v; apply impact_velocity_override|].
  split; [intros oe ax; apply impact_velocity_orbital|].
  split; [apply impact_velocity_fallback | apply impact_velocity_positive].
Qed.

Lemma velocity_resolution_order_witness :
  _calculate_impact_velocity echo_format
    (plain_asteroid "rocky" None) (plain_parameters (Some 17) 45 2700)
    (heap_of physics_engine (plain_asteroid "rocky" None)
       (plain_parameters (Some 17) 45 2700))
  = (Ok 17,
     heap_of physics_engine (plain_asteroid "rocky" None)
       (plain_parameters (Some 17) 45 2700)) /\
  _calculate_impact_velocity echo_format
    (plain_asteroid "rocky" None) (plain_parameters None 45 2700)
    (heap_of physics_engine (plain_asteroid "rocky" None)
       (plain_parameters None 45 2700))
  = (Ok 20,
     heap_of physics_engine (plain_asteroid "rocky" None)
       (plain_parameters None 45 2700)).
Proof.
  split.
  - apply (proj1 (velocity_resolution_order echo_format
                    (plain_asteroid "rocky" None)
                    (plain_parameters (Some 17) 45 2700) _) 17);
      [reflexivity | lra].
  - apply (proj1 (proj2 (proj2 (velocity_resolution_order echo_format
                    (plain_asteroid "rocky" None)
                    (plain_parameters None 45 2700) _))));
      [reflexivity | left; reflexivity].
Defined.

(** ** Numeric facts: pi, the angle factor, fractional powers *)

Lemma PI_bounds : 3.1415 < PI < 3.1416.
Proof.
  pose proof (PI_2_3_7_ineq 2) as H.
  unfold PI_2_3_7_tg, tg_alt, Ratan_seq in H. simpl in H.
  split; lra.
Qed.

Lemma INR_fact_values :
  INR (fact 1) = 1 /\ INR (fact 3) = 6 /\ INR (fact 5) = 120 /\
  INR (fact 7) = 5040 /\ INR (fact 9) = 362880.
Proof.
  repeat split; rewrite INR_IZR_INZ; apply f_equal; vm_compute; reflexivity.
Qed.

Lemma angle_factor_90 : angle_factor 90 = 1.
Proof.
  unfold angle_factor, Py.math_sin, Py.math_radians.
  replace (90 * (PI / 180)) with (PI / 2) by field.
  apply sin_PI2.
Qed.

Lemma angle_factor_15 : 0.2588 < angle_factor 15 < 0.2589.
Proof.
  unfold angle_factor, Py.math_sin, Py.math_radians.
  pose proof PI_bounds as [Hlo Hhi].
  assert (Hl : sin 0.26179 < sin (15 * (PI / 180)))
    by (apply sin_increasing_1; lra).
  assert (Hu : sin (15 * (PI / 180)) < sin 0.2618)
    by (apply sin_increasing_1; lra).
  pose proof (SIN 0.26179 ltac:(lra) ltac:(lra)) as [Hlb _].
  pose proof (SIN 0.2618 ltac:(lra) ltac:(lra)) as [_ Hub].
  destruct INR_fact_values as [F1 [F3 [F5 [F7 F9]]]].
  unfold sin_lb, sin_ub, sin_approx in *.
  cbn [sum_f_R0] in Hlb, Hub. unfold sin_term in Hlb, Hub.
  change (2 * 0 + 1)%nat with 1%nat in *.
  change (2 * 1 + 1)%nat with 3%nat in *.
  change (2 * 2 + 1)%nat with 5%nat in *.
  change (2 * 3 + 1)%nat with 7%nat in *.
  change (2 * 4 + 1)%nat with 9%nat in *.
  rewrite F1, F3, F5, F7 in Hlb. rewrite F1, F3, F5, F7, F9 in Hub.
  cbn [pow] in Hlb, Hub.
  split; lra.
Qed.

(** The angle factor is positive over the accepted range of angles. *)
Lemma angle_factor_positive (angle_deg : R) :
  15 <= angle_deg <= 90 -> 0 < angle_factor angle_deg.
Proof.
  intros [Hlo Hhi]. unfold angle_factor, Py.math_sin, Py.math_radians.
  pose proof PI_bounds as [Hp1 Hp2].
  apply sin_gt_0; nra.
Qed.

Lemma crater_diameter_value (energy_mt diameter_m velocity_kms density
    target_density angle_deg : R) :
  0 < energy_mt -> 0 < target_density -> 0 < angle_factor angle_deg ->
  _calculate_crater_diameter energy_mt diameter_m velocity_kms density
    target_density angle_deg
  = Ok (1.25 * Rpower (energy_mt * 4.184e15 * angle_factor angle_deg
                         / target_density) 0.25).
Proof.
  intros He Ht Ha. unfold _calculate_crater_diameter.
  fold (angle_factor angle_deg).
  rewrite py_div_nonzero by lra. simpl.
  rewrite py_pow_pos; [reflexivity|].
  apply Rdiv_lt_0_compat; [|assumption].
  apply Rmult_lt_0_compat; [nra | assumption].
Qed.

Lemma shockwave_radius_value (energy_mt angle_deg : R) :
  0 < energy_mt ->
  _calculate_shockwave_radius energy_mt angle_deg
  = Ok (15 * Rpower energy_mt 0.33 * angle_factor angle_deg).
Proof.
  intros He. unfold _calculate_shockwave_radius.
  rewrite py_pow_pos by assumption. reflexivity.
Qed.

Lemma debris_field_value (energy_mt angle_deg : R) :
  0 < energy_mt ->
  _calculate_debris_field energy_mt angle_deg
  = Ok (50 * Rpower energy_mt 0.3 * angle_factor angle_deg).
Proof.
  intros He. unfold _calculate_debris_field.
  rewrite py_pow_pos by assumption. reflexivity.
Qed.

Lemma Rpower_pos (x y : R) : 0 < Rpower x y.
Proof. unfold Rpower. apply exp_pos. Qed.

(** ** Angle sensitivity *)

(** C5, as written, fails: with a target density of 0 the crater
    diameter has no value at either angle. *)
Lemma crater_angle_order_as_written_fails :
  ~ (exists c15 c90,
       _calculate_crater_diameter 1 1000 20 2600 0 15 = Ok c15 /\
       _calculate_crater_diameter 1 1000 20 2600 0 90 = Ok c90 /\
       c15 < c90).
Proof.
  intros [c15 [c90 [H15 _]]].
  unfold _calculate_crater_diameter, Py.div in H15.
  destruct (Req_dec_T 0 0) as [_|Hn]; [|apply Hn; reflexivity].
  simpl in H15. discriminate.
Qed.

(** C5 (amended). For every positive energy and positive target density,
    the crater diameter, the shockwave radius and the debris field radius
    at 15 degrees are each strictly smaller than at 90 degrees; the angle
    factor is 1 at 90 degrees and about 0.2588 at 15 degrees. *)
Theorem oblique_impact_is_weaker
    (energy_mt diameter_m velocity_kms density target_density : R) :
  0 < energy_mt -> 0 < target_density ->
  angle_factor 90 = 1 /\ 0.2588 < angle_factor 15 < 0.2589 /\
  exists c15 c90 s15 s90 d15 d90,
    _calculate_crater_diameter energy_mt diameter_m velocity_kms density
      target_density 15 = Ok c15 /\
    _calculate_crater_diameter energy_mt diameter_m velocity_kms density
      target_density 90 = Ok c90 /\
    _calculate_shockwave_radius energy_mt 15 = Ok s15 /\
    _calculate_shockwave_radius energy_mt 90 = Ok s90 /\
    _calculate_debris_field energy_mt 15 = Ok d15 /\
    _calculate_debris_field energy_mt 90 = Ok d90 /\
    c15 < c90 /\ s15 < s90 /\ d15 < d90.
Proof.
  intros He Ht.
  pose proof angle_factor_90 as H90.
  pose proof angle_factor_15 as [H15lo H15hi].
  split; [exact H90|]. split; [split; assumption|].
  do 6 eexists.
  rewrite !crater_diameter_value, !shockwave_radius_value, !debris_field_value
    by (assumption || lra).
  repeat (split; [reflexivity|]).
  rewrite H90.
  pose proof (Rpower_pos energy_mt 0.33) as Hs.
  pose proof (Rpower_pos energy_mt 0.3) as Hd.
  split; [|split; nra].
  apply Rmult_lt_compat_l; [lra|].
  apply Rlt_Rpower_l; [lra|].
  assert (Hbase : 0 < energy_mt * 4.184e15) by nra.
  assert (Hinv : 0 < / target_density) by (apply Rinv_0_lt_compat; assumption).
  unfold Rdiv. split.
  - apply Rmult_lt_0_compat; [|assumption].
    apply Rmult_lt_0_compat; [assumption | lra].
  - apply Rmult_lt_compat_r; [assumption|].
    apply Rmult_lt_compat_l; [assumption | lra].
Qed.

Lemma oblique_impact_is_weaker_witness :
  exists c15 c90 s15 s90 d15 d90,
    _calculate_crater_diameter 1000 500 20 2600 2700 15 = Ok c15 /\
    _calculate_crater_diameter 1000 500 20 2600 2700 90 = Ok c90 /\
    _calculate_shockwave_radius 1000 15 = Ok s15 /\
    _calculate_shockwave_radius 1000 90 = Ok s90 /\
    _calculate_debris_field 1000 15 = Ok d15 /\
    _calculate_debris_field 1000 90 = Ok d90 /\
    c15 < c90 /\ s15 < s90 /\ d15 < d90.
Proof.
  apply (oblique_impact_is_weaker 1000 500 20 2600 2700); lra.
Defined.

(** ** The scenario calculation, step by step *)

Section Scenario.

Variable format_float : string -> R -> string.

Lemma impact_velocity_frame (a : Asteroid) (p : ImpactParameters) (h : Heap) :
  engine (snd (_calculate_impact_velocity format_float a p h)) = engine h /\
  arg_asteroid (snd (_calculate_impact_velocity format_float a p h))
    = arg_asteroid h /\
  arg_parameters (snd (_calculate_impact_velocity format_float a p h))
    = arg_parameters h.
Proof.
  unfold _calculate_impact_velocity.
  destruct (Py.nonzero (impact_velocity_kms p)); [simpl; auto|].
  destruct (orbital_elements a) as [oe|]; [|simpl; auto].
  destruct (Py.nonzero (semi_major_axis_au oe)); [|simpl; auto].
  unfold bindM, lift.
  destruct (_calculate_orbital_velocity oe) as [vo|e]; [|simpl; auto].
  destruct (Py.math_sqrt (vo ^ 2 + EARTH_ESCAPE_VELOCITY ^ 2));
    simpl; auto.
Qed.

Lemma impact_velocity_heap_independent (a : Asteroid) (p : ImpactParameters)
    (h h' : Heap) :
  fst (_calculate_impact_velocity format_float a p h)
    = fst (_calculate_impact_velocity format_float a p h').
Proof.
  unfold _calculate_impact_velocity.
  destruct (Py.nonzero (impact_velocity_kms p)); [reflexivity|].
  destruct (orbital_elements a) as [oe|]; [|reflexivity].
  destruct (Py.nonzero (semi_major_axis_au oe)); [|reflexivity].
  unfold bindM, lift.
  destruct (_calculate_orbital_velocity oe) as [vo|e]; [|reflexivity].
  destruct (Py.math_sqrt (vo ^ 2 + EARTH_ESCAPE_VELOCITY ^ 2));
    reflexivity.
Qed.

End Scenario.

Section ScenarioRun.

Variable format_float : string -> R -> string.

Lemma calculate_impact_scenario_unfold (h : Heap) :
  calculate_impact_scenario format_float h =
  let a := arg_asteroid h in
  let p := arg_parameters h in
  match _calculate_impact_velocity format_float a p (entered h) with
  | (Raise e, h1) => (Raise e, h1)
  | (Ok v, h1) =>
      match scenario_density a with
      | Raise e => (Raise e, h1)
      | Ok rho =>
          match comprehensive_quantities (scenario_energy_mt a v) v
                  (scenario_diameter_m a) rho (impact_angle_deg p)
                  (target_density_kg_m3 p) with
          | Raise e => (Raise e, h1)
          | Ok q =>
              (Ok (results_of (effects_dict format_float
                                 (scenario_energy_mt a v) v
                                 (scenario_diameter_m a) q)),
               {| engine := {| calculation_metadata := metadata_of a v |};
                  arg_asteroid := arg_asteroid h1;
                  arg_parameters := arg_parameters h1;
                  log := log h1 |})
          end
      end
  end.
Proof.
  unfold calculate_impact_scenario, bindM, read_asteroid, read_parameters,
    logger_info, lift, set_calculation_metadata, ret,
    _calculate_comprehensive_effects.
  cbv beta iota zeta. fold (entered h).
  destruct (_calculate_impact_velocity format_float (arg_asteroid h)
              (arg_parameters h) (entered h)) as [[v|e] h1]; [|reflexivity].
  destruct (scenario_density (arg_asteroid h)) as [rho|e]; [|reflexivity].
  fold (scenario_diameter_m (arg_asteroid h)).
  fold (scenario_energy_mt (arg_asteroid h) v).
  destruct (comprehensive_quantities (scenario_energy_mt (arg_asteroid h) v)
              v (scenario_diameter_m (arg_asteroid h)) rho
              (impact_angle_deg (arg_parameters h))
              (target_density_kg_m3 (arg_parameters h))) as [q|e];
    reflexivity.
Qed.

(** What a call returns and what it leaves in the heap, in terms of the
    two argument objects alone. *)
Lemma calculate_impact_scenario_run (h : Heap) :
  let a := arg_asteroid h in
  let p := arg_parameters h in
  let h' := snd (calculate_impact_scenario format_float h) in
  match outcome_of format_float a p with
  | Ok (v, r) =>
      fst (calculate_impact_scenario format_float h) = Ok r /\
      engine h' = {| calculation_metadata := metadata_of a v |}
  | Raise e =>
      fst (calculate_impact_scenario format_float h) = Raise e /\
      engine h' = engine h
  end /\
  arg_asteroid h' = a /\ arg_parameters h' = p.
Proof.
  intros a p h'. subst h'.
  rewrite calculate_impact_scenario_unfold. cbv zeta. fold a p.
  unfold outcome_of, velocity_of.
  rewrite (impact_velocity_heap_independent format_float a p
             (heap_of physics_engine a p) (entered h)).
  pose proof (impact_velocity_frame format_float a p (entered h))
    as [He [Ha Hp]].
  destruct (_calculate_impact_velocity format_float a p (entered h))
    as [[v|e] h1]; simpl in He, Ha, Hp |- *; [|auto].
  destruct (scenario_density a) as [rho|e]; simpl; [|auto].
  destruct (comprehensive_quantities (scenario_energy_mt a v) v
              (scenario_diameter_m a) rho (impact_angle_deg p)
              (target_density_kg_m3 p)) as [q|e]; simpl; auto.
Qed.

Lemma calculate_impact_scenario_result (h : Heap) :
  fst (calculate_impact_scenario format_float h)
  = match outcome_of format_float (arg_asteroid h) (arg_parameters h) with
    | Ok (_, r) => Ok r
    | Raise e => Raise e
    end.
Proof.
  pose proof (calculate_impact_scenario_run h) as [H _]. cbv zeta in H.
  destruct (outcome_of format_float (arg_asteroid h) (arg_parameters h))
    as [[v r]|e]; apply H.
Qed.

End ScenarioRun.

(** ** Roots as fractional powers *)

Lemma Rpower_root (n : nat) (y x : R) :
  0 < x -> INR n * y = 1 -> Rpower (x ^ n) y = x.
Proof.
  intros Hx Hny.
  rewrite <- Rpower_pow by assumption.
  rewrite Rpower_mult, Hny. apply Rpower_1; assumption.
Qed.

Lemma Rpower_root_lower (n : nat) (y lo x : R) :
  0 < lo -> 0 < y -> INR n * y = 1 -> lo ^ n < x -> lo < Rpower x y.
Proof.
  intros Hlo Hy Hny Hlt.
  rewrite <- (Rpower_root n y lo Hlo Hny) at 1.
  apply Rlt_Rpower_l; [assumption|].
  split; [apply pow_lt; assumption | assumption].
Qed.

Lemma Rpower_root_upper (n : nat) (y hi x : R) :
  0 < hi -> 0 < y -> INR n * y = 1 -> 0 < x -> x < hi ^ n -> Rpower x y < hi.
Proof.
  intros Hhi Hy Hny Hx Hlt.
  rewrite <- (Rpower_root n y hi Hhi Hny) at 1.
  apply Rlt_Rpower_l; [assumption | split; assumption].
Qed.

Lemma Rpower_two_fifths (x : R) : 0 < x -> Rpower x 0.4 = Rpower (x ^ 2) 0.2.
Proof.
  intros Hx. rewrite <- Rpower_pow by assumption.
  rewrite Rpower_mult. f_equal. simpl. lra.
Qed.

Lemma sqrt2_bounds : 1.4142 < sqrt 2 < 1.4143.
Proof.
  split.
  - rewrite <- (sqrt_pow2 1.4142) by lra. apply sqrt_lt_1_alt. lra.
  - rewrite <- (sqrt_pow2 1.4143) by lra. apply sqrt_lt_1_alt. lra.
Qed.

Lemma angle_factor_45 : angle_factor 45 = 1 / sqrt 2.
Proof.
  unfold angle_factor, Py.math_sin, Py.math_radians.
  replace (45 * (PI / 180)) with (PI / 4) by field.
  apply sin_PI4.
Qed.

Lemma angle_factor_45_bounds : 0.707 < angle_factor 45 < 0.7072.
Proof.
  rewrite angle_factor_45.
  pose proof sqrt2_bounds as [Hlo Hhi].
  unfold Rdiv. rewrite Rmult_1_l.
  split.
  - apply Rmult_lt_reg_r with (sqrt 2); [lra|].
    rewrite Rinv_l by lra. lra.
  - apply Rmult_lt_reg_r with (sqrt 2); [lra|].
    rewrite Rinv_l by lra. lra.
Qed.

(** ** Valid inputs run to completion *)

Lemma comprehensive_quantities_value
    (energy_mt velocity_kms diameter_m density angle_deg target_density : R) :
  0 < energy_mt -> 0 < target_density -> 0 < angle_factor angle_deg ->
  exists m,
    _calculate_seismic_magnitude energy_mt = Ok m /\ 0 <= m <= 10 /\
    comprehensive_quantities energy_mt velocity_kms diameter_m density
      angle_deg target_density
    = Ok {| crater_diameter_m :=
              1.25 * Rpower (energy_mt * 4.184e15 * angle_factor angle_deg
                               / target_density) 0.25;
            fireball_radius_km := 0.5 * Rpower energy_mt 0.4;
            peak_temperature := Rmin 100000 (velocity_kms * 2000 + 10000);
            shockwave_radius_km :=
              15 * Rpower energy_mt 0.33 * angle_factor angle_deg;
            seismic_magnitude := m;
            debris_radius_km :=
              50 * Rpower energy_mt 0.3 * angle_factor angle_deg;
            atmospheric_dust_tons :=
              _calculate_atmospheric_dust energy_mt diameter_m;
            casualties :=
              _estimate_casualties
                (15 * Rpower energy_mt 0.33 * angle_factor angle_deg)
                (0.5 * Rpower energy_mt 0.4);
            infrastructure_damage_km :=
              15 * Rpower energy_mt 0.33 * angle_factor angle_deg * 1.5;
            economic_loss_billion := energy_mt * 0.1;
            refugees :=
              _estimate_refugees
                (50 * Rpower energy_mt 0.3 * angle_factor angle_deg) |}.
Proof.
  intros He Ht Ha.
  destruct (seismic_magnitude_total energy_mt) as [m [Hm Hb]].
  exists m. split; [exact Hm|]. split; [exact Hb|].
  unfold comprehensive_quantities.
  rewrite crater_diameter_value, shockwave_radius_value, debris_field_value, Hm
    by assumption.
  unfold _calculate_thermal_effects.
  rewrite py_pow_pos by assumption.
  simpl. rewrite py_min_Rmin. reflexivity.
Qed.

Lemma spec_density_table_positive (c : string) : 0 < spec_density_table c.
Proof.
  unfold spec_density_table.
  repeat match goal with
         | |- context [String.eqb ?a ?b] => destruct (String.eqb a b)
         end; lra.
Qed.

Lemma or_else_positive (x : option R) (d : R) :
  positive_if_present x -> 0 < d -> 0 < Py.or_else x d.
Proof.
  intros Hx Hd. destruct x as [v|]; simpl in *; [|assumption].
  destruct (Req_dec_T v 0); assumption.
Qed.

Lemma asteroid_mass_positive (a : Asteroid) :
  positive_if_present (estimated_diameter_km a) ->
  positive_if_present (density_kg_m3 a) ->
  0 < _calculate_asteroid_mass a.
Proof.
  intros Hd Hrho. unfold _calculate_asteroid_mass.
  rewrite get_default_spec_table.
  pose proof (or_else_positive _ 1.0 Hd ltac:(lra)) as Hdiam.
  pose proof (or_else_positive _ _ Hrho
                (spec_density_table_positive (composition_type a))) as Hdens.
  pose proof PI_bounds as [Hpi _].
  apply Rmult_lt_0_compat; [|assumption].
  apply Rmult_lt_0_compat; [lra|].
  apply pow_lt. lra.
Qed.

Lemma scenario_density_valid (a : Asteroid) :
  positive_if_present (density_kg_m3 a) ->
  (density_kg_m3 a = None ->
   In (composition_type a) ["rocky"; "iron"; "icy"; "stony"]) ->
  exists rho, scenario_density a = Ok rho.
Proof.
  intros Hpos Hin. unfold scenario_density.
  destruct (density_kg_m3 a) as [d|]; simpl in *.
  - destruct (Req_dec_T d 0); [lra | eauto].
  - rewrite getitem_known_class by (apply Hin; reflexivity). eauto.
Qed.

Lemma valid_velocity_inputs (a : Asteroid) (p : ImpactParameters) :
  valid_input a p -> velocity_inputs_nonnegative a p.
Proof.
  intros [_ [_ [_ [Hv [Hax _]]]]]. split.
  - destruct (impact_velocity_kms p); simpl in *; [lra | exact I].
  - destruct (orbital_elements a) as [oe|]; [|exact I].
    destruct (semi_major_axis_au oe); simpl in *; [lra | exact I].
Qed.

Section ValidRun.

Variable format_float : string -> R -> string.

(** A valid input runs to completion, on a positive velocity and a
    positive energy. *)
Lemma outcome_of_valid (a : Asteroid) (p : ImpactParameters) :
  valid_input a p ->
  exists v rho q,
    velocity_of format_float a p = Ok v /\ 0 < v /\
    0 < scenario_energy_mt a v /\
    scenario_density a = Ok rho /\
    comprehensive_quantities (scenario_energy_mt a v) v
      (scenario_diameter_m a) rho (impact_angle_deg p)
      (target_density_kg_m3 p) = Ok q /\
    (forall m, 0 <= metric_value (scenario_energy_mt a v) q m) /\
    outcome_of format_float a p
    = Ok (v, results_of (effects_dict format_float (scenario_energy_mt a v) v
                           (scenario_diameter_m a) q)).
Proof.
  intros Hvalid.
  pose proof (valid_velocity_inputs a p Hvalid) as Hvel.
  destruct Hvalid as [Hd [Hrho [Hin [_ [_ [Hang Htd]]]]]].
  destruct (impact_velocity_positive format_float a p
              (heap_of physics_engine a p) Hvel) as [v [Hv Hvpos]].
  destruct (scenario_density_valid a Hrho Hin) as [rho Hdens].
  pose proof (asteroid_mass_positive a Hd Hrho) as Hmass.
  assert (HE : 0 < scenario_energy_mt a v).
  { unfold scenario_energy_mt.
    apply Rdiv_lt_0_compat; [|lra].
    apply Rmult_lt_0_compat; [lra | apply pow_lt; lra]. }
  pose proof (angle_factor_positive _ Hang) as Haf.
  destruct (comprehensive_quantities_value (scenario_energy_mt a v) v
              (scenario_diameter_m a) rho (impact_angle_deg p)
              (target_density_kg_m3 p) HE Htd Haf) as [m [_ [Hm Hq]]].
  do 3 eexists.
  split; [exact Hv|]. split; [exact Hvpos|]. split; [exact HE|].
  split; [exact Hdens|]. split; [exact Hq|].
  split.
  - pose proof (Rpower_pos (scenario_energy_mt a v) 0.4) as P4.
    pose proof (Rpower_pos (scenario_energy_mt a v) 0.33) as P33.
    pose proof (Rpower_pos (scenario_energy_mt a v) 0.3) as P3.
    pose proof (Rpower_pos (scenario_energy_mt a v * 4.184e15
                            * angle_factor (impact_angle_deg p)
                            / target_density_kg_m3 p) 0.25) as P25.
    pose proof PI_bounds as [Hpi _].
    assert (Hdiam : 0 < scenario_diameter_m a).
    { unfold scenario_diameter_m.
      pose proof (or_else_positive _ 1.0 Hd ltac:(lra)). lra. }
    intros [| | | | | | | | | | |]; simpl.
    + lra.
    + lra.
    + apply Rmin_glb; lra.
    + lra.
    + apply Rlt_le, Rmult_lt_0_compat; [lra | assumption].
    + apply Rlt_le, Rmult_lt_0_compat; [lra | assumption].
    + lra.
    + unfold _calculate_atmospheric_dust.
      assert (H3 : 0 < scenario_diameter_m a ^ 3) by (apply pow_lt; assumption).
      apply Rlt_le, Rdiv_lt_0_compat; [|lra].
      revert H3. generalize (scenario_diameter_m a ^ 3). intros d3 H3. nra.
    + unfold _estimate_casualties.
      set (s := 15 * _ * _). set (f := 0.5 * _).
      pose proof (pow2_ge_0 s). pose proof (pow2_ge_0 f). nra.
    + apply Rlt_le, Rmult_lt_0_compat; [|lra].
      apply Rmult_lt_0_compat; [lra | assumption].
    + lra.
    + unfold _estimate_refugees.
      set (d := 50 * _ * _). pose proof (pow2_ge_0 d). nra.
  - unfold outcome_of, velocity_of. rewrite Hv. simpl. rewrite Hdens. simpl.
    rewrite Hq. reflexivity.
Qed.

End ValidRun.

(** ** Progress scores *)

Lemma progress_in_range (x c : R) :
  0 <= x -> 0 < c -> 0 <= Rmin 100 (x / c * 100) <= 100.
Proof.
  intros Hx Hc. split; [|apply Rmin_l].
  apply Rmin_glb; [lra|].
  apply Rmult_le_pos; [|lra].
  apply Rmult_le_pos; [assumption|].
  apply Rlt_le, Rinv_0_lt_compat; assumption.
Qed.

Lemma ceiling_positive (m : MetricName) : 0 < ceiling m.
Proof. destruct m; simpl; lra. Qed.

(** Every metric of the dict literal carries the severity of its
    classifier and the progress score of its ceiling. *)
Lemma effects_dict_metric (format_float : string -> R -> string)
    (energy_mt velocity_kms diameter_m : R) (q : Quantities) (m : MetricName) :
  exists im,
    result_metric
      (results_of (effects_dict format_float energy_mt velocity_kms
                     diameter_m q)) m = Some im /\
    severity im = classifier m (metric_value energy_mt q m) /\
    progress im = Rmin 100 (metric_value energy_mt q m / ceiling m * 100).
Proof.
  destruct m;
    (eexists; split; [reflexivity|]; split;
     [reflexivity | cbn [progress mk_metric]; apply py_min_Rmin]).
Qed.

Ltac entry_of m :=
  exists m; split; [reflexivity|]; split;
  [reflexivity | cbn [progress mk_metric]; apply py_min_Rmin].

(** The dict literal holds no entry besides the twelve metrics. *)
Lemma effects_dict_entries (format_float : string -> R -> string)
    (energy_mt velocity_kms diameter_m : R) (q : Quantities)
    (key : string) (im : ImpactMetric) :
  In (key, im)
    (result_entries
       (results_of (effects_dict format_float energy_mt velocity_kms
                      diameter_m q))) ->
  exists m,
    key = metric_key m /\
    result_metric
      (results_of (effects_dict format_float energy_mt velocity_kms
                     diameter_m q)) m = Some im /\
    progress im = Rmin 100 (metric_value energy_mt q m / ceiling m * 100).
Proof.
  unfold result_entries, results_of, effects_dict.
  cbn [immediate environmental human_impact eff_immediate eff_environmental
       eff_human_impact app In].
  intros H.
  repeat (destruct H as [H|H];
          [injection H as <- <-;
           first [ entry_of craterDiameter | entry_of energy
                 | entry_of temperature | entry_of fireballRadius
                 | entry_of shockwaveRadius | entry_of debrisFieldRadius
                 | entry_of seismicMagnitude | entry_of atmosphericDust
                 | entry_of casualtiesImmediate
                 | entry_of infrastructureDamage | entry_of economicLoss
                 | entry_of refugeePopulation ]|]).
  contradiction.
Qed.

(** C7, as written, fails: the specification's valid input is a positive
    diameter and an angle between 15 and 90 degrees.  With the reference
    scenario's body and conditions and a velocity override of -10 km/s the
    call returns, and the temperature metric of the result has the
    progress score -10, outside [0, 100]. *)
Lemma progress_scores_as_written_fails :
  exists r im,
    fst (calculate_impact_scenario echo_format
           (heap_of physics_engine (plain_asteroid "rocky" None)
              (plain_parameters (Some (-10)) 45 2700))) = Ok r /\
    In ("temperature", im) (result_entries r) /\
    progress im = -10 /\
    ~ (0 <= progress im <= 100).
Proof.
  assert (Hv : velocity_of echo_format (plain_asteroid "rocky" None)
                 (plain_parameters (Some (-10)) 45 2700) = Ok (-10)).
  { unfold velocity_of.
    rewrite (impact_velocity_override echo_format _ _ _ (-10));
      [reflexivity | reflexivity | lra]. }
  assert (Hmass : 0 < _calculate_asteroid_mass (plain_asteroid "rocky" None)).
  { apply asteroid_mass_positive; simpl; [lra | exact I]. }
  assert (HE : 0 < scenario_energy_mt (plain_asteroid "rocky" None) (-10)).
  { unfold scenario_energy_mt.
    apply Rdiv_lt_0_compat; [|lra].
    apply Rmult_lt_0_compat; [lra|].
    replace ((-10 * 1000) ^ 2) with ((10 * 1000) ^ 2) by lra.
    apply pow_lt. lra. }
  destruct (comprehensive_quantities_value
              (scenario_energy_mt (plain_asteroid "rocky" None) (-10))
              (-10) (scenario_diameter_m (plain_asteroid "rocky" None))
              2600 45 2700 HE ltac:(lra)
              (angle_factor_positive 45 ltac:(lra)))
    as [m [_ [_ Hq]]].
  set (q := {| crater_diameter_m := _ |}) in Hq.
  assert (Hout : outcome_of echo_format (plain_asteroid "rocky" None)
                   (plain_parameters (Some (-10)) 45 2700)
                 = Ok (-10,
                       results_of
                         (effects_dict echo_format
                            (scenario_energy_mt (plain_asteroid "rocky" None)
                               (-10))
                            (-10)
                            (scenario_diameter_m (plain_asteroid "rocky" None))
                            q))).
  { unfold outcome_of. rewrite Hv. simpl bind.
    change (scenario_density (plain_asteroid "rocky" None))
      with (Ok 2600 : result R).
    simpl bind.
    change (impact_angle_deg (plain_parameters (Some (-10)) 45 2700)) with 45.
    change (target_density_kg_m3 (plain_parameters (Some (-10)) 45 2700))
      with 2700.
    rewrite Hq. reflexivity. }
  assert (Hprog : Py.min 100 (peak_temperature q / 100000 * 100) = -10).
  { rewrite py_min_Rmin. subst q. cbn [peak_temperature].
    replace (-10 * 2000 + 10000) with (-10000) by lra.
    rewrite (Rmin_right 100000 (-10000)) by lra.
    replace (-10000 / 100000 * 100) with (-10) by lra.
    apply Rmin_right. lra. }
  eexists. eexists. split; [|split; [|split]].
  - rewrite calculate_impact_scenario_result.
    change (arg_asteroid (heap_of physics_engine (plain_asteroid "rocky" None)
                            (plain_parameters (Some (-10)) 45 2700)))
      with (plain_asteroid "rocky" None).
    change (arg_parameters (heap_of physics_engine
                              (plain_asteroid "rocky" None)
                              (plain_parameters (Some (-10)) 45 2700)))
      with (plain_parameters (Some (-10)) 45 2700).
    rewrite Hout. reflexivity.
  - unfold result_entries, results_of, effects_dict.
    cbn [immediate environmental human_impact eff_immediate
         eff_environmental eff_human_impact app In].
    right. right. left. reflexivity.
  - cbn [progress mk_metric]. exact Hprog.
  - cbn [progress mk_metric]. rewrite Hprog. lra.
Qed.

(** C7 (amended). The entries of a returned result are the twelve
    metrics, each once and under its own key, and every entry has the
    progress score min(100, (value / ceiling) * 100), with the ceiling of
    the table [ceiling] (crater 50 km, energy 1,000,000 MT, temperature
    100000, fireball 200 km, shockwave 3000 km, debris 8000 km, seismic
    10, dust 100 billion tons, casualties 10,000,000, infrastructure 2000
    km, economic loss 10,000 billion USD, refugees 50,000,000); and on
    every input whose diameter, density override, velocity override and
    semi-major axis are positive where present, whose class is one of the
    table when there is no density override, whose angle lies between 15
    and 90 degrees and whose target density is positive, a result is
    returned and the progress score of every entry lies in [0, 100]. *)
Theorem progress_scores (format_float : string -> R -> string) (h : Heap) :
  let a := arg_asteroid h in
  let p := arg_parameters h in
  (forall r,
     fst (calculate_impact_scenario format_float h) = Ok r ->
     exists v rho q,
       velocity_of format_float a p = Ok v /\
       scenario_density a = Ok rho /\
       comprehensive_quantities (scenario_energy_mt a v) v
         (scenario_diameter_m a) rho (impact_angle_deg p)
         (target_density_kg_m3 p) = Ok q /\
       List.length (result_entries r) = 12%nat /\
       (forall key im,
          In (key, im) (result_entries r) ->
          exists m,
            key = metric_key m /\
            result_metric r m = Some im /\
            progress im
              = Rmin 100 (metric_value (scenario_energy_mt a v) q m
                          / ceiling m * 100)) /\
       (forall m, exists im,
          In (metric_key m, im) (result_entries r) /\
          result_metric r m = Some im /\
          progress im
            = Rmin 100 (metric_value (scenario_energy_mt a v) q m
                        / ceiling m * 100))) /\
  (valid_input a p ->
   exists r,
     fst (calculate_impact_scenario format_float h) = Ok r /\
     (forall key im,
        In (key, im) (result_entries r) -> 0 <= progress im <= 100) /\
     (forall m, exists im,
        result_metric r m = Some im /\ 0 <= progress im <= 100)).
Proof.
  intros a p. split.
  - intros r Hr.
    rewrite calculate_impact_scenario_result in Hr. fold a p in Hr.
    unfold outcome_of in Hr.
    destruct (velocity_of format_float a p) as [v|e]; simpl in Hr;
      [|discriminate].
    destruct (scenario_density a) as [rho|e]; simpl in Hr; [|discriminate].
    destruct (comprehensive_quantities (scenario_energy_mt a v) v
                (scenario_diameter_m a) rho (impact_angle_deg p)
                (target_density_kg_m3 p)) as [q|e] eqn:Hq; simpl in Hr;
      [|discriminate].
    injection Hr as <-.
    exists v, rho, q. do 2 (split; [reflexivity|]). split; [exact Hq|].
    split; [reflexivity|]. split.
    + intros key im Hin. apply effects_dict_entries. exact Hin.
    + intros m.
      destruct (effects_dict_metric format_float (scenario_energy_mt a v) v
                  (scenario_diameter_m a) q m) as [im [Him [_ Hprog]]].
      exists im. split; [|split; assumption].
      destruct m; cbn in Him; injection Him as <-;
        unfold result_entries, results_of, effects_dict;
        cbn [immediate environmental human_impact eff_immediate
             eff_environmental eff_human_impact app In metric_key];
        auto 13.
  - intros Hvalid.
    destruct (outcome_of_valid format_float a p Hvalid)
      as [v [rho [q [_ [_ [_ [_ [_ [Hnonneg Hout]]]]]]]]].
    eexists. split; [|split].
    + rewrite calculate_impact_scenario_result. fold a p.
      rewrite Hout. reflexivity.
    + intros key im Hin.
      destruct (effects_dict_entries format_float _ _ _ _ _ _ Hin)
        as [m [_ [_ Hprog]]].
      rewrite Hprog.
      apply progress_in_range; [apply Hnonneg | apply ceiling_positive].
    + intros m.
      destruct (effects_dict_metric format_float (scenario_energy_mt a v) v
                  (scenario_diameter_m a) q m) as [im [Him [_ Hprog]]].
      exists im. split; [exact Him|].
      rewrite Hprog.
      apply progress_in_range; [apply Hnonneg | apply ceiling_positive].
Qed.

(** ** Determinism, frame and metadata *)

Lemma calculate_impact_scenario_arguments_only
    (format_float : string -> R -> string) (h h' : Heap) :
  arg_asteroid h' = arg_asteroid h -> arg_parameters h' = arg_parameters h ->
  fst (calculate_impact_scenario format_float h')
  = fst (calculate_impact_scenario format_float h).
Proof.
  intros Ha Hp. rewrite !calculate_impact_scenario_result, Ha, Hp.
  reflexivity.
Qed.

Lemma calculate_impact_scenario_frame
    (format_float : string -> R -> string) (h : Heap) :
  arg_asteroid (snd (calculate_impact_scenario format_float h))
    = arg_asteroid h /\
  arg_parameters (snd (calculate_impact_scenario format_float h))
    = arg_parameters h.
Proof. apply (calculate_impact_scenario_run format_float h). Qed.

(** C8. The result of a call is a function of the two argument objects:
    heaps that agree on them give the same result, whatever the engine
    state and the log; a second call on the heap the first one left
    returns the same result; and no call changes an argument object. *)
Theorem calculate_impact_scenario_deterministic
    (format_float : string -> R -> string) (h : Heap) :
  let first := calculate_impact_scenario format_float h in
  let second := calculate_impact_scenario format_float (snd first) in
  (forall h',
     arg_asteroid h' = arg_asteroid h ->
     arg_parameters h' = arg_parameters h ->
     fst (calculate_impact_scenario format_float h') = fst first) /\
  fst second = fst first /\
  arg_asteroid (snd first) = arg_asteroid h /\
  arg_parameters (snd first) = arg_parameters h /\
  arg_asteroid (snd second) = arg_asteroid h /\
  arg_parameters (snd second) = arg_parameters h.
Proof.
  intros first second.
  destruct (calculate_impact_scenario_frame format_float h) as [Ha Hp].
  destruct (calculate_impact_scenario_frame format_float (snd first))
    as [Ha2 Hp2].
  fold first in Ha, Hp. fold second in Ha2, Hp2.
  split.
  { intros h'. apply calculate_impact_scenario_arguments_only. }
  split.
  { apply calculate_impact_scenario_arguments_only; assumption. }
  repeat split; congruence.
Qed.

Lemma calculate_impact_scenario_returns_on_valid
    (format_float : string -> R -> string) (h : Heap) :
  valid_input (arg_asteroid h) (arg_parameters h) ->
  exists r, fst (calculate_impact_scenario format_float h) = Ok r.
Proof.
  intros Hvalid.
  destruct (outcome_of_valid format_float _ _ Hvalid)
    as [v [rho [q [_ [_ [_ [_ [_ [_ Hout]]]]]]]]].
  eexists. rewrite calculate_impact_scenario_result, Hout. reflexivity.
Qed.

(** C10. Every returned [ImpactResults] carries
    asteroid_source = "nasa_neo", calculation_method = "enhanced_physics"
    and confidence_level = 0.85, which is not the model default 0.95; and
    every valid input has a result returned. *)
Theorem results_metadata_constant
    (format_float : string -> R -> string) (h : Heap) :
  (forall r,
     fst (calculate_impact_scenario format_float h) = Ok r ->
     asteroid_source r = "nasa_neo" /\
     calculation_method r = "enhanced_physics" /\
     confidence_level r = 0.85 /\
     confidence_level r <> ImpactResults_default_confidence_level) /\
  (valid_input (arg_asteroid h) (arg_parameters h) ->
   exists r, fst (calculate_impact_scenario format_float h) = Ok r).
Proof.
  split.
  - intros r Hr. rewrite calculate_impact_scenario_result in Hr.
    unfold outcome_of in Hr.
    destruct (velocity_of format_float _ _) as [v|e]; simpl in Hr;
      [|discriminate].
    destruct (scenario_density _) as [rho|e]; simpl in Hr; [|discriminate].
    destruct (comprehensive_quantities _ _ _ _ _ _) as [q|e]; simpl in Hr;
      [|discriminate].
    injection Hr as <-. simpl.
    unfold ImpactResults_default_confidence_level.
    repeat split; lra.
  - apply calculate_impact_scenario_returns_on_valid.
Qed.

(** C9 (amended). The engine has one mutable attribute,
    [calculation_metadata], held by the module-level singleton.  A call
    that returns overwrites it with the metadata of that call; a call
    that raises leaves it as it was; and the result never depends on the
    engine state the call started from. *)
Theorem engine_state_after_call
    (format_float : string -> R -> string) (h : Heap) :
  let a := arg_asteroid h in
  let p := arg_parameters h in
  let h' := snd (calculate_impact_scenario format_float h) in
  (forall r,
     fst (calculate_impact_scenario format_float h) = Ok r ->
     exists v,
       velocity_of format_float a p = Ok v /\
       engine h' = {| calculation_metadata := metadata_of a v |}) /\
  (forall e,
     fst (calculate_impact_scenario format_float h) = Raise e ->
     engine h' = engine h) /\
  (forall e0,
     fst (calculate_impact_scenario format_float
            {| engine := e0; arg_asteroid := a; arg_parameters := p;
               log := log h |})
     = fst (calculate_impact_scenario format_float h)).
Proof.
  intros a p h'.
  pose proof (calculate_impact_scenario_run format_float h) as [Hrun _].
  cbv zeta in Hrun. fold a p h' in Hrun.
  split; [|split].
  - intros r Hr.
    destruct (outcome_of format_float a p) as [[v r']|e] eqn:Hout.
    + destruct Hrun as [_ Hengine]. exists v. split; [|exact Hengine].
      unfold outcome_of in Hout.
      destruct (velocity_of format_float a p) as [v'|e]; simpl in Hout;
        [|discriminate].
      destruct (scenario_density a) as [rho|e]; simpl in Hout;
        [|discriminate].
      destruct (comprehensive_quantities _ _ _ _ _ _) as [q|e];
        simpl in Hout; [|discriminate].
      injection Hout as -> _. reflexivity.
    + destruct Hrun as [Hfst _]. rewrite Hfst in Hr. discriminate.
  - intros e He.
    destruct (outcome_of format_float a p) as [[v r']|e'].
    + destruct Hrun as [Hfst _]. rewrite Hfst in He. discriminate.
    + apply Hrun.
  - intros e0. apply calculate_impact_scenario_arguments_only; reflexivity.
Qed.

(** ** The reference scenario *)

Lemma scenario_valid :
  valid_input (plain_asteroid "rocky" None) (plain_parameters None 45 2700).
Proof.
  unfold valid_input; simpl.
  repeat split; try lra; try exact I.
  intros _. auto.
Qed.

Lemma scenario_velocity (format_float : string -> R -> string) :
  velocity_of format_float (plain_asteroid "rocky" None)
    (plain_parameters None 45 2700) = Ok 20.
Proof.
  unfold velocity_of.
  rewrite impact_velocity_fallback; [reflexivity | reflexivity | left; reflexivity].
Qed.

Lemma scenario_mass :
  _calculate_asteroid_mass (plain_asteroid "rocky" None)
  = (4 / 3) * PI * 500 ^ 3 * 2600.
Proof.
  unfold _calculate_asteroid_mass; simpl.
  destruct (Req_dec_T 1.0 0) as [H|_]; [lra|].
  change (Py.get_default MATERIAL_DENSITIES "rocky" 2600) with 2600.
  lra.
Qed.

Lemma scenario_mass_bounds :
  1.361e12 < _calculate_asteroid_mass (plain_asteroid "rocky" None) < 1.362e12.
Proof.
  rewrite scenario_mass. pose proof PI_bounds. lra.
Qed.

Lemma scenario_energy_bounds :
  65000 < scenario_energy_mt (plain_asteroid "rocky" None) 20 < 65100.
Proof.
  unfold scenario_energy_mt. rewrite scenario_mass.
  pose proof PI_bounds. lra.
Qed.

Lemma scenario_diameter :
  scenario_diameter_m (plain_asteroid "rocky" None) = 1000.
Proof.
  unfold scenario_diameter_m; simpl.
  destruct (Req_dec_T 1.0 0) as [H|_]; lra.
Qed.

Lemma scenario_crater_bounds (E : R) :
  65000 < E < 65100 ->
  20000 < 1.25 * Rpower (E * 4.184e15 * angle_factor 45 / 2700) 0.25 < 21000.
Proof.
  intros [Hlo Hhi].
  pose proof angle_factor_45_bounds as [Hal Hah].
  set (af := angle_factor 45) in *.
  assert (Hx1 : 65000 * 4.184e15 * 0.707 / 2700 < E * 4.184e15 * af / 2700).
  { apply Rmult_lt_compat_r; [lra|]. nra. }
  assert (Hx2 : E * 4.184e15 * af / 2700 < 65100 * 4.184e15 * 0.7072 / 2700).
  { apply Rmult_lt_compat_r; [lra|]. nra. }
  split.
  - assert (16000 < Rpower (E * 4.184e15 * af / 2700) 0.25); [|lra].
    apply (Rpower_root_lower 4); [lra | lra | simpl; lra | lra].
  - assert (Rpower (E * 4.184e15 * af / 2700) 0.25 < 16800); [|lra].
    apply (Rpower_root_upper 4); [lra | lra | simpl; lra | lra | lra].
Qed.

Lemma scenario_fireball_bounds (E : R) :
  65000 < E < 65100 -> 10 < 0.5 * Rpower E 0.4 < 50.
Proof.
  intros [Hlo Hhi].
  rewrite Rpower_two_fifths by lra.
  assert (HE2 : 65000 ^ 2 < E ^ 2 < 65100 ^ 2) by (simpl; nra).
  split.
  - assert (20 < Rpower (E ^ 2) 0.2); [|lra].
    apply (Rpower_root_lower 5); [lra | lra | simpl; lra | lra].
  - assert (Rpower (E ^ 2) 0.2 < 100); [|lra].
    apply (Rpower_root_upper 5); [lra | lra | simpl; lra | lra | lra].
Qed.

Section ReferenceScenario.

Variable format_float : string -> R -> string.

(** The quantities of the reference scenario. *)
Lemma scenario_quantities :
  exists q,
    comprehensive_quantities
      (scenario_energy_mt (plain_asteroid "rocky" None) 20)
      20 1000 2600 45 2700 = Ok q /\
    20000 < crater_diameter_m q < 21000 /\
    10 < fireball_radius_km q < 50 /\
    peak_temperature q = 50000.
Proof.
  pose proof scenario_energy_bounds as HE.
  pose proof angle_factor_45_bounds as [Haf _].
  destruct (comprehensive_quantities_value
              (scenario_energy_mt (plain_asteroid "rocky" None) 20)
              20 1000 2600 45 2700)
    as [m [_ [_ Hq]]]; [lra | lra | lra |].
  eexists. split; [exact Hq|]. simpl.
  split; [apply scenario_crater_bounds; assumption|].
  split; [apply scenario_fireball_bounds; assumption|].
  unfold Rmin. destruct (Rle_dec 100000 (20 * 2000 + 10000)); lra.
Qed.

Lemma scenario_outcome (q : Quantities) :
  comprehensive_quantities
    (scenario_energy_mt (plain_asteroid "rocky" None) 20)
    20 1000 2600 45 2700 = Ok q ->
  outcome_of format_float (plain_asteroid "rocky" None)
    (plain_parameters None 45 2700)
  = Ok (20, results_of
              (effects_dict format_float
                 (scenario_energy_mt (plain_asteroid "rocky" None) 20)
                 20 1000 q)).
Proof.
  intros Hq.
  unfold outcome_of. rewrite scenario_velocity. simpl bind.
  change (scenario_density (plain_asteroid "rocky" None))
    with (Ok 2600 : result R).
  simpl bind. rewrite scenario_diameter.
  change (impact_angle_deg (plain_parameters None 45 2700)) with 45.
  change (target_density_kg_m3 (plain_parameters None 45 2700)) with 2700.
  rewrite Hq. reflexivity.
Qed.

(** The severities of the four immediate metrics of the scenario. *)
Lemma scenario_immediate_severities (q : Quantities) :
  20000 < crater_diameter_m q < 21000 ->
  10 < fireball_radius_km q < 50 ->
  peak_temperature q = 50000 ->
  _get_crater_severity (crater_diameter_m q / 1000) = Catastrophic /\
  _get_energy_severity (scenario_energy_mt (plain_asteroid "rocky" None) 20)
    = Severe /\
  _get_temperature_severity (peak_temperature q) = Severe /\
  _get_fireball_severity (fireball_radius_km q) = Moderate.
Proof.
  intros Hc Hf Ht. pose proof scenario_energy_bounds as HE.
  unfold _get_crater_severity, _get_energy_severity,
    _get_temperature_severity, _get_fireball_severity.
  rewrite Ht.
  split; [apply bands_value; lra|].
  split; [apply bands_value; lra|].
  split; [apply bands_value; lra|].
  apply bands_value; lra.
Qed.

End ReferenceScenario.

(** C1, as written, fails: the energy of the scenario is about 65,000
    megatons, not of the order of 0.0651. *)
Lemma reference_scenario_as_written_fails :
  ~ spec_scenario_expectation (calculate_impact_scenario echo_format).
Proof.
  intros [r [E [q [_ [HE [_ [[_ Hhi] _]]]]]]].
  destruct scenario_quantities as [q0 [Hq0 _]].
  pose proof (calculate_impact_scenario_run echo_format scenario_heap)
    as [Hrun _].
  cbv zeta in Hrun.
  change (arg_asteroid scenario_heap) with (plain_asteroid "rocky" None) in Hrun.
  change (arg_parameters scenario_heap)
    with (plain_parameters None 45 2700) in Hrun.
  rewrite (scenario_outcome echo_format q0 Hq0) in Hrun.
  destruct Hrun as [_ Hengine].
  rewrite Hengine in HE.
  change (Some (scenario_energy_mt (plain_asteroid "rocky" None) 20) = Some E)
    in HE.
  injection HE as <-.
  pose proof scenario_energy_bounds. lra.
Qed.

(** C1 (amended). On the scenario (1 km, rocky, no density override, no
    orbital elements, no velocity override, 45 degrees, target density
    2700) the engine resolves the velocity to exactly 20.0 km/s, computes
    a mass of about 1.361e12 kg, an energy of about 65,000 megatons and a
    crater diameter of about 20 km, and classifies the immediate metrics
    catastrophic (crater), severe (energy), severe (temperature) and
    moderate (fireball): none is minor. *)
Theorem reference_scenario (format_float : string -> R -> string) :
  let out := calculate_impact_scenario format_float scenario_heap in
  exists r m E q,
    fst out = Ok r /\
    meta_float (engine (snd out)) "impact_velocity_used" = Some 20 /\
    meta_float (engine (snd out)) "asteroid_mass_kg" = Some m /\
    1.361e12 < m < 1.362e12 /\
    meta_float (engine (snd out)) "kinetic_energy_mt" = Some E /\
    65000 < E < 65100 /\
    comprehensive_quantities E 20 1000 2600 45 2700 = Ok q /\
    20000 < crater_diameter_m q < 21000 /\
    option_map severity (result_metric r craterDiameter) = Some Catastrophic /\
    option_map severity (result_metric r energy) = Some Severe /\
    option_map severity (result_metric r temperature) = Some Severe /\
    option_map severity (result_metric r fireballRadius) = Some Moderate /\
    immediate_minor_count r = 0%nat.
Proof.
  intros out. subst out.
  destruct scenario_quantities as [q [Hq [Hc [Hf Ht]]]].
  destruct (scenario_immediate_severities q Hc Hf Ht) as [S1 [S2 [S3 S4]]].
  pose proof (calculate_impact_scenario_run format_float scenario_heap)
    as [Hrun _].
  cbv zeta in Hrun.
  change (arg_asteroid scenario_heap) with (plain_asteroid "rocky" None) in Hrun.
  change (arg_parameters scenario_heap)
    with (plain_parameters None 45 2700) in Hrun.
  rewrite (scenario_outcome format_float q Hq) in Hrun.
  destruct Hrun as [Hres Hengine].
  rewrite Hres, Hengine.
  eexists. exists (_calculate_asteroid_mass (plain_asteroid "rocky" None)).
  exists (scenario_energy_mt (plain_asteroid "rocky" None) 20), q.
  split; [reflexivity|].
  split; [reflexivity|].
  split; [reflexivity|].
  split; [exact scenario_mass_bounds|].
  split; [reflexivity|].
  split; [exact scenario_energy_bounds|].
  split; [exact Hq|].
  split; [exact Hc|].
  split; [cbn; rewrite S1; reflexivity|].
  split; [cbn; rewrite S2; reflexivity|].
  split; [cbn; rewrite S3; reflexivity|].
  split; [cbn; rewrite S4; reflexivity|].
  unfold immediate_minor_count. cbn. rewrite S1, S2, S3, S4. reflexivity.
Qed.

(** ** The theorems at the reference scenario *)

Lemma progress_scores_witness :
  exists r,
    fst (calculate_impact_scenario echo_format scenario_heap) = Ok r /\
    (forall key im,
       In (key, im) (result_entries r) -> 0 <= progress im <= 100) /\
    exists v rho q,
      comprehensive_quantities
        (scenario_energy_mt (plain_asteroid "rocky" None) v) v
        (scenario_diameter_m (plain_asteroid "rocky" None)) rho 45 2700
      = Ok q /\
      forall key im,
        In (key, im) (result_entries r) ->
        exists m,
          key = metric_key m /\
          result_metric r m = Some im /\
          progress im
            = Rmin 100
                (metric_value
                   (scenario_energy_mt (plain_asteroid "rocky" None) v) q m
                 / ceiling m * 100).
Proof.
  destruct (proj2 (progress_scores echo_format scenario_heap) scenario_valid)
    as [r [Hr [Hrange _]]].
  exists r. split; [exact Hr|]. split; [exact Hrange|].
  destruct (proj1 (progress_scores echo_format scenario_heap) r Hr)
    as [v [rho [q [_ [_ [Hq [_ [Hformula _]]]]]]]].
  exists v, rho, q. split; [exact Hq | exact Hformula].
Defined.

Lemma calculate_impact_scenario_deterministic_witness :
  fst (calculate_impact_scenario echo_format
         {| engine := {| calculation_metadata := [("stale", MetaFloat 1)] |};
            arg_asteroid := plain_asteroid "rocky" None;
            arg_parameters := plain_parameters None 45 2700;
            log := ["earlier record"] |})
  = fst (calculate_impact_scenario echo_format scenario_heap).
Proof.
  apply (proj1 (calculate_impact_scenario_deterministic echo_format
                  scenario_heap)); reflexivity.
Defined.

Lemma results_metadata_constant_witness :
  exists r,
    fst (calculate_impact_scenario echo_format scenario_heap) = Ok r /\
    asteroid_source r = "nasa_neo" /\
    calculation_method r = "enhanced_physics" /\
    confidence_level r = 0.85 /\
    confidence_level r <> ImpactResults_default_confidence_level.
Proof.
  destruct (proj2 (results_metadata_constant echo_format scenario_heap)
              scenario_valid) as [r Hr].
  exists r. split; [exact Hr|].
  exact (proj1 (results_metadata_constant echo_format scenario_heap) r Hr).
Defined.

(** C9, as written, fails: a returning call on the fresh singleton leaves
    a non-empty [calculation_metadata] behind. *)
Lemma engine_unchanged_as_written_fails :
  ~ (engine (snd (calculate_impact_scenario echo_format scenario_heap))
     = engine scenario_heap).
Proof.
  destruct scenario_quantities as [q [Hq _]].
  pose proof (calculate_impact_scenario_run echo_format scenario_heap)
    as [Hrun _].
  cbv zeta in Hrun.
  change (arg_asteroid scenario_heap) with (plain_asteroid "rocky" None) in Hrun.
  change (arg_parameters scenario_heap)
    with (plain_parameters None 45 2700) in Hrun.
  rewrite (scenario_outcome echo_format q Hq) in Hrun.
  destruct Hrun as [_ Hengine].
  rewrite Hengine. simpl. discriminate.
Qed.

Lemma engine_state_after_call_witness :
  exists v,
    velocity_of echo_format (plain_asteroid "rocky" None)
      (plain_parameters None 45 2700) = Ok v /\
    engine (snd (calculate_impact_scenario echo_format scenario_heap))
    = {| calculation_metadata :=
           metadata_of (plain_asteroid "rocky" None) v |}.
Proof.
  destruct (calculate_impact_scenario_returns_on_valid echo_format
              scenario_heap scenario_valid) as [r Hr].
  exact (proj1 (engine_state_after_call echo_format scenario_heap) r Hr).
Defined.

(** * Further properties of the engine *)

(** ** Mass *)

Lemma asteroid_mass_value (a : Asteroid) :
  _calculate_asteroid_mass a
  = sphere_volume_m3 a
    * Py.or_else (density_kg_m3 a) (spec_density_table (composition_type a)).
Proof.
  unfold _calculate_asteroid_mass, sphere_volume_m3.
  rewrite get_default_spec_table. reflexivity.
Qed.

Lemma or_else_some (v d : R) : v <> 0 -> Py.or_else (Some v) d = v.
Proof.
  intros H. simpl. destruct (Req_dec_T v 0); [contradiction | reflexivity].
Qed.

Lemma sphere_volume_monotone (a1 a2 : Asteroid) (d1 d2 : R) :
  estimated_diameter_km a1 = Some d1 -> estimated_diameter_km a2 = Some d2 ->
  0 < d1 < d2 ->
  0 < sphere_volume_m3 a1 < sphere_volume_m3 a2.
Proof.
  intros H1 H2 [Hpos Hlt]. unfold sphere_volume_m3.
  rewrite H1, H2. simpl.
  destruct (Req_dec_T d1 0) as [E|_]; [lra|].
  destruct (Req_dec_T d2 0) as [E|_]; [lra|].
  pose proof PI_bounds as [Hpi _].
  assert (Hr1 : 0 < d1 * 1000 / 2) by lra.
  assert (Hr : d1 * 1000 / 2 < d2 * 1000 / 2) by lra.
  revert Hr1 Hr. generalize (d1 * 1000 / 2) (d2 * 1000 / 2). intros r1 r2 Hr1 Hr.
  assert (Hp : 0 < r1 ^ 3) by (apply pow_lt; assumption).
  assert (Hcube : r1 ^ 3 < r2 ^ 3).
  { simpl. rewrite !Rmult_1_r.
    apply Rmult_le_0_lt_compat; try lra; [nra|].
    apply Rmult_le_0_lt_compat; lra. }
  split.
  - apply Rmult_lt_0_compat; [lra | assumption].
  - apply Rmult_lt_compat_l; [lra | assumption].
Qed.

(** X1. For two positive diameter estimates, with the same class and
    the same density override (positive if present), the mass is positive
    and strictly larger at the larger diameter; for the same diameter
    estimate (positive if present) and two positive density overrides,
    the mass is strictly larger at the larger override; and for a
    diameter estimate that is positive if present and no density
    override, the four classes order the mass as
    icy < rocky < stony < iron. *)
Theorem asteroid_mass_monotone :
  (forall a1 a2 d1 d2,
     estimated_diameter_km a1 = Some d1 ->
     estimated_diameter_km a2 = Some d2 ->
     0 < d1 < d2 ->
     density_kg_m3 a1 = density_kg_m3 a2 ->
     composition_type a1 = composition_type a2 ->
     positive_if_present (density_kg_m3 a1) ->
     0 < _calculate_asteroid_mass a1 < _calculate_asteroid_mass a2) /\
  (forall a1 a2 rho1 rho2,
     estimated_diameter_km a1 = estimated_diameter_km a2 ->
     positive_if_present (estimated_diameter_km a1) ->
     density_kg_m3 a1 = Some rho1 -> density_kg_m3 a2 = Some rho2 ->
     0 < rho1 < rho2 ->
     _calculate_asteroid_mass a1 < _calculate_asteroid_mass a2) /\
  (forall a,
     positive_if_present (estimated_diameter_km a) ->
     _calculate_asteroid_mass (with_class a "icy")
       < _calculate_asteroid_mass (with_class a "rocky") /\
     _calculate_asteroid_mass (with_class a "rocky")
       < _calculate_asteroid_mass (with_class a "stony") /\
     _calculate_asteroid_mass (with_class a "stony")
       < _calculate_asteroid_mass (with_class a "iron")).
Proof.
  split; [|split].
  - intros a1 a2 d1 d2 H1 H2 Hd Hrho Hc Hpos.
    destruct (sphere_volume_monotone a1 a2 d1 d2 H1 H2 Hd) as [Hv1 Hv].
    rewrite !asteroid_mass_value, <- Hrho, <- Hc.
    pose proof (or_else_positive _ _ Hpos
                  (spec_density_table_positive (composition_type a1))) as Hden.
    split; [apply Rmult_lt_0_compat; assumption|].
    apply Rmult_lt_compat_r; assumption.
  - intros a1 a2 rho1 rho2 Hd Hpos H1 H2 [Hr1 Hr].
    rewrite !asteroid_mass_value. unfold sphere_volume_m3.
    rewrite <- Hd, H1, H2, !or_else_some by lra.
    apply Rmult_lt_compat_l; [|assumption].
    pose proof (or_else_positive _ 1.0 Hpos ltac:(lra)) as Hdiam.
    pose proof PI_bounds as [Hpi _].
    apply Rmult_lt_0_compat; [lra|]. apply pow_lt. lra.
  - intros a Hpos.
    rewrite !asteroid_mass_value. unfold sphere_volume_m3, with_class.
    cbn [density_kg_m3 composition_type estimated_diameter_km].
    change (Py.or_else None ?d) with d.
    pose proof (or_else_positive _ 1.0 Hpos ltac:(lra)) as Hdiam.
    pose proof PI_bounds as [Hpi _].
    assert (Hv : 0 < 4 / 3 * PI
                     * (Py.or_else (estimated_diameter_km a) 1.0 * 1000 / 2) ^ 3).
    { apply Rmult_lt_0_compat; [lra|]. apply pow_lt. lra. }
    change (spec_density_table "icy") with 1000.
    change (spec_density_table "rocky") with 2600.
    change (spec_density_table "stony") with 3500.
    change (spec_density_table "iron") with 7800.
    revert Hv. generalize (4 / 3 * PI
                     * (Py.or_else (estimated_diameter_km a) 1.0 * 1000 / 2) ^ 3).
    intros vol Hv. nra.
Qed.

Lemma asteroid_mass_monotone_witness :
  0 < _calculate_asteroid_mass (with_diameter (plain_asteroid "rocky" None) (Some 0.5))
    < _calculate_asteroid_mass (with_diameter (plain_asteroid "rocky" None) (Some 2)) /\
  _calculate_asteroid_mass (plain_asteroid "rocky" (Some 2000))
    < _calculate_asteroid_mass (plain_asteroid "rocky" (Some 3000)).
Proof.
  split.
  - apply (proj1 asteroid_mass_monotone _ _ 0.5 2);
      [reflexivity | reflexivity | lra | reflexivity | reflexivity | exact I].
  - apply (proj1 (proj2 asteroid_mass_monotone) _ _ 2000 3000);
      [reflexivity | simpl; lra | reflexivity | reflexivity | lra].
Defined.

(** ** The velocity derived from the orbit *)

Lemma orbital_speed_positive (ax : R) : 0 < ax -> 0 < orbital_speed_kms ax.
Proof.
  intros H. unfold orbital_speed_kms.
  apply Rdiv_lt_0_compat; [|lra].
  apply sqrt_lt_R0, Rdiv_lt_0_compat; nra.
Qed.

Lemma orbital_speed_decreasing (ax1 ax2 : R) :
  0 < ax1 < ax2 -> orbital_speed_kms ax2 < orbital_speed_kms ax1.
Proof.
  intros [H1 H12]. unfold orbital_speed_kms.
  apply Rmult_lt_compat_r; [lra|].
  apply sqrt_lt_1_alt. split.
  - apply Rlt_le, Rdiv_lt_0_compat; nra.
  - unfold Rdiv. apply Rmult_lt_compat_l; [lra|].
    apply Rinv_lt_contravar; nra.
Qed.

(** X2. When no velocity override is given and the semi-major axis is
    positive, the resolved impact velocity exceeds both Earth's escape
    velocity 11.2 km/s and the orbital speed, its square is the sum of
    their squares, and a larger axis gives a smaller impact velocity. *)
Theorem orbit_derived_velocity (format_float : string -> R -> string)
    (a : Asteroid) (p : ImpactParameters) (h : Heap)
    (oe : OrbitalElements) (ax : R) :
  Py.nonzero (impact_velocity_kms p) = None ->
  orbital_elements a = Some oe -> semi_major_axis_au oe = Some ax ->
  0 < ax ->
  exists v,
    fst (_calculate_impact_velocity format_float a p h) = Ok v /\
    11.2 < v /\ orbital_speed_kms ax < v /\
    v ^ 2 = orbital_speed_kms ax ^ 2 + 11.2 ^ 2 /\
    forall a' h' oe' ax' v',
      orbital_elements a' = Some oe' -> semi_major_axis_au oe' = Some ax' ->
      ax < ax' ->
      fst (_calculate_impact_velocity format_float a' p h') = Ok v' ->
      v' < v.
Proof.
  intros Hov Hoe Hax Hpos.
  pose proof (orbital_speed_positive ax Hpos) as Hs.
  eexists. split.
  { rewrite (impact_velocity_orbital format_float a p h oe ax); auto. }
  fold (orbital_speed_kms ax).
  assert (Hsum : 0 <= orbital_speed_kms ax ^ 2 + 11.2 ^ 2)
    by (apply Rplus_le_le_0_compat; apply pow2_ge_0).
  split; [|split; [|split]].
  - rewrite <- (sqrt_pow2 11.2) at 1 by lra.
    apply sqrt_lt_1_alt. split; [apply pow2_ge_0|].
    assert (0 < orbital_speed_kms ax ^ 2) by (apply pow_lt; assumption). lra.
  - rewrite <- (sqrt_pow2 (orbital_speed_kms ax)) at 1 by lra.
    apply sqrt_lt_1_alt. split; [apply pow2_ge_0 | lra].
  - rewrite pow2_sqrt by assumption. reflexivity.
  - intros a' h' oe' ax' v' Hoe' Hax' Hlt Hv'.
    rewrite (impact_velocity_orbital format_float a' p h' oe' ax') in Hv'
      by (auto; lra).
    injection Hv' as <-. fold (orbital_speed_kms ax').
    pose proof (orbital_speed_decreasing ax ax' (conj Hpos Hlt)) as Hdec.
    pose proof (orbital_speed_positive ax' ltac:(lra)) as Hs'.
    apply sqrt_lt_1_alt. split.
    + apply Rplus_le_le_0_compat; apply pow2_ge_0.
    + apply Rplus_lt_compat_r. simpl. rewrite !Rmult_1_r.
      apply Rmult_le_0_lt_compat; lra.
Qed.

Lemma orbit_derived_velocity_witness :
  exists v,
    fst (_calculate_impact_velocity echo_format
           (with_orbit (plain_asteroid "rocky" None)
              (Some (orbit (Some 1.5) None)))
           (plain_parameters None 45 2700) scenario_heap) = Ok v /\
    11.2 < v /\ orbital_speed_kms 1.5 < v.
Proof.
  destruct (orbit_derived_velocity echo_format
              (with_orbit (plain_asteroid "rocky" None)
                 (Some (orbit (Some 1.5) None)))
              (plain_parameters None 45 2700) scenario_heap
              (orbit (Some 1.5) None) 1.5)
    as [v [Hv [H1 [H2 _]]]]; [reflexivity | reflexivity | reflexivity | lra |].
  exists v. auto.
Defined.

(** ** How a call fails *)

Lemma getitem_unknown_class (c : string) :
  ~ In c ["rocky"; "iron"; "icy"; "stony"] ->
  Py.getitem MATERIAL_DENSITIES c = Raise (KeyError c).
Proof.
  intros Hnotin. unfold Py.getitem, MATERIAL_DENSITIES. simpl.
  destruct (String.eqb_spec c "rocky") as [E|_];
    [exfalso; apply Hnotin; rewrite E; simpl; auto|].
  destruct (String.eqb_spec c "iron") as [E|_];
    [exfalso; apply Hnotin; rewrite E; simpl; auto|].
  destruct (String.eqb_spec c "icy") as [E|_];
    [exfalso; apply Hnotin; rewrite E; simpl; auto|].
  destruct (String.eqb_spec c "stony") as [E|_];
    [exfalso; apply Hnotin; rewrite E; simpl; auto|].
  reflexivity.
Qed.

Section Failures.

Variable format_float : string -> R -> string.

Lemma velocity_of_positive (a : Asteroid) (p : ImpactParameters) :
  velocity_inputs_nonnegative a p ->
  exists v, velocity_of format_float a p = Ok v /\ 0 < v.
Proof. intros H. apply impact_velocity_positive; assumption. Qed.

Lemma velocity_of_resolves (a : Asteroid) (p : ImpactParameters) :
  velocity_resolves a p ->
  exists v, velocity_of format_float a p = Ok v.
Proof.
  intros Hres. unfold velocity_of.
  destruct (Py.nonzero (impact_velocity_kms p)) as [v|] eqn:Hnz.
  - apply py_nonzero_inv in Hnz as [Hsome Hne].
    exists v. rewrite (impact_velocity_override format_float a p _ v Hsome Hne).
    reflexivity.
  - destruct Hres as [Hn|Hax]; [congruence|].
    destruct (orbital_elements a) as [oe|] eqn:Hoe.
    + destruct (Py.nonzero (semi_major_axis_au oe)) as [ax|] eqn:Hnzax.
      * apply py_nonzero_inv in Hnzax as [Hsome Hne].
        rewrite Hsome in Hax.
        eexists.
        apply (impact_velocity_orbital format_float a p _ oe ax Hnz Hoe Hsome).
        lra.
      * exists 20.
        rewrite impact_velocity_fallback; [reflexivity | exact Hnz|].
        right. exists oe. auto.
    + exists 20.
      rewrite impact_velocity_fallback; [reflexivity | exact Hnz|].
      left. exact Hoe.
Qed.

(** A call whose outcome is an exception raises it and leaves the engine
    as it was. *)
Lemma calculate_impact_scenario_raises (h : Heap) (e : PyError) :
  outcome_of format_float (arg_asteroid h) (arg_parameters h) = Raise e ->
  fst (calculate_impact_scenario format_float h) = Raise e /\
  engine (snd (calculate_impact_scenario format_float h)) = engine h.
Proof.
  intros Hout.
  pose proof (calculate_impact_scenario_run format_float h) as [Hrun _].
  cbv zeta in Hrun. rewrite Hout in Hrun. exact Hrun.
Qed.

Lemma negative_energy_quantities
    (energy_mt velocity_kms diameter_m density angle_deg target_density : R) :
  energy_mt < 0 -> 0 < target_density -> 0 < angle_factor angle_deg ->
  comprehensive_quantities energy_mt velocity_kms diameter_m density
    angle_deg target_density = Raise TypeError.
Proof.
  intros He Ht Ha.
  unfold comprehensive_quantities, _calculate_crater_diameter.
  fold (angle_factor angle_deg).
  rewrite py_div_nonzero by lra. simpl.
  assert (Hneg : energy_mt * 4.184e15 * angle_factor angle_deg
                 / target_density < 0).
  { replace (energy_mt * 4.184e15 * angle_factor angle_deg / target_density)
      with (- ((- energy_mt) * 4.184e15 * angle_factor angle_deg
               / target_density)) by (field; lra).
    apply Ropp_lt_gt_0_contravar, Rdiv_lt_0_compat; [|assumption].
    apply Rmult_lt_0_compat; [nra | assumption]. }
  unfold Py.pow.
  destruct (Rlt_dec 0 _) as [H|_]; [lra|].
  destruct (Req_dec_T _ 0) as [H|_]; [lra|].
  reflexivity.
Qed.

End Failures.

(** X3. Whenever the velocity step returns (a non-zero velocity override
    is given, or the semi-major axis, where there is one, is not
    negative), a call on an asteroid with no usable density override
    (absent or 0) and a composition class outside the density table
    raises KeyError on that class and leaves the engine's metadata
    untouched, although the mass calculation on the same asteroid falls
    back to 2600 for that class. *)
Theorem unknown_class_raises_KeyError
    (format_float : string -> R -> string) (h : Heap) :
  velocity_resolves (arg_asteroid h) (arg_parameters h) ->
  Py.nonzero (density_kg_m3 (arg_asteroid h)) = None ->
  ~ In (composition_type (arg_asteroid h)) ["rocky"; "iron"; "icy"; "stony"] ->
  fst (calculate_impact_scenario format_float h)
    = Raise (KeyError (composition_type (arg_asteroid h))) /\
  engine (snd (calculate_impact_scenario format_float h)) = engine h /\
  _calculate_asteroid_mass (arg_asteroid h)
    = sphere_volume_m3 (arg_asteroid h) * 2600.
Proof.
  intros Hvel Hrho Hclass.
  destruct (velocity_of_resolves format_float _ _ Hvel) as [v Hv].
  assert (Hout : outcome_of format_float (arg_asteroid h) (arg_parameters h)
                 = Raise (KeyError (composition_type (arg_asteroid h)))).
  { unfold outcome_of. rewrite Hv. simpl.
    unfold scenario_density. rewrite Hrho.
    rewrite getitem_unknown_class by assumption. reflexivity. }
  destruct (calculate_impact_scenario_raises format_float h _ Hout)
    as [Hfst Hengine].
  split; [exact Hfst|]. split; [exact Hengine|].
  rewrite asteroid_mass_value, py_or_else_nonzero, Hrho.
  f_equal. unfold spec_density_table.
  destruct (String.eqb_spec (composition_type (arg_asteroid h)) "rocky");
    [reflexivity|].
  destruct (String.eqb_spec (composition_type (arg_asteroid h)) "iron") as [E|_];
    [exfalso; apply Hclass; rewrite E; simpl; auto|].
  destruct (String.eqb_spec (composition_type (arg_asteroid h)) "icy") as [E|_];
    [exfalso; apply Hclass; rewrite E; simpl; auto|].
  destruct (String.eqb_spec (composition_type (arg_asteroid h)) "stony") as [E|_];
    [exfalso; apply Hclass; rewrite E; simpl; auto|].
  reflexivity.
Qed.

Lemma unknown_class_raises_KeyError_witness :
  fst (calculate_impact_scenario echo_format
         (heap_of physics_engine (plain_asteroid "metallic" None)
            (plain_parameters None 45 2700)))
  = Raise (KeyError "metallic").
Proof.
  apply (unknown_class_raises_KeyError echo_format
           (heap_of physics_engine (plain_asteroid "metallic" None)
              (plain_parameters None 45 2700))).
  - right. exact I.
  - reflexivity.
  - simpl. intros [H|[H|[H|[H|[]]]]]; discriminate.
Defined.

(** X4. A call with target density 0 raises ZeroDivisionError and leaves
    the engine's metadata untouched, whenever the velocity and the density
    resolve. *)
Theorem zero_target_density_raises
    (format_float : string -> R -> string) (h : Heap) :
  velocity_inputs_nonnegative (arg_asteroid h) (arg_parameters h) ->
  (Py.nonzero (density_kg_m3 (arg_asteroid h)) <> None \/
   In (composition_type (arg_asteroid h)) ["rocky"; "iron"; "icy"; "stony"]) ->
  target_density_kg_m3 (arg_parameters h) = 0 ->
  fst (calculate_impact_scenario format_float h) = Raise ZeroDivisionError /\
  engine (snd (calculate_impact_scenario format_float h)) = engine h.
Proof.
  intros Hvel Hrho Htd.
  destruct (velocity_of_positive format_float _ _ Hvel) as [v [Hv _]].
  apply calculate_impact_scenario_raises.
  unfold outcome_of. rewrite Hv. simpl.
  assert (Hdens : exists rho, scenario_density (arg_asteroid h) = Ok rho).
  { unfold scenario_density.
    destruct (Py.nonzero (density_kg_m3 (arg_asteroid h))) as [d|]; [eauto|].
    destruct Hrho as [Hn|Hin]; [congruence|].
    rewrite getitem_known_class by assumption. eauto. }
  destruct Hdens as [rho ->]. simpl.
  unfold comprehensive_quantities, _calculate_crater_diameter, Py.div.
  rewrite Htd.
  destruct (Req_dec_T 0 0) as [_|Hn]; [reflexivity | exfalso; apply Hn; reflexivity].
Qed.

Lemma zero_target_density_raises_witness :
  fst (calculate_impact_scenario echo_format
         (heap_of physics_engine (plain_asteroid "rocky" None)
            (plain_parameters None 45 0)))
  = Raise ZeroDivisionError.
Proof.
  apply (zero_target_density_raises echo_format
           (heap_of physics_engine (plain_asteroid "rocky" None)
              (plain_parameters None 45 0))).
  - split; exact I.
  - right. simpl. auto.
  - reflexivity.
Defined.

(** X5. A call with no usable velocity override and a negative semi-major
    axis raises ValueError, before the density or the target density is
    looked at, and leaves the engine's metadata untouched. *)
Theorem negative_axis_raises_ValueError
    (format_float : string -> R -> string) (h : Heap)
    (oe : OrbitalElements) (ax : R) :
  Py.nonzero (impact_velocity_kms (arg_parameters h)) = None ->
  orbital_elements (arg_asteroid h) = Some oe ->
  semi_major_axis_au oe = Some ax -> ax < 0 ->
  fst (calculate_impact_scenario format_float h) = Raise ValueError /\
  engine (snd (calculate_impact_scenario format_float h)) = engine h.
Proof.
  intros Hov Hoe Hax Hneg.
  apply calculate_impact_scenario_raises.
  unfold outcome_of, velocity_of, _calculate_impact_velocity.
  rewrite Hov, Hoe, Hax, py_nonzero_some by lra.
  unfold bindM, lift.
  rewrite (orbital_velocity_negative_axis oe ax Hax Hneg). reflexivity.
Qed.

Lemma negative_axis_raises_ValueError_witness :
  fst (calculate_impact_scenario echo_format
         (heap_of physics_engine
            (with_orbit (plain_asteroid "metallic" None)
               (Some (orbit (Some (-2)) None)))
            (plain_parameters None 45 0)))
  = Raise ValueError.
Proof.
  apply (negative_axis_raises_ValueError echo_format
           (heap_of physics_engine
              (with_orbit (plain_asteroid "metallic" None)
                 (Some (orbit (Some (-2)) None)))
              (plain_parameters None 45 0))
           (orbit (Some (-2)) None) (-2));
    [reflexivity | reflexivity | reflexivity | lra].
Defined.

(** X6. A negative density override makes the call raise TypeError (the
    negative energy leaves the real numbers at the crater's fractional
    power), with the engine's metadata untouched. *)
Theorem negative_density_raises_TypeError
    (format_float : string -> R -> string) (h : Heap) (d : R) :
  velocity_inputs_nonnegative (arg_asteroid h) (arg_parameters h) ->
  positive_if_present (estimated_diameter_km (arg_asteroid h)) ->
  density_kg_m3 (arg_asteroid h) = Some d -> d < 0 ->
  15 <= impact_angle_deg (arg_parameters h) <= 90 ->
  0 < target_density_kg_m3 (arg_parameters h) ->
  fst (calculate_impact_scenario format_float h) = Raise TypeError /\
  engine (snd (calculate_impact_scenario format_float h)) = engine h.
Proof.
  intros Hvel Hdiam Hd Hneg Hang Htd.
  destruct (velocity_of_positive format_float _ _ Hvel) as [v [Hv Hvpos]].
  apply calculate_impact_scenario_raises.
  unfold outcome_of. rewrite Hv. simpl.
  unfold scenario_density. rewrite Hd, py_nonzero_some by lra. simpl.
  rewrite negative_energy_quantities;
    [reflexivity | | assumption | apply angle_factor_positive; assumption].
  unfold scenario_energy_mt.
  rewrite asteroid_mass_value, Hd, or_else_some by lra.
  assert (Hvol : 0 < sphere_volume_m3 (arg_asteroid h)).
  { unfold sphere_volume_m3.
    pose proof (or_else_positive _ 1.0 Hdiam ltac:(lra)).
    pose proof PI_bounds as [Hpi _].
    apply Rmult_lt_0_compat; [lra|]. apply pow_lt. lra. }
  assert (Hv2 : 0 < (v * 1000) ^ 2) by (apply pow_lt; lra).
  revert Hvol Hv2.
  generalize (sphere_volume_m3 (arg_asteroid h)) ((v * 1000) ^ 2).
  intros vol v2 Hvol Hv2.
  assert (vol * d < 0) by nra.
  assert (0.5 * (vol * d) * v2 < 0) by nra.
  unfold Rdiv. nra.
Qed.

Lemma negative_density_raises_TypeError_witness :
  fst (calculate_impact_scenario echo_format
         (heap_of physics_engine (plain_asteroid "rocky" (Some (-5)))
            (plain_parameters None 45 2700)))
  = Raise TypeError.
Proof.
  apply (negative_density_raises_TypeError echo_format
           (heap_of physics_engine (plain_asteroid "rocky" (Some (-5)))
              (plain_parameters None 45 2700)) (-5)).
  - split; exact I.
  - simpl. lra.
  - reflexivity.
  - lra.
  - simpl. lra.
  - simpl. lra.
Defined.

(** ** What a call leaves behind *)

Lemma impact_velocity_log (format_float : string -> R -> string)
    (a : Asteroid) (p : ImpactParameters) (h : Heap) :
  exists rest,
    log (snd (_calculate_impact_velocity format_float a p h))
    = (log h ++ rest)%list /\
    (List.length rest <= 1)%nat /\
    (Py.nonzero (impact_velocity_kms p) <> None \/ orbital_elements a = None ->
     rest = []).
Proof.
  unfold _calculate_impact_velocity.
  destruct (Py.nonzero (impact_velocity_kms p)) as [v|] eqn:Hov;
    [exists []; simpl; rewrite app_nil_r; auto|].
  destruct (orbital_elements a) as [oe|] eqn:Hoe;
    [|exists []; simpl; rewrite app_nil_r; auto].
  destruct (Py.nonzero (semi_major_axis_au oe));
    [|exists []; simpl; rewrite app_nil_r; auto].
  unfold bindM, lift.
  destruct (_calculate_orbital_velocity oe) as [vo|e];
    [|exists []; simpl; rewrite app_nil_r; auto].
  destruct (Py.math_sqrt (vo ^ 2 + EARTH_ESCAPE_VELOCITY ^ 2)) as [v|e];
    [|exists []; simpl; rewrite app_nil_r; auto].
  eexists [_]. simpl. split; [reflexivity|]. split; [lia|].
  intros [H|H]; [congruence | discriminate].
Qed.

(** X7. A call only appends to the log: the records already there are
    kept, the entry record naming the asteroid is added, and at most one
    more record follows it (the velocity record of the orbital branch);
    none follows when a velocity override is used or the asteroid has no
    orbital elements. *)
Theorem call_appends_to_log (format_float : string -> R -> string) (h : Heap) :
  exists rest,
    log (snd (calculate_impact_scenario format_float h))
    = (log h
       ++ String.append "Calculating impact for NASA NEO "
            (String.append (nasa_id (arg_asteroid h))
               (String.append ": " (name (arg_asteroid h))))
          :: rest)%list /\
    (List.length rest <= 1)%nat /\
    (Py.nonzero (impact_velocity_kms (arg_parameters h)) <> None \/
     orbital_elements (arg_asteroid h) = None -> rest = []).
Proof.
  rewrite calculate_impact_scenario_unfold. cbv zeta.
  destruct (impact_velocity_log format_float (arg_asteroid h)
              (arg_parameters h) (entered h)) as [rest [Hlog [Hlen Hnil]]].
  exists rest.
  assert (Hgoal : log (snd (_calculate_impact_velocity format_float
                              (arg_asteroid h) (arg_parameters h) (entered h)))
                  = (log h
                     ++ String.append "Calculating impact for NASA NEO "
                          (String.append (nasa_id (arg_asteroid h))
                             (String.append ": " (name (arg_asteroid h))))
                        :: rest)%list).
  { rewrite Hlog. unfold entered. simpl. rewrite <- app_assoc. reflexivity. }
  split; [|split; assumption].
  destruct (_calculate_impact_velocity format_float (arg_asteroid h)
              (arg_parameters h) (entered h)) as [[v|e] h1];
    simpl in Hgoal |- *; [|exact Hgoal].
  destruct (scenario_density (arg_asteroid h)) as [rho|e]; [|exact Hgoal].
  destruct (comprehensive_quantities _ _ _ _ _ _) as [q|e]; exact Hgoal.
Qed.

Lemma call_appends_to_log_witness :
  log (snd (calculate_impact_scenario echo_format scenario_heap))
  = ["Calculating impact for NASA NEO 0: test body"].
Proof.
  destruct (call_appends_to_log echo_format scenario_heap)
    as [rest [Hlog [_ Hnil]]].
  rewrite Hlog, (Hnil (or_intror eq_refl)). reflexivity.
Defined.

(** X8. On every valid input the call stores a positive velocity, a
    positive mass and a positive energy in the engine's metadata, and the
    stored energy is the kinetic energy of the stored mass at the stored
    velocity, in megatons of TNT. *)
Theorem valid_call_metadata (format_float : string -> R -> string) (h : Heap) :
  valid_input (arg_asteroid h) (arg_parameters h) ->
  exists v m E,
    meta_float (engine (snd (calculate_impact_scenario format_float h)))
      "impact_velocity_used" = Some v /\
    meta_float (engine (snd (calculate_impact_scenario format_float h)))
      "asteroid_mass_kg" = Some m /\
    meta_float (engine (snd (calculate_impact_scenario format_float h)))
      "kinetic_energy_mt" = Some E /\
    0 < v /\ 0 < m /\ 0 < E /\
    E * 4.184e15 = 0.5 * m * (v * 1000) ^ 2.
Proof.
  intros Hvalid.
  destruct (outcome_of_valid format_float _ _ Hvalid)
    as [v [rho [q [_ [Hv [HE [_ [_ [_ Hout]]]]]]]]].
  pose proof (calculate_impact_scenario_run format_float h) as [Hrun _].
  cbv zeta in Hrun. rewrite Hout in Hrun. destruct Hrun as [_ Hengine].
  rewrite Hengine.
  exists v, (_calculate_asteroid_mass (arg_asteroid h)),
    (scenario_energy_mt (arg_asteroid h) v).
  split; [reflexivity|]. split; [reflexivity|]. split; [reflexivity|].
  destruct Hvalid as [Hd [Hrho _]].
  split; [exact Hv|].
  split; [apply asteroid_mass_positive; assumption|].
  split; [exact HE|].
  unfold scenario_energy_mt. lra.
Qed.

Lemma valid_call_metadata_witness :
  exists v m E,
    meta_float (engine (snd (calculate_impact_scenario echo_format
                               scenario_heap)))
      "impact_velocity_used" = Some v /\
    meta_float (engine (snd (calculate_impact_scenario echo_format
                               scenario_heap)))
      "asteroid_mass_kg" = Some m /\
    meta_float (engine (snd (calculate_impact_scenario echo_format
                               scenario_heap)))
      "kinetic_energy_mt" = Some E /\
    0 < v /\ 0 < m /\ 0 < E /\
    E * 4.184e15 = 0.5 * m * (v * 1000) ^ 2.
Proof.
  apply (valid_call_metadata echo_format scenario_heap). exact scenario_valid.
Defined.

(** ** The default diameter *)

Lemma impact_velocity_same_orbit (format_float : string -> R -> string)
    (a a' : Asteroid) (p : ImpactParameters) (h : Heap) :
  orbital_elements a = orbital_elements a' ->
  _calculate_impact_velocity format_float a p h
  = _calculate_impact_velocity format_float a' p h.
Proof.
  intros H. unfold _calculate_impact_velocity. rewrite H. reflexivity.
Qed.

(** X9. A diameter estimate that is absent or zero is computed as 1 km:
    the call returns what it returns for the same asteroid with a
    diameter of 1.0. *)
Theorem missing_diameter_is_one_km
    (format_float : string -> R -> string) (h : Heap) :
  Py.nonzero (estimated_diameter_km (arg_asteroid h)) = None ->
  fst (calculate_impact_scenario format_float h)
  = fst (calculate_impact_scenario format_float
           {| engine := engine h;
              arg_asteroid := with_diameter (arg_asteroid h) (Some 1.0);
              arg_parameters := arg_parameters h;
              log := log h |}).
Proof.
  intros Hnone.
  rewrite !calculate_impact_scenario_result.
  cbn [arg_asteroid arg_parameters].
  set (a := arg_asteroid h). set (p := arg_parameters h).
  assert (Hvel : velocity_of format_float (with_diameter a (Some 1.0)) p
                 = velocity_of format_float a p).
  { unfold velocity_of.
    rewrite (impact_velocity_heap_independent format_float
               (with_diameter a (Some 1.0)) p _ (heap_of physics_engine a p)).
    rewrite (impact_velocity_same_orbit format_float
               (with_diameter a (Some 1.0)) a); reflexivity. }
  assert (Hdiam : Py.or_else (estimated_diameter_km a) 1.0 = 1.0).
  { rewrite py_or_else_nonzero. fold a in Hnone. rewrite Hnone. reflexivity. }
  assert (Hone : Py.or_else (Some 1.0) 1.0 = 1.0)
    by (apply or_else_some; lra).
  assert (Hmass : _calculate_asteroid_mass (with_diameter a (Some 1.0))
                  = _calculate_asteroid_mass a).
  { unfold _calculate_asteroid_mass, with_diameter.
    cbn [estimated_diameter_km density_kg_m3 composition_type].
    rewrite Hdiam, Hone. reflexivity. }
  assert (Hd : scenario_diameter_m (with_diameter a (Some 1.0))
               = scenario_diameter_m a).
  { unfold scenario_diameter_m, with_diameter.
    cbn [estimated_diameter_km]. rewrite Hdiam, Hone. reflexivity. }
  unfold outcome_of. rewrite Hvel.
  destruct (velocity_of format_float a p) as [v|e]; [|reflexivity].
  simpl bind.
  change (scenario_density (with_diameter a (Some 1.0)))
    with (scenario_density a).
  destruct (scenario_density a) as [rho|e]; [|reflexivity].
  simpl bind.
  unfold scenario_energy_mt. rewrite Hmass, Hd. reflexivity.
Qed.

Lemma missing_diameter_is_one_km_witness :
  fst (calculate_impact_scenario echo_format
         (heap_of physics_engine
            (with_diameter (plain_asteroid "iron" None) (Some 0))
            (plain_parameters None 45 2700)))
  = fst (calculate_impact_scenario echo_format
           (heap_of physics_engine
              (with_diameter
                 (with_diameter (plain_asteroid "iron" None) (Some 0))
                 (Some 1.0))
              (plain_parameters None 45 2700))).
Proof.
  apply (missing_diameter_is_one_km echo_format
           (heap_of physics_engine
              (with_diameter (plain_asteroid "iron" None) (Some 0))
              (plain_parameters None 45 2700))).
  simpl. destruct (Req_dec_T 0 0) as [_|H]; [reflexivity | exfalso; apply H; reflexivity].
Defined.

(** ** Temperature *)

Lemma thermal_effects_value (energy_mt velocity_kms : R) :
  0 < energy_mt ->
  _calculate_thermal_effects energy_mt velocity_kms
  = Ok (0.5 * Rpower energy_mt 0.4, Rmin 100000 (velocity_kms * 2000 + 10000)).
Proof.
  intros He. unfold _calculate_thermal_effects.
  rewrite py_pow_pos by assumption. simpl. rewrite py_min_Rmin. reflexivity.
Qed.

(** X10. For a non-negative velocity the peak temperature lies between
    10000 and 100000, reaches the cap from 45 km/s on, is never classified
    minor, and is classified catastrophic exactly when the velocity
    exceeds 20 km/s. *)
Theorem peak_temperature_bands (energy_mt velocity_kms fireball temp : R) :
  _calculate_thermal_effects energy_mt velocity_kms = Ok (fireball, temp) ->
  0 <= velocity_kms ->
  10000 <= temp <= 100000 /\
  (45 <= velocity_kms -> temp = 100000) /\
  _get_temperature_severity temp <> Minor /\
  (_get_temperature_severity temp = Catastrophic <-> 20 < velocity_kms).
Proof.
  intros H Hv.
  unfold _calculate_thermal_effects in H.
  destruct (Py.pow energy_mt 0.4) as [p|e]; simpl in H; [|discriminate].
  injection H as _ <-.
  rewrite py_min_Rmin.
  assert (Hcases : (velocity_kms * 2000 + 10000 <= 100000 /\
                    Rmin 100000 (velocity_kms * 2000 + 10000)
                    = velocity_kms * 2000 + 10000) \/
                   (100000 < velocity_kms * 2000 + 10000 /\
                    Rmin 100000 (velocity_kms * 2000 + 10000) = 100000)).
  { unfold Rmin. destruct (Rle_dec 100000 (velocity_kms * 2000 + 10000));
      [|left; lra].
    destruct (Req_dec_T (velocity_kms * 2000 + 10000) 100000);
      [left; lra | right; lra]. }
  unfold _get_temperature_severity, bands, Py.gt.
  destruct Hcases as [[Hle ->] | [Hgt ->]];
    (split; [lra|]); (split; [intros; lra|]);
    case_comparisons; (split; [discriminate || (exfalso; lra)|]);
    split; intros; try reflexivity; try discriminate; lra.
Qed.

Lemma peak_temperature_bands_witness :
  10000 <= Rmin 100000 (25 * 2000 + 10000) <= 100000 /\
  _get_temperature_severity (Rmin 100000 (25 * 2000 + 10000)) = Catastrophic.
Proof.
  destruct (peak_temperature_bands 100 25 _ _
              (thermal_effects_value 100 25 ltac:(lra)))
    as [Hb [_ [_ Hc]]]; [lra|].
  split; [exact Hb | apply Hc; lra].
Defined.

(** ** Seismic magnitude *)

Lemma ln_10_positive : 0 < ln 10.
Proof. rewrite <- ln_1. apply ln_increasing; lra. Qed.

Lemma seismic_magnitude_value (energy_mt : R) :
  0 < energy_mt ->
  _calculate_seismic_magnitude energy_mt
  = Ok (Rmax 0 (Rmin 10 ((ln (energy_mt * 4.184e15) / ln 10 - 4.8) / 1.5))).
Proof.
  intros He. unfold _calculate_seismic_magnitude, Py.gt, Py.math_log10.
  destruct (Rlt_dec 0 energy_mt) as [_|H]; [|lra].
  destruct (Rlt_dec 0 (energy_mt * 4.184e15)) as [_|H]; [|exfalso; nra].
  simpl. rewrite py_max_Rmax, py_min_Rmin. reflexivity.
Qed.

Lemma seismic_magnitude_nonpositive (energy_mt : R) :
  energy_mt <= 0 -> _calculate_seismic_magnitude energy_mt = Ok 0.
Proof.
  intros He. unfold _calculate_seismic_magnitude, Py.gt.
  destruct (Rlt_dec 0 energy_mt); [lra | reflexivity].
Qed.

(** The decimal logarithm against a power of ten: comparing [x] with
    10^(k + 4/5) amounts to comparing (x / 10^k)^5 with 10^4. *)
Lemma log10_threshold (x : R) (k : nat) :
  0 < x ->
  (10 ^ 4 <= (x / 10 ^ k) ^ 5 -> INR k + 0.8 <= ln x / ln 10) /\
  ((x / 10 ^ k) ^ 5 < 10 ^ 4 -> ln x / ln 10 < INR k + 0.8).
Proof.
  intros Hx.
  pose proof ln_10_positive as HL.
  assert (Hk : 0 < 10 ^ k) by (apply pow_lt; lra).
  assert (Hy : 0 < x / 10 ^ k) by (apply Rdiv_lt_0_compat; assumption).
  assert (Hln : ln ((x / 10 ^ k) ^ 5) = 5 * (ln x - INR k * ln 10)).
  { rewrite ln_pow by assumption.
    unfold Rdiv. rewrite ln_mult, ln_Rinv, ln_pow by
      (try apply Rinv_0_lt_compat; try assumption; lra).
    simpl INR. ring. }
  assert (Hfour : ln (10 ^ 4) = 4 * ln 10).
  { rewrite ln_pow by lra. simpl INR. ring. }
  split; intros H.
  - assert (Hle : ln (10 ^ 4) <= ln ((x / 10 ^ k) ^ 5)).
    { destruct H as [H|H]; [left; apply ln_increasing; [apply pow_lt; lra | exact H]
                           | right; rewrite H; reflexivity]. }
    rewrite Hln, Hfour in Hle.
    apply Rmult_le_reg_r with (ln 10); [assumption|].
    unfold Rdiv. rewrite Rmult_assoc, Rinv_l by lra. lra.
  - assert (Hlt : ln ((x / 10 ^ k) ^ 5) < ln (10 ^ 4)).
    { apply ln_increasing; [apply pow_lt; assumption | exact H]. }
    rewrite Hln, Hfour in Hlt.
    apply Rmult_lt_reg_r with (ln 10); [assumption|].
    unfold Rdiv. rewrite Rmult_assoc, Rinv_l by lra. lra.
Qed.

(** X11. The seismic magnitude never decreases when the energy grows. *)
Theorem seismic_magnitude_monotone (e1 e2 m1 m2 : R) :
  e1 <= e2 ->
  _calculate_seismic_magnitude e1 = Ok m1 ->
  _calculate_seismic_magnitude e2 = Ok m2 ->
  m1 <= m2.
Proof.
  intros Hle H1 H2.
  destruct (Rle_lt_dec e1 0) as [Hz|Hpos].
  - rewrite seismic_magnitude_nonpositive in H1 by assumption.
    injection H1 as <-.
    destruct (seismic_magnitude_total e2) as [m [Hm Hb]].
    rewrite Hm in H2. injection H2 as <-. lra.
  - rewrite seismic_magnitude_value in H1, H2 by lra.
    injection H1 as <-. injection H2 as <-.
    apply Rle_max_compat_l, Rle_min_compat_l.
    pose proof ln_10_positive as HL.
    apply Rmult_le_compat_r; [lra|].
    apply Rplus_le_compat_r.
    apply Rmult_le_compat_r; [left; apply Rinv_0_lt_compat; assumption|].
    destruct Hle as [Hlt | ->]; [|lra].
    left. apply ln_increasing; nra.
Qed.

Lemma seismic_magnitude_monotone_witness :
  exists m1 m2,
    _calculate_seismic_magnitude 3 = Ok m1 /\
    _calculate_seismic_magnitude 50 = Ok m2 /\
    m1 <= m2.
Proof.
  do 2 eexists.
  split; [apply seismic_magnitude_value; lra|].
  split; [apply seismic_magnitude_value; lra|].
  apply (seismic_magnitude_monotone 3 50);
    [lra | apply seismic_magnitude_value; lra
     | apply seismic_magnitude_value; lra].
Defined.

(** X12. The clamp at magnitude 10 is reached between 15080 and 15081
    megatons: every energy of at least 15081 megatons has magnitude
    exactly 10, every positive energy of at most 15080 megatons has a
    magnitude below 10. *)
Theorem seismic_magnitude_saturation (energy_mt : R) :
  (15081 <= energy_mt -> _calculate_seismic_magnitude energy_mt = Ok 10) /\
  (0 < energy_mt <= 15080 ->
   exists m, _calculate_seismic_magnitude energy_mt = Ok m /\ m < 10).
Proof.
  split.
  - intros He. rewrite seismic_magnitude_value by lra. f_equal.
    assert (Hlog : INR 19 + 0.8 <= ln (energy_mt * 4.184e15) / ln 10).
    { apply log10_threshold; [nra|].
      apply Rle_trans with ((15081 * 4.184e15 / 10 ^ 19) ^ 5); [lra|].
      apply pow_incr. split; [lra|].
      apply Rmult_le_compat_r; [lra | nra]. }
    replace (INR 19) with 19 in Hlog by (simpl; lra).
    rewrite Rmin_left by lra. apply Rmax_right. lra.
  - intros [Hpos He]. rewrite seismic_magnitude_value by lra.
    eexists. split; [reflexivity|].
    assert (Hlog : ln (energy_mt * 4.184e15) / ln 10 < INR 19 + 0.8).
    { apply log10_threshold; [nra|].
      apply Rle_lt_trans with ((15080 * 4.184e15 / 10 ^ 19) ^ 5); [|lra].
      apply pow_incr. split.
      - apply Rlt_le, Rdiv_lt_0_compat; [nra | lra].
      - apply Rmult_le_compat_r; [lra | nra]. }
    replace (INR 19) with 19 in Hlog by (simpl; lra).
    apply Rmax_lub_lt; [lra|].
    apply Rle_lt_trans with ((ln (energy_mt * 4.184e15) / ln 10 - 4.8) / 1.5);
      [apply Rmin_r | lra].
Qed.

Lemma seismic_magnitude_saturation_witness :
  _calculate_seismic_magnitude 65000 = Ok 10 /\
  exists m, _calculate_seismic_magnitude 1000 = Ok m /\ m < 10.
Proof.
  split.
  - apply (proj1 (seismic_magnitude_saturation 65000)). lra.
  - apply (proj2 (seismic_magnitude_saturation 1000)). lra.
Defined.

(** ** Severities that follow from one another *)

Lemma comprehensive_quantities_relations
    (energy_mt velocity_kms diameter_m density angle_deg target_density : R)
    (q : Quantities) :
  comprehensive_quantities energy_mt velocity_kms diameter_m density
    angle_deg target_density = Ok q ->
  infrastructure_damage_km q = shockwave_radius_km q * 1.5 /\
  economic_loss_billion q = energy_mt * 0.1 /\
  casualties q
    = _estimate_casualties (shockwave_radius_km q) (fireball_radius_km q) /\
  refugees q = _estimate_refugees (debris_radius_km q) /\
  atmospheric_dust_tons q = _calculate_atmospheric_dust energy_mt diameter_m.
Proof.
  unfold comprehensive_quantities. intros H.
  destruct (_calculate_crater_diameter _ _ _ _ _ _); simpl in H; [|discriminate].
  destruct (_calculate_thermal_effects _ _); simpl in H; [|discriminate].
  destruct (_calculate_shockwave_radius _ _); simpl in H; [|discriminate].
  destruct (_calculate_seismic_magnitude _); simpl in H; [|discriminate].
  destruct (_calculate_debris_field _ _); simpl in H; [|discriminate].
  injection H as <-. simpl. auto.
Qed.

Lemma economic_not_below_energy (energy_mt : R) :
  severity_le (_get_energy_severity energy_mt)
    (_get_economic_severity (energy_mt * 0.1)).
Proof.
  unfold _get_energy_severity, _get_economic_severity, bands, Py.gt,
    severity_le.
  case_comparisons; simpl; try lia; lra.
Qed.

Lemma infrastructure_not_below_shockwave (radius_km : R) :
  severity_le (_get_shockwave_severity radius_km)
    (_get_infrastructure_severity (radius_km * 1.5)).
Proof.
  unfold _get_shockwave_severity, _get_infrastructure_severity, bands, Py.gt,
    severity_le.
  case_comparisons; simpl; try lia; lra.
Qed.

(** X13. In every returned result the severity of the economicLoss
    metric is at least the severity of the energy metric, and the
    severity of the infrastructureDamage metric at least that of the
    shockwaveRadius metric, in the order
    minor < moderate < severe < catastrophic. *)
Theorem derived_severities_dominate
    (format_float : string -> R -> string) (h : Heap) (r : ImpactResults) :
  fst (calculate_impact_scenario format_float h) = Ok r ->
  exists energy_metric economic shockwave infrastructure,
    result_metric r energy = Some energy_metric /\
    result_metric r economicLoss = Some economic /\
    result_metric r shockwaveRadius = Some shockwave /\
    result_metric r infrastructureDamage = Some infrastructure /\
    severity_le (severity energy_metric) (severity economic) /\
    severity_le (severity shockwave) (severity infrastructure).
Proof.
  intros Hr. rewrite calculate_impact_scenario_result in Hr.
  unfold outcome_of in Hr.
  destruct (velocity_of format_float _ _) as [v|e]; simpl in Hr; [|discriminate].
  destruct (scenario_density _) as [rho|e]; simpl in Hr; [|discriminate].
  destruct (comprehensive_quantities _ _ _ _ _ _) as [q|e] eqn:Hq;
    simpl in Hr; [|discriminate].
  injection Hr as <-.
  destruct (comprehensive_quantities_relations _ _ _ _ _ _ q Hq)
    as [Hinfra [Hecon _]].
  do 4 eexists.
  do 4 (split; [reflexivity|]).
  cbn [severity mk_metric].
  rewrite Hinfra, Hecon.
  split; [apply economic_not_below_energy
         | apply infrastructure_not_below_shockwave].
Qed.

Lemma derived_severities_dominate_witness :
  exists r energy_metric economic,
    fst (calculate_impact_scenario echo_format scenario_heap) = Ok r /\
    result_metric r energy = Some energy_metric /\
    result_metric r economicLoss = Some economic /\
    severity_le (severity energy_metric) (severity economic).
Proof.
  destruct (calculate_impact_scenario_returns_on_valid echo_format
              scenario_heap scenario_valid) as [r Hr].
  destruct (derived_severities_dominate echo_format scenario_heap r Hr)
    as [em [ec [_ [_ [H1 [H2 [_ [_ [H5 _]]]]]]]]].
  exists r, em, ec. auto.
Defined.

(** ** Monotonicity in the angle, the energy and the target density *)

Lemma angle_factor_increasing (a1 a2 : R) :
  0 <= a1 -> a1 < a2 -> a2 <= 90 -> angle_factor a1 < angle_factor a2.
Proof.
  intros H1 H12 H2. unfold angle_factor, Py.math_sin, Py.math_radians.
  pose proof PI_bounds as [Hlo Hhi].
  apply sin_increasing_1; nra.
Qed.

(** X14. Between 15 and 90 degrees a steeper impact is stronger: for a
    positive energy and a positive target density, the crater diameter,
    the shockwave radius and the debris field radius all strictly
    increase with the angle. *)
Theorem steeper_impact_is_stronger
    (energy_mt diameter_m velocity_kms density target_density a1 a2 : R) :
  0 < energy_mt -> 0 < target_density ->
  15 <= a1 -> a1 < a2 -> a2 <= 90 ->
  exists c1 c2 s1 s2 d1 d2,
    _calculate_crater_diameter energy_mt diameter_m velocity_kms density
      target_density a1 = Ok c1 /\
    _calculate_crater_diameter energy_mt diameter_m velocity_kms density
      target_density a2 = Ok c2 /\
    _calculate_shockwave_radius energy_mt a1 = Ok s1 /\
    _calculate_shockwave_radius energy_mt a2 = Ok s2 /\
    _calculate_debris_field energy_mt a1 = Ok d1 /\
    _calculate_debris_field energy_mt a2 = Ok d2 /\
    c1 < c2 /\ s1 < s2 /\ d1 < d2.
Proof.
  intros He Ht H1 H12 H2.
  pose proof (angle_factor_positive a1 ltac:(lra)) as Hp1.
  pose proof (angle_factor_positive a2 ltac:(lra)) as Hp2.
  pose proof (angle_factor_increasing a1 a2 ltac:(lra) H12 H2) as Hinc.
  do 6 eexists.
  rewrite !crater_diameter_value, !shockwave_radius_value, !debris_field_value
    by assumption.
  repeat (split; [reflexivity|]).
  pose proof (Rpower_pos energy_mt 0.33) as Hs.
  pose proof (Rpower_pos energy_mt 0.3) as Hd.
  split; [|split; nra].
  apply Rmult_lt_compat_l; [lra|].
  apply Rlt_Rpower_l; [lra|].
  assert (Hbase : 0 < energy_mt * 4.184e15) by nra.
  assert (Hinv : 0 < / target_density) by (apply Rinv_0_lt_compat; assumption).
  unfold Rdiv. split.
  - apply Rmult_lt_0_compat; [|assumption].
    apply Rmult_lt_0_compat; assumption.
  - apply Rmult_lt_compat_r; [assumption|].
    apply Rmult_lt_compat_l; assumption.
Qed.

Lemma steeper_impact_is_stronger_witness :
  exists c1 c2 s1 s2 d1 d2,
    _calculate_crater_diameter 1000 500 20 2600 2700 30 = Ok c1 /\
    _calculate_crater_diameter 1000 500 20 2600 2700 60 = Ok c2 /\
    _calculate_shockwave_radius 1000 30 = Ok s1 /\
    _calculate_shockwave_radius 1000 60 = Ok s2 /\
    _calculate_debris_field 1000 30 = Ok d1 /\
    _calculate_debris_field 1000 60 = Ok d2 /\
    c1 < c2 /\ s1 < s2 /\ d1 < d2.
Proof.
  apply (steeper_impact_is_stronger 1000 500 20 2600 2700 30 60); lra.
Defined.

(** X15. For an angle between 15 and 90 degrees and positive target
    densities, more energy gives a strictly larger crater, fireball,
    shockwave radius and debris field, and a denser target gives a
    strictly smaller crater. *)
Theorem blast_grows_with_energy
    (e1 e2 diameter_m velocity_kms density td1 td2 angle_deg : R) :
  0 < e1 -> e1 < e2 -> 0 < td1 -> td1 < td2 -> 15 <= angle_deg <= 90 ->
  exists c1 c2 c2' f1 f2 t1 t2 s1 s2 d1 d2,
    _calculate_crater_diameter e1 diameter_m velocity_kms density td1
      angle_deg = Ok c1 /\
    _calculate_crater_diameter e2 diameter_m velocity_kms density td1
      angle_deg = Ok c2 /\
    _calculate_crater_diameter e2 diameter_m velocity_kms density td2
      angle_deg = Ok c2' /\
    _calculate_thermal_effects e1 velocity_kms = Ok (f1, t1) /\
    _calculate_thermal_effects e2 velocity_kms = Ok (f2, t2) /\
    _calculate_shockwave_radius e1 angle_deg = Ok s1 /\
    _calculate_shockwave_radius e2 angle_deg = Ok s2 /\
    _calculate_debris_field e1 angle_deg = Ok d1 /\
    _calculate_debris_field e2 angle_deg = Ok d2 /\
    c1 < c2 /\ c2' < c2 /\ f1 < f2 /\ t1 = t2 /\ s1 < s2 /\ d1 < d2.
Proof.
  intros He1 He12 Ht1 Ht12 Hang.
  pose proof (angle_factor_positive angle_deg Hang) as Haf.
  do 11 eexists.
  rewrite !crater_diameter_value, !thermal_effects_value,
    !shockwave_radius_value, !debris_field_value by (assumption || lra).
  repeat (split; [reflexivity|]).
  assert (Hp4 : Rpower e1 0.4 < Rpower e2 0.4)
    by (apply Rlt_Rpower_l; lra).
  assert (Hp33 : Rpower e1 0.33 < Rpower e2 0.33)
    by (apply Rlt_Rpower_l; lra).
  assert (Hp3 : Rpower e1 0.3 < Rpower e2 0.3)
    by (apply Rlt_Rpower_l; lra).
  assert (Hi1 : 0 < / td1) by (apply Rinv_0_lt_compat; lra).
  assert (Hi2 : 0 < / td2) by (apply Rinv_0_lt_compat; lra).
  assert (Hi : / td2 < / td1) by (apply Rinv_lt_contravar; nra).
  assert (Hb1 : 0 < e1 * 4.184e15 * angle_factor angle_deg)
    by (apply Rmult_lt_0_compat; [nra | assumption]).
  assert (Hb12 : e1 * 4.184e15 * angle_factor angle_deg
                 < e2 * 4.184e15 * angle_factor angle_deg)
    by (apply Rmult_lt_compat_r; [assumption | nra]).
  split; [|split; [|split; [|split; [|split]]]].
  - apply Rmult_lt_compat_l; [lra|]. apply Rlt_Rpower_l; [lra|].
    unfold Rdiv. split; [apply Rmult_lt_0_compat; assumption|].
    apply Rmult_lt_compat_r; assumption.
  - apply Rmult_lt_compat_l; [lra|]. apply Rlt_Rpower_l; [lra|].
    unfold Rdiv. split; [apply Rmult_lt_0_compat; lra|].
    apply Rmult_lt_compat_l; lra.
  - lra.
  - reflexivity.
  - apply Rmult_lt_compat_r; [assumption | lra].
  - apply Rmult_lt_compat_r; [assumption | lra].
Qed.

Lemma blast_grows_with_energy_witness :
  exists c1 c2 c2',
    _calculate_crater_diameter 100 500 20 2600 2000 45 = Ok c1 /\
    _calculate_crater_diameter 900 500 20 2600 2000 45 = Ok c2 /\
    _calculate_crater_diameter 900 500 20 2600 3000 45 = Ok c2' /\
    c1 < c2 /\ c2' < c2.
Proof.
  destruct (blast_grows_with_energy 100 900 500 20 2600 2000 3000 45)
    as [c1 [c2 [c2' [f1 [f2 [t1 [t2 [s1 [s2 [d1 [d2 H]]]]]]]]]]]; try lra.
  exists c1, c2, c2'. tauto.
Defined.

(** * Properties of the NEO service *)

(** ** Classification of the orbit *)

Lemma classify_neo_type_unfold (oe : OrbitalElements) (a : R) :
  semi_major_axis_au oe = Some a -> a <> 0 ->
  _classify_neo_type (Some oe)
  = let q := a * (1 - Py.or_else (eccentricity oe) 0) in
    if Py.gt a 1.0 && py_lt q 1.017 then Some "Apollo"
    else if py_lt a 1.0 then Some "Aten"
    else if Py.gt a 1.0 && Py.gt q 1.017 && py_lt q 1.3 then Some "Amor"
    else Some "Other".
Proof.
  intros Ha Hnz. unfold _classify_neo_type.
  rewrite Ha, py_nonzero_some by assumption. reflexivity.
Qed.

Lemma classify_neo_type_none (oe : OrbitalElements) :
  _classify_neo_type (Some oe) = None
  <-> Py.nonzero (semi_major_axis_au oe) = None.
Proof.
  unfold _classify_neo_type.
  destruct (Py.nonzero (semi_major_axis_au oe)) as [a|].
  - split; [|discriminate].
    destruct (Py.gt a 1.0 && py_lt _ 1.017); [discriminate|].
    destruct (py_lt a 1.0); [discriminate|].
    destruct (Py.gt a 1.0 && Py.gt _ 1.017 && py_lt _ 1.3); discriminate.
  - split; reflexivity.
Qed.

(** X16. The orbit classifier returns nothing exactly when the orbital
    elements or a non-zero semi-major axis are missing.  Otherwise, with
    q = a * (1 - e) and a missing eccentricity read as 0: Aten exactly when
    a < 1; Apollo exactly when a > 1 and q < 1.017; Amor exactly when
    a > 1 and 1.017 < q < 1.3; Other in the remaining cases, which include
    a = 1 and the boundary q = 1.017. *)
Theorem classify_neo_type_cases :
  _classify_neo_type None = None /\
  (forall oe,
     _classify_neo_type (Some oe) = None
     <-> Py.nonzero (semi_major_axis_au oe) = None) /\
  (forall oe a,
     semi_major_axis_au oe = Some a -> a <> 0 ->
     let q := a * (1 - Py.or_else (eccentricity oe) 0) in
     (_classify_neo_type (Some oe) = Some "Aten" <-> a < 1) /\
     (_classify_neo_type (Some oe) = Some "Apollo" <-> 1 < a /\ q < 1.017) /\
     (_classify_neo_type (Some oe) = Some "Amor"
      <-> 1 < a /\ 1.017 < q < 1.3) /\
     (_classify_neo_type (Some oe) = Some "Other"
      <-> a = 1 \/ (1 < a /\ (q = 1.017 \/ 1.3 <= q)))).
Proof.
  split; [reflexivity|]. split.
  - exact classify_neo_type_none.
  - intros oe a Ha Hnz q.
    rewrite (classify_neo_type_unfold oe a Ha Hnz). cbv zeta. fold q.
    unfold py_lt, Py.gt.
    case_comparisons; simpl;
      repeat split; intros; try discriminate; try reflexivity; try lra;
      try (exfalso; lra);
      try match goal with
          | H : _ \/ _ |- _ => exfalso; destruct H as [H|[H [H'|H']]]; lra
          end;
      try (destruct (Rtotal_order a 1) as [Hlt|[Heq|Hgt]];
           [lra | left; exact Heq | right; split; [lra|];
            destruct (Rtotal_order q 1.017) as [Hq|[Hq|Hq]];
            [lra | left; exact Hq | right; lra]]).
Qed.

Lemma classify_neo_type_cases_witness :
  _classify_neo_type (Some (orbit (Some 1.2) (Some 0.5))) = Some "Apollo" /\
  _classify_neo_type (Some (orbit (Some 0.9) None)) = Some "Aten" /\
  _classify_neo_type (Some (orbit (Some 1.2) None)) = Some "Amor" /\
  _classify_neo_type (Some (orbit (Some 1.017) None)) = Some "Other".
Proof.
  pose proof (proj2 (proj2 classify_neo_type_cases)) as H.
  split; [|split; [|split]].
  - apply (H (orbit (Some 1.2) (Some 0.5)) 1.2); [reflexivity | lra |].
    simpl. destruct (Req_dec_T 0.5 0); lra.
  - apply (H (orbit (Some 0.9) None) 0.9); [reflexivity | lra | lra].
  - apply (H (orbit (Some 1.2) None) 1.2); [reflexivity | lra |].
    simpl. lra.
  - apply (H (orbit (Some 1.017) None) 1.017); [reflexivity | lra |].
    simpl. right. lra.
Defined.

Lemma app_singleton_neq {A : Type} (l : list A) (x : A) : (l ++ [x])%list <> l.
Proof.
  intros H. apply (f_equal (@List.length A)) in H.
  rewrite length_app in H. simpl in H. lia.
Qed.

(** X17. The classifier and the engine read the orbit alike: without a
    velocity override, the engine returns the 20.0 km/s fallback and
    leaves the heap as it is exactly when the classifier finds nothing
    to classify. *)
Theorem unclassified_orbit_uses_fallback
    (format_float : string -> R -> string)
    (a : Asteroid) (p : ImpactParameters) (h : Heap) :
  Py.nonzero (impact_velocity_kms p) = None ->
  (_classify_neo_type (orbital_elements a) = None
   <-> _calculate_impact_velocity format_float a p h = (Ok 20, h)).
Proof.
  intros Hov. split.
  - intros Hnone. apply impact_velocity_fallback; [assumption|].
    destruct (orbital_elements a) as [oe|]; [right | left; reflexivity].
    exists oe. split; [reflexivity|].
    apply classify_neo_type_none. exact Hnone.
  - intros Hfallback.
    destruct (orbital_elements a) as [oe|] eqn:Hoe; [|reflexivity].
    apply classify_neo_type_none.
    destruct (Py.nonzero (semi_major_axis_au oe)) as [ax|] eqn:Hax;
      [exfalso | reflexivity].
    unfold _calculate_impact_velocity in Hfallback.
    rewrite Hov, Hoe, Hax in Hfallback.
    unfold bindM, lift, logger_info, ret in Hfallback.
    destruct (_calculate_orbital_velocity oe) as [vo|e]; [|discriminate].
    destruct (Py.math_sqrt (vo ^ 2 + EARTH_ESCAPE_VELOCITY ^ 2)) as [v|e];
      [|discriminate].
    injection Hfallback as _ Hheap.
    apply (f_equal log) in Hheap. simpl in Hheap.
    exact (app_singleton_neq _ _ Hheap).
Qed.

Lemma unclassified_orbit_uses_fallback_witness :
  _calculate_impact_velocity echo_format
    (with_orbit (plain_asteroid "rocky" None) (Some (orbit (Some 0) None)))
    (plain_parameters None 45 2700) scenario_heap
  = (Ok 20, scenario_heap).
Proof.
  apply (unclassified_orbit_uses_fallback echo_format
           (with_orbit (plain_asteroid "rocky" None)
              (Some (orbit (Some 0) None)))
           (plain_parameters None 45 2700) scenario_heap).
  - reflexivity.
  - apply classify_neo_type_none. simpl.
    destruct (Req_dec_T 0 0) as [_|H]; [reflexivity | exfalso; apply H; reflexivity].
Defined.

(** ** Composition and density *)

Lemma estimate_density_table (c : string) :
  _estimate_density c = spec_density_table c.
Proof.
  unfold _estimate_density, Py.get_default, spec_density_table; simpl.
  destruct (String.eqb c "rocky"); [reflexivity|].
  destruct (String.eqb c "iron"); [reflexivity|].
  destruct (String.eqb c "icy"); [reflexivity|].
  destruct (String.eqb c "stony"); reflexivity.
Qed.

Lemma estimate_density_bounds (c : string) :
  1000 <= _estimate_density c <= 7800.
Proof.
  rewrite estimate_density_table. unfold spec_density_table.
  repeat match goal with
         | |- context [String.eqb ?a ?b] => destruct (String.eqb a b)
         end; lra.
Qed.

(** X18. The density the service stores with an asteroid is the engine's
    own table value for the asteroid's class (2600 for a class outside
    the table): with it the engine never takes the failing subscript, on
    any class, and computes the mass it would compute with no override;
    the stored density lies between 1000 and 7800. *)
Theorem service_density_suits_engine (a : Asteroid) :
  density_kg_m3 a = Some (_estimate_density (composition_type a)) ->
  scenario_density a = Ok (_estimate_density (composition_type a)) /\
  _calculate_asteroid_mass a
    = _calculate_asteroid_mass (with_class a (composition_type a)) /\
  1000 <= _estimate_density (composition_type a) <= 7800.
Proof.
  intros Hd.
  pose proof (estimate_density_bounds (composition_type a)) as Hb.
  split; [|split; [|exact Hb]].
  - unfold scenario_density. rewrite Hd, py_nonzero_some by lra. reflexivity.
  - rewrite !asteroid_mass_value. unfold sphere_volume_m3, with_class.
    cbn [estimated_diameter_km density_kg_m3 composition_type].
    rewrite Hd, or_else_some by lra.
    change (Py.or_else None ?d) with d.
    rewrite estimate_density_table. reflexivity.
Qed.

Lemma service_density_suits_engine_witness :
  scenario_density (plain_asteroid "metallic" (Some (_estimate_density "metallic")))
  = Ok (_estimate_density "metallic").
Proof.
  apply (service_density_suits_engine
           (plain_asteroid "metallic" (Some (_estimate_density "metallic")))).
  reflexivity.
Defined.

(** X19. Whenever the composition estimate returns, it returns iron or
    rocky, both classes of the density table: iron exactly when the
    absolute magnitude is a non-zero number (or [true]) below 15, rocky
    when the magnitude is missing, null, zero, empty, or a number of at
    least 15. *)
Theorem estimate_composition_classes (neo_data : Svc.json) (c : string) :
  _estimate_composition neo_data = Svc.Done c ->
  exists magnitude,
    Svc.get neo_data "absolute_magnitude_h" Svc.JNull = Svc.Done magnitude /\
    In c ["rocky"; "iron"; "icy"; "stony"] /\
    ((c = "iron" /\
      exists x, Svc.as_number magnitude = Some x /\ x <> 0 /\ x < 15) \/
     (c = "rocky" /\
      (Svc.truthy magnitude = false \/
       exists x, Svc.as_number magnitude = Some x /\ 15 <= x))).
Proof.
  unfold _estimate_composition. intros H.
  destruct (Svc.get neo_data "absolute_magnitude_h" Svc.JNull)
    as [magnitude|e]; simpl in H; [|discriminate].
  exists magnitude. split; [reflexivity|].
  destruct (Svc.get neo_data "name" (Svc.JStr "")) as [nm|e]; simpl in H;
    [|discriminate].
  destruct (Svc.lower_check nm); simpl in H; [|discriminate].
  destruct (Svc.truthy magnitude) eqn:Htruthy.
  - unfold Svc.lt_number in H.
    destruct (Svc.as_number magnitude) as [x|] eqn:Hnum; simpl in H;
      [|discriminate].
    assert (Hnz : x <> 0).
    { destruct magnitude; simpl in Htruthy, Hnum; try discriminate.
      - injection Hnum as <-. destruct b; [lra | discriminate].
      - injection Hnum as <-.
        destruct (Req_dec_T x0 0); [discriminate | assumption]. }
    unfold py_lt, Py.gt in H.
    destruct (Rlt_dec x 15); injection H as <-.
    + split; [simpl; auto|]. left. split; [reflexivity|]. eauto.
    + split; [simpl; auto|]. right. split; [reflexivity|].
      right. exists x. split; [reflexivity | lra].
  - injection H as <-. split; [simpl; auto|].
    right. split; [reflexivity|]. left. reflexivity.
Qed.

Lemma estimate_composition_classes_witness :
  _estimate_composition
    (Svc.JObj [("name", Svc.JStr "433 Eros");
               ("absolute_magnitude_h", Svc.JNum 10.4)])
  = Svc.Done "iron" /\
  In "iron" ["rocky"; "iron"; "icy"; "stony"].
Proof.
  assert (H : _estimate_composition
                (Svc.JObj [("name", Svc.JStr "433 Eros");
                           ("absolute_magnitude_h", Svc.JNum 10.4)])
              = Svc.Done "iron").
  { unfold _estimate_composition. simpl.
    destruct (Req_dec_T 10.4 0); [lra|]. simpl.
    unfold py_lt, Py.gt. destruct (Rlt_dec 10.4 15); [reflexivity | lra]. }
  split; [exact H|].
  destruct (estimate_composition_classes _ _ H) as [m [_ [Hin _]]].
  exact Hin.
Defined.

(** ** Diameter extraction and the filter *)

Lemma extract_nasa_neo (lo hi : Svc.json) (rest : list (string * Svc.json)) :
  _extract_average_diameter (nasa_neo lo hi rest)
  = if negb (Svc.is_none lo) && negb (Svc.is_none hi) then
      avg <-- Svc.half_sum lo hi ;; Svc.Done (Some avg)
    else Svc.Done None.
Proof. reflexivity. Qed.

Lemma extract_needs_dict (neo : Svc.json) (d : option R) :
  _extract_average_diameter neo = Svc.Done d ->
  exists fields, neo = Svc.JObj fields.
Proof.
  destruct neo; try discriminate. eauto.
Qed.

(** X20. The average diameter of a NASA record with numeric bounds is
    their midpoint, which lies between them; a record without diameter
    data, or with a null bound, has no average and is no error; bounds
    given as strings raise TypeError; a record that is not a dict raises
    AttributeError. *)
Theorem average_diameter_cases :
  (forall x y rest,
     _extract_average_diameter (nasa_neo (Svc.JNum x) (Svc.JNum y) rest)
       = Svc.Done (Some ((x + y) / 2)) /\
     Rmin x y <= (x + y) / 2 <= Rmax x y) /\
  (forall bound rest,
     _extract_average_diameter (nasa_neo Svc.JNull bound rest) = Svc.Done None /\
     _extract_average_diameter (nasa_neo bound Svc.JNull rest) = Svc.Done None) /\
  (forall fields,
     Py.get fields "estimated_diameter" = None ->
     _extract_average_diameter (Svc.JObj fields) = Svc.Done None) /\
  (forall s t rest,
     _extract_average_diameter (nasa_neo (Svc.JStr s) (Svc.JStr t) rest)
       = Svc.Fail Svc.TypeError) /\
  (forall neo,
     (forall fields, neo <> Svc.JObj fields) ->
     _extract_average_diameter neo = Svc.Fail Svc.AttributeError).
Proof.
  split; [|split; [|split; [|split]]].
  - intros x y rest. split; [reflexivity|].
    unfold Rmin, Rmax. destruct (Rle_dec x y); lra.
  - intros bound rest. rewrite !extract_nasa_neo. simpl.
    rewrite andb_false_r. split; reflexivity.
  - intros fields Hnone. unfold _extract_average_diameter, Svc.get,
      Py.get_default. rewrite Hnone. reflexivity.
  - intros s t rest. reflexivity.
  - intros neo Hnot. destruct neo; try reflexivity.
    exfalso. apply (Hnot fields). reflexivity.
Qed.

Lemma average_diameter_cases_witness :
  _extract_average_diameter (Svc.JObj [("name", Svc.JStr "2020 AB")])
  = Svc.Done None /\
  _extract_average_diameter (Svc.JArr []) = Svc.Fail Svc.AttributeError.
Proof.
  split.
  - apply (proj1 (proj2 (proj2 average_diameter_cases))). reflexivity.
  - apply (proj2 (proj2 (proj2 (proj2 average_diameter_cases)))).
    intros fields H. discriminate.
Defined.

Lemma matches_filter_unfold (neo : Svc.json) (f : AsteroidFilter)
    (d : option R) :
  _extract_average_diameter neo = Svc.Done d ->
  _matches_filter neo f
  = if match Py.nonzero d, Py.nonzero (diameter_min_km f) with
       | Some x, Some lo => py_lt x lo
       | _, _ => false
       end then Svc.Done false
    else if match Py.nonzero d, Py.nonzero (diameter_max_km f) with
            | Some x, Some hi => Py.gt x hi
            | _, _ => false
            end then Svc.Done false
    else
      hazard_differs <--
        match potentially_hazardous f with
        | Some b =>
            flag <-- Svc.get neo "is_potentially_hazardous_asteroid"
                       Svc.JNull ;;
            Svc.Done (Svc.ne_bool flag b)
        | None => Svc.Done false
        end ;;
      if hazard_differs then Svc.Done false
      else
        match has_close_approaches f with
        | Some true =>
            approaches <-- Svc.get neo "close_approach_data" (Svc.JArr []) ;;
            if negb (Svc.truthy approaches) then Svc.Done false
            else Svc.Done true
        | _ => Svc.Done true
        end.
Proof.
  intros H. unfold _matches_filter. rewrite H. reflexivity.
Qed.

(** X21. A NEO whose average diameter is unknown or zero is never
    rejected for its size: the filter answers as it does without its
    diameter bounds.  A bound of zero is no bound either. *)
Theorem unknown_size_passes_diameter_bounds (neo : Svc.json)
    (f : AsteroidFilter) :
  (_extract_average_diameter neo = Svc.Done None \/
   _extract_average_diameter neo = Svc.Done (Some 0) ->
   _matches_filter neo f = _matches_filter neo (without_diameter_bounds f)) /\
  (Py.nonzero (diameter_min_km f) = None ->
   Py.nonzero (diameter_max_km f) = None ->
   _matches_filter neo f = _matches_filter neo (without_diameter_bounds f)).
Proof.
  split.
  - intros [H|H];
      rewrite (matches_filter_unfold neo f _ H),
        (matches_filter_unfold neo (without_diameter_bounds f) _ H);
      simpl.
    + reflexivity.
    + destruct (Req_dec_T 0 0) as [_|Hn]; [reflexivity | exfalso; apply Hn; reflexivity].
  - intros Hlo Hhi.
    destruct (_extract_average_diameter neo) as [d|e] eqn:Hd.
    + rewrite (matches_filter_unfold neo f _ Hd),
        (matches_filter_unfold neo (without_diameter_bounds f) _ Hd).
      rewrite Hlo, Hhi. simpl.
      destruct (Py.nonzero d); reflexivity.
    + unfold _matches_filter. rewrite Hd. reflexivity.
Qed.

Lemma unknown_size_passes_diameter_bounds_witness :
  _matches_filter (Svc.JObj [("name", Svc.JStr "2020 AB")])
    (filter_on (Some 5) (Some 10) None None)
  = Svc.Done true.
Proof.
  rewrite (proj1 (unknown_size_passes_diameter_bounds
                    (Svc.JObj [("name", Svc.JStr "2020 AB")])
                    (filter_on (Some 5) (Some 10) None None)));
    [reflexivity | left; reflexivity].
Defined.

(** X22. For a NEO of known, non-zero average diameter d and a filter
    made of two non-zero diameter bounds only, the NEO passes exactly
    when lo <= d <= hi. *)
Theorem diameter_range_filter (neo : Svc.json) (d lo hi : R) :
  _extract_average_diameter neo = Svc.Done (Some d) ->
  d <> 0 -> lo <> 0 -> hi <> 0 ->
  (exists b,
     _matches_filter neo (filter_on (Some lo) (Some hi) None None)
       = Svc.Done b) /\
  (_matches_filter neo (filter_on (Some lo) (Some hi) None None)
     = Svc.Done true
   <-> lo <= d <= hi).
Proof.
  intros Hd Hnz Hlo Hhi.
  rewrite (matches_filter_unfold neo _ _ Hd). simpl.
  destruct (Req_dec_T d 0); [contradiction|].
  destruct (Req_dec_T lo 0); [contradiction|].
  destruct (Req_dec_T hi 0); [contradiction|].
  unfold py_lt, Py.gt. case_comparisons; simpl;
    (split; [eauto|]); split; intros; try discriminate; try reflexivity; lra.
Qed.

Lemma diameter_range_filter_witness :
  _matches_filter (nasa_neo (Svc.JNum 0.4) (Svc.JNum 0.8) [])
    (filter_on (Some 0.5) (Some 2) None None)
  = Svc.Done true.
Proof.
  apply (proj2 (diameter_range_filter
                  (nasa_neo (Svc.JNum 0.4) (Svc.JNum 0.8) [])
                  ((0.4 + 0.8) / 2) 0.5 2 eq_refl
                  ltac:(lra) ltac:(lra) ltac:(lra))).
  lra.
Defined.

(** X23. For a NEO whose average diameter is extracted without an
    exception (to a number or to None): a filter on the hazard flag, true
    or false, returns False when the record lacks the flag or carries
    null there; and when the record carries a boolean flag, a filter with
    no other criterion returns True exactly when the flag equals the
    filter's value. *)
Theorem hazard_filter_needs_flag (neo : Svc.json) (d : option R) (b : bool) :
  _extract_average_diameter neo = Svc.Done d ->
  (forall f,
     potentially_hazardous f = Some b ->
     Svc.get neo "is_potentially_hazardous_asteroid" Svc.JNull
       = Svc.Done Svc.JNull ->
     _matches_filter neo f = Svc.Done false) /\
  (forall flag,
     Svc.get neo "is_potentially_hazardous_asteroid" Svc.JNull
       = Svc.Done (Svc.JBool flag) ->
     _matches_filter neo (filter_on None None (Some b) None)
       = Svc.Done (Bool.eqb flag b)).
Proof.
  intros Hd. split.
  - intros f Hf Hflag.
    rewrite (matches_filter_unfold neo f _ Hd), Hf, Hflag.
    destruct (match Py.nonzero d, Py.nonzero (diameter_min_km f) with
              | Some x, Some lo => py_lt x lo
              | _, _ => false
              end); [reflexivity|].
    destruct (match Py.nonzero d, Py.nonzero (diameter_max_km f) with
              | Some x, Some hi => Py.gt x hi
              | _, _ => false
              end); reflexivity.
  - intros flag Hflag.
    rewrite (matches_filter_unfold neo _ _ Hd). simpl. rewrite Hflag.
    destruct (Py.nonzero d); simpl; destruct flag, b; reflexivity.
Qed.

Lemma hazard_filter_needs_flag_witness :
  _matches_filter (nasa_neo (Svc.JNum 0.4) (Svc.JNum 0.8) [])
    (filter_on None None (Some false) None)
  = Svc.Done false.
Proof.
  apply (proj1 (hazard_filter_needs_flag
                  (nasa_neo (Svc.JNum 0.4) (Svc.JNum 0.8) [])
                  (Some ((0.4 + 0.8) / 2)) false eq_refl));
    reflexivity.
Defined.

(** ** The paged search *)

Section Search.

Variable browse : Z -> option Svc.json.

Variable filters : AsteroidFilter.

Lemma firstn_filter_app (k : nat) (l1 l2 : list Svc.json) :
  firstn k (filter (passes filters) (l1 ++ l2))
  = (firstn k (filter (passes filters) l1)
     ++ firstn (k - List.length (firstn k (filter (passes filters) l1)))
          (filter (passes filters) l2))%list.
Proof.
  rewrite filter_app, firstn_app, length_firstn.
  f_equal.
  destruct (Nat.le_gt_cases k (List.length (filter (passes filters) l1))) as [H|H].
  - rewrite Nat.min_l by assumption.
    replace (k - List.length (filter (passes filters) l1))%nat with 0%nat by lia.
    replace (k - k)%nat with 0%nat by lia. reflexivity.
  - rewrite Nat.min_r by lia. reflexivity.
Qed.

(** What one page adds: the first passing items of its clean prefix, up
    to the limit; the scan ends with an exception only when the limit is
    not reached before the first raising item. *)
Lemma scan_page_exact (neos : list Svc.json) :
  forall (all_asteroids : list Svc.json) (collected : Z),
    let k := Z.to_nat (limit filters - collected) in
    let added := firstn k (filter (passes filters) (clean_prefix filters neos)) in
    exists finished,
      scan_page filters neos all_asteroids collected
      = ((all_asteroids ++ added)%list,
         (collected + Z.of_nat (List.length added))%Z, finished) /\
      (finished = false ->
       clean filters neos = false /\
       (List.length (filter (passes filters) (clean_prefix filters neos)) < k)%nat) /\
      (finished = true ->
       clean filters neos = true \/
       (limit filters <= collected + Z.of_nat (List.length added))%Z).
Proof.
  induction neos as [|neo rest IH]; intros all_asteroids collected k added.
  - exists true. subst added. simpl. rewrite firstn_nil, app_nil_r. simpl.
    rewrite Z.add_0_r. repeat split; auto; discriminate.
  - simpl scan_page.
    destruct (collected >=? limit filters)%Z eqn:Hge.
    + apply Z.geb_le in Hge.
      assert (Hk : k = 0%nat) by (subst k; lia).
      exists true. subst added. rewrite Hk. simpl.
      rewrite app_nil_r, Z.add_0_r.
      split; [reflexivity|]. split; [discriminate|].
      intros _. right. lia.
    + assert (Hlt : (collected < limit filters)%Z).
      { destruct (Z.geb_spec collected (limit filters)); [discriminate | lia]. }
      subst added. simpl clean_prefix. simpl clean.
      assert (Hp : passes filters neo
                   = match _matches_filter neo filters with
                     | Svc.Done true => true
                     | _ => false
                     end) by reflexivity.
      destruct (_matches_filter neo filters) as [[|]|e] eqn:Hm.
      * (* the item passes *)
        destruct (IH (all_asteroids ++ [neo])%list (collected + 1)%Z)
          as [fin [Hscan [Hfalse Htrue]]].
        exists fin. simpl filter. rewrite Hp.
        assert (Hk : k = S (Z.to_nat (limit filters - (collected + 1))))
          by (subst k; lia).
        rewrite Hk. simpl firstn. simpl List.length.
        rewrite Hscan, <- app_assoc. simpl.
        split; [f_equal; f_equal; lia|].
        split.
        -- intros Hf. destruct (Hfalse Hf) as [Hc Hl]. split; [exact Hc | lia].
        -- intros Ht. destruct (Htrue Ht) as [Hc|Hl]; [left; exact Hc | right; lia].
      * (* the item is rejected *)
        destruct (IH all_asteroids collected) as [fin [Hscan [Hfalse Htrue]]].
        exists fin. simpl filter. rewrite Hp.
        rewrite Hscan. split; [reflexivity|]. split; assumption.
      * (* the filter raises *)
        exists false. simpl filter. rewrite firstn_nil, app_nil_r.
        simpl List.length. rewrite Z.add_0_r.
        split; [reflexivity|]. split; [|discriminate].
        intros _. split; [reflexivity|]. subst k. lia.
Qed.

Lemma firstn_filter_clean_prefix_all (k : nat) (items : list Svc.json) :
  (List.length (filter (passes filters) (clean_prefix filters items)) < k)%nat ->
  firstn k (filter (passes filters) (clean_prefix filters items))
  = filter (passes filters) (clean_prefix filters items).
Proof. intros H. apply firstn_all2. lia. Qed.

Lemma clean_prefix_of_clean (items : list Svc.json) :
  clean filters items = true -> clean_prefix filters items = items.
Proof.
  induction items as [|neo rest IH]; simpl; [reflexivity|].
  destruct (_matches_filter neo filters); [|discriminate].
  intros H. rewrite IH by assumption. reflexivity.
Qed.

(** The loop, from any page with the matching number of pages left. *)
Lemma search_pages_exact (remaining : nat) :
  forall (page : Z) (all_asteroids : list Svc.json) (collected : Z),
    (page + Z.of_nat remaining = 51)%Z ->
    search_pages browse filters remaining page all_asteroids collected
    = (all_asteroids
       ++ firstn (Z.to_nat (limit filters - collected))
            (filter (passes filters) (available browse filters remaining page)))%list.
Proof.
  induction remaining as [|remaining' IH]; intros page all_asteroids collected Hpage.
  - simpl. destruct (collected <? limit filters)%Z;
      rewrite firstn_nil, app_nil_r; reflexivity.
  - simpl search_pages.
    destruct (collected <? limit filters)%Z eqn:Hlt.
    2: { apply Z.ltb_ge in Hlt.
         replace (Z.to_nat (limit filters - collected)) with 0%nat by lia.
         simpl. rewrite app_nil_r. reflexivity. }
    apply Z.ltb_lt in Hlt.
    simpl available. unfold page_items.
    destruct (browse page) as [data|];
      [|simpl; rewrite firstn_nil, app_nil_r; reflexivity].
    destruct (Svc.get data "near_earth_objects" (Svc.JArr [])) as [neos|e];
      [|simpl; rewrite firstn_nil, app_nil_r; reflexivity].
    destruct (negb (Svc.truthy neos));
      [simpl; rewrite firstn_nil, app_nil_r; reflexivity|].
    destruct (Svc.iterate neos) as [items|e];
      [|simpl; rewrite firstn_nil, app_nil_r; reflexivity].
    destruct (scan_page_exact items all_asteroids collected)
      as [fin [Hscan [Hfalse Htrue]]].
    cbv zeta in Hscan, Hfalse, Htrue. rewrite Hscan.
    set (k := Z.to_nat (limit filters - collected)) in *.
    destruct fin; simpl negb; cbv iota.
    + (* the scan of the page ended normally *)
      destruct (Htrue eq_refl) as [Hclean|Hfull].
      * rewrite Hclean. rewrite (clean_prefix_of_clean items Hclean) in *.
        rewrite firstn_filter_app.
        destruct (Z.gtb_spec (page + 1) 50) as [Hlast|Hlast].
        -- assert (remaining' = 0%nat) by lia. subst remaining'.
           simpl available. simpl filter. rewrite firstn_nil, app_nil_r.
           reflexivity.
        -- rewrite IH by lia. rewrite <- app_assoc. f_equal. f_equal.
           f_equal. subst k. lia.
      * assert (Hlen : List.length
                         (firstn k (filter (passes filters) (clean_prefix filters items)))
                       = k).
        { pose proof (firstn_le_length k
                        (filter (passes filters) (clean_prefix filters items))).
          subst k. lia. }
        assert (Hdone : search_pages browse filters remaining' (page + 1)
                          (all_asteroids
                           ++ firstn k (filter (passes filters) (clean_prefix filters items)))
                          (collected
                           + Z.of_nat
                               (List.length
                                  (firstn k
                                     (filter (passes filters) (clean_prefix filters items)))))
                        = (all_asteroids
                           ++ firstn k
                                (filter (passes filters) (clean_prefix filters items)))%list).
        { destruct remaining'; simpl;
            replace (_ <? limit filters)%Z with false; try reflexivity;
            symmetry; apply Z.ltb_ge; lia. }
        rewrite Hdone.
        assert (Hrhs : firstn k (filter (passes filters)
                         (if clean filters items
                          then (items ++ available browse filters remaining'
                                           (page + 1))%list
                          else clean_prefix filters items))
                       = firstn k (filter (passes filters) (clean_prefix filters items))).
        { destruct (clean filters items) eqn:Hclean; [|reflexivity].
          rewrite (clean_prefix_of_clean items Hclean) in *.
          rewrite firstn_filter_app, Hlen, Nat.sub_diag. simpl.
          rewrite app_nil_r. reflexivity. }
        rewrite Hrhs. destruct (page + 1 >? 50)%Z; reflexivity.
    + (* the filter raised inside the page *)
      destruct (Hfalse eq_refl) as [Hdirty Hshort].
      rewrite Hdirty. reflexivity.
Qed.

End Search.

Lemma firstn_incl {A : Type} (n : nat) :
  forall (l : list A) (x : A), In x (firstn n l) -> In x l.
Proof.
  induction n as [|n' IH]; intros [|y l] x H; simpl in H; try contradiction.
  destruct H as [H|H]; [left; exact H | right; apply IH; exact H].
Qed.

Section SearchProperties.

Variable filters : AsteroidFilter.

Lemma passes_true (neo : Svc.json) :
  passes filters neo = true <-> _matches_filter neo filters = Svc.Done true.
Proof.
  unfold passes.
  destruct (_matches_filter neo filters) as [[|]|e]; split;
    intros H; try reflexivity; discriminate.
Qed.

Lemma clean_prefix_incl (items : list Svc.json) (neo : Svc.json) :
  In neo (clean_prefix filters items) -> In neo items.
Proof.
  induction items as [|x rest IH]; simpl; [auto|].
  destruct (_matches_filter x filters); simpl; [|tauto].
  intros [H|H]; auto.
Qed.

Lemma available_provenance (browse : Z -> option Svc.json) (pages : nat) :
  forall (page : Z) (neo : Svc.json),
    In neo (available browse filters pages page) ->
    exists pg items,
      (page <= pg < page + Z.of_nat pages)%Z /\
      page_items browse pg = Some items /\ In neo items.
Proof.
  induction pages as [|pages' IH]; intros page neo Hin; [destruct Hin|].
  simpl in Hin.
  destruct (page_items browse page) as [items|] eqn:Hitems; [|destruct Hin].
  destruct (clean filters items).
  - apply in_app_or in Hin. destruct Hin as [Hin|Hin].
    + exists page, items. split; [lia|]. auto.
    + destruct (IH _ _ Hin) as [pg [items' [Hpg H]]].
      exists pg, items'. split; [lia | exact H].
  - exists page, items. split; [lia|]. split; [assumption|].
    apply clean_prefix_incl. exact Hin.
Qed.

Lemma available_agree (browse browse' : Z -> option Svc.json) (pages : nat) :
  forall page : Z,
    (forall pg, (page <= pg < page + Z.of_nat pages)%Z ->
                browse pg = browse' pg) ->
    available browse filters pages page = available browse' filters pages page.
Proof.
  induction pages as [|pages' IH]; intros page Hagree; [reflexivity|].
  simpl. unfold page_items. rewrite <- (Hagree page) by lia.
  destruct (browse page) as [data|]; [|reflexivity].
  destruct (Svc.get data "near_earth_objects" (Svc.JArr [])) as [neos|e];
    [|reflexivity].
  destruct (negb (Svc.truthy neos)); [reflexivity|].
  destruct (Svc.iterate neos) as [items|e]; [|reflexivity].
  destruct (clean filters items); [|reflexivity].
  rewrite IH; [reflexivity|]. intros pg Hpg. apply Hagree. lia.
Qed.

(** More pages left than the guard on the page number allows change
    nothing. *)
Lemma search_pages_fuel (browse : Z -> option Svc.json) (r1 : nat) :
  forall (r2 : nat) (page : Z) (all_asteroids : list Svc.json) (collected : Z),
    (page <= 50)%Z ->
    (51 - page <= Z.of_nat r1)%Z -> (51 - page <= Z.of_nat r2)%Z ->
    search_pages browse filters r1 page all_asteroids collected
    = search_pages browse filters r2 page all_asteroids collected.
Proof.
  induction r1 as [|r1' IH]; intros r2 page all_asteroids collected Hp H1 H2;
    [lia|].
  destruct r2 as [|r2']; [lia|].
  simpl.
  destruct (collected <? limit filters)%Z; [|reflexivity].
  destruct (browse page) as [data|]; [|reflexivity].
  destruct (Svc.get data "near_earth_objects" (Svc.JArr [])) as [neos|e];
    [|reflexivity].
  destruct (negb (Svc.truthy neos)); [reflexivity|].
  destruct (Svc.iterate neos) as [items|e]; [|reflexivity].
  destruct (scan_page filters items all_asteroids collected) as [[all' c'] fin].
  destruct (negb fin); [reflexivity|].
  destruct (Z.gtb_spec (page + 1) 50); [reflexivity|].
  apply IH; lia.
Qed.

(** X24. The search returns, in their order of appearance, the first
    [limit] NEOs that pass the filter among the records it can reach:
    those of pages 0, 1, ... up to page 50, stopping at the first page
    that fails, is empty or cannot be scanned, and at the first record on
    which the filter raises. *)
Theorem search_asteroids_characterized (browse : Z -> option Svc.json) :
  search_asteroids browse filters
  = firstn (Z.to_nat (limit filters))
      (filter (passes filters) (available browse filters 51 0)).
Proof.
  unfold search_asteroids.
  rewrite search_pages_exact by reflexivity.
  rewrite Z.sub_0_r. reflexivity.
Qed.

(** X25. The search never returns more than [limit] records, none for a
    limit of zero or less or when the first request fails; every record
    returned passed the filter without an exception and was served on
    one of the pages 0 to 50. *)
Theorem search_asteroids_bounded_and_sound (browse : Z -> option Svc.json) :
  (Z.of_nat (List.length (search_asteroids browse filters))
   <= Z.max 0 (limit filters))%Z /\
  ((limit filters <= 0)%Z -> search_asteroids browse filters = []) /\
  (browse 0%Z = None -> search_asteroids browse filters = []) /\
  (forall neo,
     In neo (search_asteroids browse filters) ->
     _matches_filter neo filters = Svc.Done true /\
     exists page items,
       (0 <= page <= 50)%Z /\
       page_items browse page = Some items /\ In neo items).
Proof.
  unfold search_asteroids.
  rewrite search_pages_exact by reflexivity.
  rewrite Z.sub_0_r, app_nil_l.
  split; [|split; [|split]].
  - pose proof (firstn_le_length (Z.to_nat (limit filters))
                  (filter (passes filters) (available browse filters 51 0))).
    lia.
  - intros Hle. replace (Z.to_nat (limit filters)) with 0%nat by lia.
    reflexivity.
  - intros Hnone. simpl available. unfold page_items. rewrite Hnone.
    simpl. apply firstn_nil.
  - intros neo Hin.
    apply firstn_incl in Hin. apply filter_In in Hin. destruct Hin as [Hin Hp].
    split; [apply passes_true; exact Hp|].
    destruct (available_provenance browse 51 0 neo Hin)
      as [pg [items [Hpg H]]].
    exists pg, items. split; [lia | exact H].
Qed.

(** X26. The search asks for at most the 51 pages 0 to 50: two services
    that answer alike on these pages give the same result; and the count
    of 51 pages that bounds the loop is not a cut, a larger count
    returns the same list. *)
Theorem search_asteroids_reads_51_pages (browse browse' : Z -> option Svc.json) :
  ((forall page, (0 <= page <= 50)%Z -> browse page = browse' page) ->
   search_asteroids browse filters = search_asteroids browse' filters) /\
  (forall extra,
     search_pages browse filters (51 + extra) 0 [] 0
     = search_asteroids browse filters).
Proof.
  split.
  - intros Hagree. unfold search_asteroids.
    rewrite !search_pages_exact by reflexivity.
    rewrite (available_agree browse browse' 51 0); [reflexivity|].
    intros pg Hpg. apply Hagree. lia.
  - intros extra. unfold search_asteroids.
    apply search_pages_fuel; lia.
Qed.

End SearchProperties.

(** One page holding a small NEO, a large one and a record without
    diameter data, searched for NEOs of at least 1 km. *)
Lemma search_asteroids_characterized_witness :
  search_asteroids
    (single_page [nasa_neo (Svc.JNum 0.1) (Svc.JNum 0.3) [];
                  nasa_neo (Svc.JNum 1) (Svc.JNum 3) [];
                  Svc.JObj [("name", Svc.JStr "2020 AB")]])
    (with_limit (filter_on (Some 1) None None None) 5)
  = [nasa_neo (Svc.JNum 1) (Svc.JNum 3) [];
     Svc.JObj [("name", Svc.JStr "2020 AB")]].
Proof.
  assert (Hsmall : _matches_filter (nasa_neo (Svc.JNum 0.1) (Svc.JNum 0.3) [])
                     (with_limit (filter_on (Some 1) None None None) 5)
                   = Svc.Done false).
  { unfold _matches_filter. rewrite extract_nasa_neo. simpl.
    destruct (Req_dec_T ((0.1 + 0.3) / 2) 0); [exfalso; lra|].
    destruct (Req_dec_T 1 0); [exfalso; lra|].
    unfold py_lt, Py.gt.
    destruct (Rlt_dec ((0.1 + 0.3) / 2) 1); [reflexivity | exfalso; lra]. }
  assert (Hlarge : _matches_filter (nasa_neo (Svc.JNum 1) (Svc.JNum 3) [])
                     (with_limit (filter_on (Some 1) None None None) 5)
                   = Svc.Done true).
  { unfold _matches_filter. rewrite extract_nasa_neo. simpl.
    destruct (Req_dec_T ((1 + 3) / 2) 0); [exfalso; lra|].
    destruct (Req_dec_T 1 0); [exfalso; lra|].
    unfold py_lt, Py.gt.
    destruct (Rlt_dec ((1 + 3) / 2) 1); [exfalso; lra | reflexivity]. }
  assert (Hnone : _matches_filter (Svc.JObj [("name", Svc.JStr "2020 AB")])
                    (with_limit (filter_on (Some 1) None None None) 5)
                  = Svc.Done true)
    by reflexivity.
  rewrite (search_asteroids_characterized
             (with_limit (filter_on (Some 1) None None None) 5)
             (single_page [nasa_neo (Svc.JNum 0.1) (Svc.JNum 0.3) [];
                           nasa_neo (Svc.JNum 1) (Svc.JNum 3) [];
                           Svc.JObj [("name", Svc.JStr "2020 AB")]])).
  cbn [available]. unfold page_items, single_page.
  cbn -[passes clean nasa_neo filter_on _matches_filter].
  cbn [clean]. rewrite Hsmall, Hlarge, Hnone.
  cbn [app filter]. unfold passes. rewrite Hsmall, Hlarge, Hnone.
  reflexivity.
Defined.

Lemma search_asteroids_bounded_and_sound_witness :
  search_asteroids (single_page [Svc.JObj [("name", Svc.JStr "2020 AB")]])
    (with_limit (filter_on None None None None) 0) = [] /\
  search_asteroids (fun _ => None)
    (with_limit (filter_on None None None None) 5) = [].
Proof.
  split.
  - apply (proj1 (proj2 (search_asteroids_bounded_and_sound
                           (with_limit (filter_on None None None None) 0)
                           (single_page
                              [Svc.JObj [("name", Svc.JStr "2020 AB")]])))).
    simpl. lia.
  - apply (proj1 (proj2 (proj2 (search_asteroids_bounded_and_sound
                                  (with_limit (filter_on None None None None) 5)
                                  (fun _ => None))))).
    reflexivity.
Defined.

Lemma search_asteroids_reads_51_pages_witness :
  search_asteroids
    (single_page [Svc.JObj [("name", Svc.JStr "2020 AB")]])
    (with_limit (filter_on None None None None) 5)
  = search_asteroids
      (fun page =>
         if (page <=? 50)%Z then
           single_page [Svc.JObj [("name", Svc.JStr "2020 AB")]] page
         else Some Svc.JNull)
      (with_limit (filter_on None None None None) 5).
Proof.
  apply (proj1 (search_asteroids_reads_51_pages
                  (with_limit (filter_on None None None None) 5)
                  (single_page [Svc.JObj [("name", Svc.JStr "2020 AB")]])
                  (fun page =>
                     if (page <=? 50)%Z then
                       single_page
                         [Svc.JObj [("name", Svc.JStr "2020 AB")]] page
                     else Some Svc.JNull))).
  intros page Hpage.
  destruct (Z.leb_spec page 50); [reflexivity | lia].
Defined.

(** * Properties of the comparison matrix *)

Lemma value_or_zero_present (metrics : Py.dict ImpactMetric) (key : string)
    (metric : ImpactMetric) :
  Py.get metrics key = Some metric ->
  exists v, value_or_zero metrics key = Svc.Done v /\ v <> "".
Proof.
  intros Hget. unfold value_or_zero. rewrite Hget.
  destruct (value metric) as [|c rest].
  - exists "0". split; [reflexivity | discriminate].
  - exists (String c rest). split; [reflexivity | discriminate].
Qed.

Lemma value_or_zero_missing (metrics : Py.dict ImpactMetric) (key : string) :
  Py.get metrics key = None ->
  value_or_zero metrics key = Svc.Fail Svc.AttributeError.
Proof.
  intros Hget. unfold value_or_zero. rewrite Hget. reflexivity.
Qed.

Lemma extended_by_cons (sim : Simulation) (rest : list Simulation)
    (rows0 rows : list MatrixRow) (v : string) :
  has_results sim = true -> v <> "" ->
  extended_by rest (rows0 ++ [matrix_row sim v]) rows ->
  extended_by (sim :: rest) rows0 rows.
Proof.
  intros Hres Hv [new [Hrows [Hkeys Hvalues]]].
  exists (matrix_row sim v :: new). split; [|split].
  - rewrite Hrows, <- app_assoc. reflexivity.
  - simpl. rewrite Hres. simpl. rewrite Hkeys. reflexivity.
  - constructor; [exact Hv | exact Hvalues].
Qed.

Lemma extended_by_skip (sim : Simulation) (rest : list Simulation)
    (rows0 rows : list MatrixRow) :
  has_results sim = false ->
  extended_by rest rows0 rows -> extended_by (sim :: rest) rows0 rows.
Proof.
  intros Hres [new [Hrows [Hkeys Hvalues]]].
  exists new. split; [exact Hrows | split; [|exact Hvalues]].
  simpl. rewrite Hres. exact Hkeys.
Qed.

Lemma comparison_rows_done (simulations : list Simulation) :
  forall matrix : ComparisonMatrix,
    all_comparable simulations = true ->
    exists m,
      comparison_rows simulations matrix = Svc.Done m /\
      extended_by simulations (crater_diameters matrix) (crater_diameters m) /\
      extended_by simulations (energies matrix) (energies m) /\
      extended_by simulations (matrix_casualties matrix)
        (matrix_casualties m) /\
      extended_by simulations (shockwave_radii matrix) (shockwave_radii m).
Proof.
  induction simulations as [|sim rest IH]; intros matrix Hall.
  - exists matrix. split; [reflexivity|].
    split; [|split; [|split]];
      (exists []; rewrite app_nil_r; split; [reflexivity|];
       split; [reflexivity | constructor]).
  - simpl in Hall. apply andb_prop in Hall. destruct Hall as [Hsim Hrest].
    simpl. destruct (simulation_results sim) as [results|] eqn:Hresults.
    + unfold comparable in Hsim.
      destruct (Py.get (immediate results) "craterDiameter")
        as [m1|] eqn:H1; [|discriminate].
      destruct (Py.get (immediate results) "energy")
        as [m2|] eqn:H2; [|discriminate].
      destruct (Py.get (human_impact results) "casualtiesImmediate")
        as [m3|] eqn:H3; [|discriminate].
      destruct (Py.get (environmental results) "shockwaveRadius")
        as [m4|] eqn:H4; [|discriminate].
      destruct (value_or_zero_present _ _ _ H1) as [v1 [E1 N1]].
      destruct (value_or_zero_present _ _ _ H2) as [v2 [E2 N2]].
      destruct (value_or_zero_present _ _ _ H3) as [v3 [E3 N3]].
      destruct (value_or_zero_present _ _ _ H4) as [v4 [E4 N4]].
      rewrite E1, E2, E3, E4. simpl Svc.and_then.
      assert (Hhas : has_results sim = true)
        by (unfold has_results; rewrite Hresults; reflexivity).
      destruct (IH {| crater_diameters :=
                        crater_diameters matrix ++ [matrix_row sim v1];
                      energies := energies matrix ++ [matrix_row sim v2];
                      matrix_casualties :=
                        matrix_casualties matrix ++ [matrix_row sim v3];
                      shockwave_radii :=
                        shockwave_radii matrix ++ [matrix_row sim v4] |}
                  Hrest)
        as [m [Hm [Hc [He [Hh Hs]]]]].
      exists m. split; [exact Hm|].
      cbn [crater_diameters energies matrix_casualties shockwave_radii]
        in Hc, He, Hh, Hs.
      split; [exact (extended_by_cons _ _ _ _ _ Hhas N1 Hc)|].
      split; [exact (extended_by_cons _ _ _ _ _ Hhas N2 He)|].
      split; [exact (extended_by_cons _ _ _ _ _ Hhas N3 Hh)|].
      exact (extended_by_cons _ _ _ _ _ Hhas N4 Hs).
    + assert (Hhas : has_results sim = false)
        by (unfold has_results; rewrite Hresults; reflexivity).
      destruct (IH matrix Hrest) as [m [Hm [Hc [He [Hh Hs]]]]].
      exists m. split; [exact Hm|].
      split; [|split; [|split]]; apply extended_by_skip; assumption.
Qed.

Lemma comparison_rows_fail (simulations : list Simulation) :
  forall matrix : ComparisonMatrix,
    all_comparable simulations = false ->
    comparison_rows simulations matrix = Svc.Fail Svc.AttributeError.
Proof.
  induction simulations as [|sim rest IH]; intros matrix Hall;
    [discriminate|].
  simpl in Hall. simpl.
  destruct (simulation_results sim) as [results|]; [|apply IH; exact Hall].
  unfold comparable in Hall.
  destruct (Py.get (immediate results) "craterDiameter")
    as [m1|] eqn:H1;
    [|rewrite (value_or_zero_missing _ _ H1); reflexivity].
  destruct (value_or_zero_present _ _ _ H1) as [v1 [E1 _]]. rewrite E1.
  simpl Svc.and_then.
  destruct (Py.get (immediate results) "energy")
    as [m2|] eqn:H2;
    [|rewrite (value_or_zero_missing _ _ H2); reflexivity].
  destruct (value_or_zero_present _ _ _ H2) as [v2 [E2 _]]. rewrite E2.
  simpl Svc.and_then.
  destruct (Py.get (human_impact results) "casualtiesImmediate")
    as [m3|] eqn:H3;
    [|rewrite (value_or_zero_missing _ _ H3); reflexivity].
  destruct (value_or_zero_present _ _ _ H3) as [v3 [E3 _]]. rewrite E3.
  simpl Svc.and_then.
  destruct (Py.get (environmental results) "shockwaveRadius")
    as [m4|] eqn:H4;
    [|rewrite (value_or_zero_missing _ _ H4); reflexivity].
  destruct (value_or_zero_present _ _ _ H4) as [v4 [E4 _]]. rewrite E4.
  simpl Svc.and_then.
  apply IH. exact Hall.
Qed.

Lemma extended_by_nil (simulations : list Simulation)
    (rows : list MatrixRow) :
  extended_by simulations [] rows ->
  map row_key rows = map simulation_key (filter has_results simulations) /\
  Forall (fun row => row_value row <> "") rows.
Proof.
  intros [new [Hrows [Hkeys Hvalues]]]. simpl in Hrows. subst rows. auto.
Qed.

Lemma outcome_of_shape (format_float : string -> R -> string)
    (a : Asteroid) (p : ImpactParameters) (v : R) (r : ImpactResults) :
  outcome_of format_float a p = Ok (v, r) ->
  exists energy_mt diameter_m q,
    r = results_of (effects_dict format_float energy_mt v diameter_m q).
Proof.
  unfold outcome_of.
  destruct (velocity_of format_float a p) as [v0|e]; [|discriminate].
  simpl bind.
  destruct (scenario_density a) as [rho|e]; [|discriminate].
  simpl bind.
  destruct (comprehensive_quantities _ _ _ _ _ _) as [q|e]; [|discriminate].
  simpl bind. intros H. inversion H. subst.
  eexists _, _, _. reflexivity.
Qed.

Lemma engine_results_comparable (format_float : string -> R -> string)
    (h : Heap) (r : ImpactResults) :
  fst (calculate_impact_scenario format_float h) = Ok r ->
  comparable r = true.
Proof.
  rewrite calculate_impact_scenario_result.
  destruct (outcome_of format_float (arg_asteroid h) (arg_parameters h))
    as [[v r']|e] eqn:Hout; [|discriminate].
  intros H. inversion H. subst r'.
  destruct (outcome_of_shape _ _ _ _ _ Hout) as [E [d [q ->]]].
  reflexivity.
Qed.

(** X27. When every simulation that has results carries the four
    compared metrics, the comparison matrix is built; each of its four
    lists has exactly one row for each simulation that has results, in
    the order of the simulations and under its id and name, so the lists
    are aligned row by row; simulations without results contribute no
    row; and no row has an empty value. *)
Theorem comparison_matrix_aligned (simulations : list Simulation) :
  all_comparable simulations = true ->
  exists m,
    _build_comparison_matrix simulations = Svc.Done m /\
    forall rows,
      In rows (matrix_lists m) ->
      map row_key rows
      = map simulation_key (filter has_results simulations) /\
      Forall (fun row => row_value row <> "") rows.
Proof.
  intros Hall.
  destruct (comparison_rows_done simulations
              {| crater_diameters := []; energies := [];
                 matrix_casualties := []; shockwave_radii := [] |} Hall)
    as [m [Hm [Hc [He [Hh Hs]]]]].
  exists m. split; [exact Hm|].
  cbn [crater_diameters energies matrix_casualties shockwave_radii]
    in Hc, He, Hh, Hs.
  intros rows [<-|[<-|[<-|[<-|[]]]]]; apply extended_by_nil; assumption.
Qed.

Lemma comparison_matrix_aligned_witness :
  exists m,
    _build_comparison_matrix
      [simulation_of "a" "first" (plain_parameters None 45 2700) None;
       simulation_of "b" "second" (plain_parameters None 45 2700)
         (Some (results_of (effects_dict echo_format 1 20 1000
                  {| crater_diameter_m := 1; fireball_radius_km := 1;
                     peak_temperature := 1; shockwave_radius_km := 1;
                     seismic_magnitude := 1; debris_radius_km := 1;
                     atmospheric_dust_tons := 1; casualties := 1;
                     infrastructure_damage_km := 1;
                     economic_loss_billion := 1; refugees := 1 |})))]
    = Svc.Done m /\
    forall rows,
      In rows (matrix_lists m) ->
      map row_key rows = [("b", "second")] /\
      Forall (fun row => row_value row <> "") rows.
Proof.
  apply (comparison_matrix_aligned
           [simulation_of "a" "first" (plain_parameters None 45 2700) None;
            simulation_of "b" "second" (plain_parameters None 45 2700)
              (Some (results_of (effects_dict echo_format 1 20 1000
                       {| crater_diameter_m := 1; fireball_radius_km := 1;
                          peak_temperature := 1; shockwave_radius_km := 1;
                          seismic_magnitude := 1; debris_radius_km := 1;
                          atmospheric_dust_tons := 1; casualties := 1;
                          infrastructure_damage_km := 1;
                          economic_loss_billion := 1; refugees := 1 |})))]).
  reflexivity.
Defined.

(** X28. When some simulation has results that lack one of the four
    compared metrics (craterDiameter or energy among the immediate ones,
    casualtiesImmediate among the human-impact ones, shockwaveRadius
    among the environmental ones), the comparison matrix is not built:
    the default of the lookup, an empty dict, has no attribute value, and
    AttributeError is raised, whatever the other simulations hold. *)
Theorem comparison_matrix_missing_metric (simulations : list Simulation) :
  all_comparable simulations = false ->
  _build_comparison_matrix simulations = Svc.Fail Svc.AttributeError.
Proof.
  intros Hall. apply comparison_rows_fail. exact Hall.
Qed.

Lemma comparison_matrix_missing_metric_witness :
  _build_comparison_matrix
    [simulation_of "a" "first" (plain_parameters None 45 2700)
       (Some {| immediate := []; environmental := []; human_impact := [];
                timeline := []; asteroid_source := "nasa_neo";
                calculation_method := "enhanced_physics";
                confidence_level := 0.85 |})]
  = Svc.Fail Svc.AttributeError.
Proof.
  apply (comparison_matrix_missing_metric
           [simulation_of "a" "first" (plain_parameters None 45 2700)
              (Some {| immediate := []; environmental := [];
                       human_impact := []; timeline := [];
                       asteroid_source := "nasa_neo";
                       calculation_method := "enhanced_physics";
                       confidence_level := 0.85 |})]).
  reflexivity.
Defined.

(** X29. Results returned by calculate_impact_scenario can always be
    compared: a list of simulations whose results, where present, were
    each returned by a call of the engine gives a comparison matrix, with
    as many rows in each list as there are simulations with results. *)
Theorem engine_results_can_be_compared
    (format_float : string -> R -> string) (simulations : list Simulation) :
  (forall sim r,
     In sim simulations -> simulation_results sim = Some r ->
     exists h, fst (calculate_impact_scenario format_float h) = Ok r) ->
  exists m,
    _build_comparison_matrix simulations = Svc.Done m /\
    forall rows,
      In rows (matrix_lists m) ->
      List.length rows = List.length (filter has_results simulations).
Proof.
  intros Hengine.
  assert (Hall : all_comparable simulations = true).
  { apply forallb_forall. intros sim Hin.
    destruct (simulation_results sim) as [r|] eqn:Hr; [|reflexivity].
    destruct (Hengine sim r Hin Hr) as [h Hh].
    exact (engine_results_comparable format_float h r Hh). }
  destruct (comparison_rows_done simulations
              {| crater_diameters := []; energies := [];
                 matrix_casualties := []; shockwave_radii := [] |} Hall)
    as [m [Hm [Hc [He [Hh Hs]]]]].
  exists m. split; [exact Hm|].
  cbn [crater_diameters energies matrix_casualties shockwave_radii]
    in Hc, He, Hh, Hs.
  intros rows Hrows.
  assert (Hkeys : map row_key rows
                  = map simulation_key (filter has_results simulations)).
  { destruct Hrows as [<-|[<-|[<-|[<-|[]]]]];
      apply extended_by_nil; assumption. }
  rewrite <- (length_map row_key rows), Hkeys. apply length_map.
Qed.

Lemma engine_results_can_be_compared_witness :
  exists r,
    fst (calculate_impact_scenario echo_format scenario_heap) = Ok r /\
    exists m,
      _build_comparison_matrix
        [simulation_of "a" "first" (plain_parameters None 45 2700) (Some r);
         simulation_of "b" "second" (plain_parameters None 45 2700) None]
      = Svc.Done m /\
      forall rows, In rows (matrix_lists m) -> List.length rows = 1%nat.
Proof.
  destruct (calculate_impact_scenario_returns_on_valid echo_format
              scenario_heap scenario_valid) as [r Hr].
  exists r. split; [exact Hr|].
  apply (engine_results_can_be_compared echo_format
           [simulation_of "a" "first" (plain_parameters None 45 2700)
              (Some r);
            simulation_of "b" "second" (plain_parameters None 45 2700)
              None]).
  intros sim r' [<-|[<-|[]]] Hres; simpl in Hres; [|discriminate].
  inversion Hres. subst r'. exists scenario_heap. exact Hr.
Defined.
